(** * AgSys leader: packet codec, OTA session and application-header patching

    A shallow embedding of [leader/src/protocol.py], [leader/src/ota_manager.py]
    and [devices/common/scripts/patch_app_header.py], followed by the
    properties established about them.

    Part I holds the embedding, one module per Python module or class.
    Part II holds the predicates and the sample data that the statements
    are written with.  Part III holds the lemmas and theorems. *)

From Stdlib Require Import String Ascii ZArith Bool Lia List.
From Stdlib.Strings Require Import Byte.
From Stdlib Require QArith.
Import ListNotations.
Local Open Scope Z_scope.

(* ===================================================================== *)
(** * Part I: the embedding                                               *)
(* ===================================================================== *)

(** ** Python values: [bytes], slices, little-endian integers *)

Module Py.

(** A Python [bytes] object. *)
Definition bytes := list byte.

Definition byte_val (b : byte) : Z := Z.of_N (Byte.to_N b).

Definition byte_of (z : Z) : byte :=
  match Byte.of_N (Z.to_N (z mod 256)) with
  | Some b => b
  | None => x00
  end.

(** [len(l)] *)
Definition len {A : Type} (l : list A) : Z := Z.of_nat (length l).

(** How a slice bound is resolved against a sequence of length [n]:
    a negative bound counts from the end, and every bound is clipped to
    [0 .. n]. *)
Definition clamp (n i : Z) : Z :=
  if i <? 0 then Z.max 0 (i + n) else Z.min i n.

(** [l[lo:hi]] *)
Definition slice {A : Type} (l : list A) (lo hi : Z) : list A :=
  let a := clamp (len l) lo in
  let b := clamp (len l) hi in
  firstn (Z.to_nat (b - a)) (skipn (Z.to_nat a) l).

(** [l[lo:]] *)
Definition slice_from {A : Type} (l : list A) (lo : Z) : list A :=
  slice l lo (len l).

(** [l[lo:hi] = seg] on a [bytearray]. *)
Definition slice_assign {A : Type} (l : list A) (lo hi : Z) (seg : list A)
  : list A :=
  let a := clamp (len l) lo in
  let b := Z.max a (clamp (len l) hi) in
  firstn (Z.to_nat a) l ++ seg ++ skipn (Z.to_nat b) l.

(** Little-endian unsigned integers on [n] bytes. *)
Fixpoint le_encode (n : nat) (v : Z) : bytes :=
  match n with
  | O => []
  | S k => byte_of v :: le_encode k (v / 256)
  end.

Fixpoint le_decode (l : bytes) : Z :=
  match l with
  | [] => 0
  | b :: t => byte_val b + 256 * le_decode t
  end.

(** [bytes.hex()] *)
Definition hex_digit (n : Z) : ascii :=
  ascii_of_N (Z.to_N (if n <? 10 then 48 + n else 87 + n)).

Fixpoint hex (l : bytes) : string :=
  match l with
  | [] => EmptyString
  | b :: t =>
      String (hex_digit (byte_val b / 16))
        (String (hex_digit (byte_val b mod 16)) (hex t))
  end.

(** [b.rstrip(b'\x00')] *)
Fixpoint rstrip0 (l : bytes) : bytes :=
  match l with
  | [] => []
  | b :: t =>
      match rstrip0 t with
      | [] => if Byte.eqb b x00 then [] else [b]
      | t' => b :: t'
      end
  end.

(** [b.ljust(n, b'\x00')] *)
Definition ljust0 (n : nat) (l : bytes) : bytes :=
  l ++ repeat x00 (n - length l).

(** A Python [str] is a sequence of code points. *)
Definition str := list Z.

(** [b.decode('ascii', errors='replace')]: a byte that is not ASCII
    becomes U+FFFD. *)
Definition decode_ascii_replace (l : bytes) : str :=
  map (fun b => if byte_val b <? 128 then byte_val b else 65533) l.

(** [s.encode('ascii')]: raises [UnicodeEncodeError] ([None]) on a code
    point that is not ASCII. *)
Fixpoint encode_ascii (s : str) : option bytes :=
  match s with
  | [] => Some []
  | c :: t =>
      if (0 <=? c) && (c <? 128) then
        match encode_ascii t with
        | Some r => Some (byte_of c :: r)
        | None => None
        end
      else None
  end.

Definition bytes_eqb (a b : bytes) : bool :=
  if list_eq_dec Byte.byte_eq_dec a b then true else false.

(** [s.replace(c, '')] for a one-character [c]: every occurrence of
    [c] is dropped. *)
Fixpoint str_remove (c : ascii) (s : string) : string :=
  match s with
  | EmptyString => EmptyString
  | String a r =>
      if Ascii.eqb a c then str_remove c r else String a (str_remove c r)
  end.

(** ASCII whitespace: space, tab, line feed, vertical tab, form feed,
    carriage return. *)
Definition is_space (c : ascii) : bool :=
  let n := Z.of_N (N_of_ascii c) in
  (n =? 32) || ((9 <=? n) && (n <=? 13)).

(** The value of a hexadecimal digit, of either case. *)
Definition digit_value (c : ascii) : option Z :=
  let n := Z.of_N (N_of_ascii c) in
  if (48 <=? n) && (n <=? 57) then Some (n - 48)
  else if (97 <=? n) && (n <=? 102) then Some (n - 87)
  else if (65 <=? n) && (n <=? 70) then Some (n - 55)
  else None.

(** [bytes.fromhex(s)]: two hexadecimal digits per byte, ASCII whitespace
    between bytes skipped; raises [ValueError] ([None]) on any other
    character and on a digit left alone. *)
Fixpoint fromhex (s : string) : option bytes :=
  match s with
  | EmptyString => Some []
  | String c r =>
      if is_space c then fromhex r
      else
        match digit_value c, r with
        | Some top, String c' r' =>
            match digit_value c', fromhex r' with
            | Some bot, Some t => Some (byte_of (16 * top + bot) :: t)
            | _, _ => None
            end
        | _, _ => None
        end
  end.

(** [str(n)] for an integer, as an f-string formats it. *)
Fixpoint decimal (fuel : nat) (n : Z) (acc : string) : string :=
  let acc' := String (ascii_of_N (Z.to_N (48 + n mod 10))) acc in
  match fuel with
  | O => acc'
  | S f => if n <? 10 then acc' else decimal f (n / 10) acc'
  end.

Definition str_of_int (n : Z) : string :=
  if n <? 0 then String "-" (decimal (Z.to_nat (Z.log2 (- n))) (- n) EmptyString)
  else decimal (Z.to_nat (Z.log2 n)) n EmptyString.

(** A [float], taken as the rational number it stands for. *)
Definition float := QArith_base.Q.

(** [float(n)] *)
Definition float_of_int (n : Z) : float := QArith_base.inject_Z n.

(** [int(x)] of a [float]: the fraction is cut off, toward zero. *)
Definition int_of_float (x : float) : Z :=
  Z.quot (QArith_base.Qnum x) (Z.pos (QArith_base.Qden x)).

End Py.

(** ** The [struct] module, for the little-endian formats the code uses *)

Module Struct.
Import Py.

(** One item of a format string: ['B'], ['H'], ['I'] are unsigned
    integers on 1, 2, 4 bytes; ['Ns'] is a byte string of [N] bytes. *)
Inductive item :=
| UInt (n : nat)
| Str (n : nat).

Definition B := UInt 1.
Definition H := UInt 2.
Definition I := UInt 4.

Inductive value :=
| VInt (z : Z)
| VBytes (b : bytes).

Definition item_size (f : item) : nat :=
  match f with
  | UInt n => n
  | Str n => n
  end.

(** [struct.calcsize] *)
Fixpoint calcsize (fmt : list item) : nat :=
  match fmt with
  | [] => O
  | f :: r => (item_size f + calcsize r)%nat
  end.

(** One packed item. An integer out of range for its width raises
    [struct.error] ([None]); a byte string is truncated or padded with
    zero bytes to its width. *)
Definition pack_item (f : item) (v : value) : option bytes :=
  match f, v with
  | UInt n, VInt z =>
      if (0 <=? z) && (z <? 256 ^ Z.of_nat n) then Some (le_encode n z)
      else None
  | Str n, VBytes b => Some (ljust0 n (firstn n b))
  | _, _ => None
  end.

(** [struct.pack(fmt, *vs)] *)
Fixpoint pack (fmt : list item) (vs : list value) : option bytes :=
  match fmt, vs with
  | [], [] => Some []
  | f :: fmt', v :: vs' =>
      match pack_item f v, pack fmt' vs' with
      | Some a, Some b => Some (a ++ b)
      | _, _ => None
      end
  | _, _ => None
  end.

Definition unpack_item (f : item) (b : bytes) : value :=
  match f with
  | UInt _ => VInt (le_decode b)
  | Str _ => VBytes b
  end.

Fixpoint unpack_items (fmt : list item) (data : bytes) : list value :=
  match fmt with
  | [] => []
  | f :: fmt' =>
      unpack_item f (firstn (item_size f) data)
        :: unpack_items fmt' (skipn (item_size f) data)
  end.

(** [struct.unpack(fmt, data)]: raises [struct.error] ([None]) unless
    [data] has exactly [calcsize(fmt)] bytes. *)
Definition unpack (fmt : list item) (data : bytes) : option (list value) :=
  if Nat.eqb (length data) (calcsize fmt) then Some (unpack_items fmt data)
  else None.

End Struct.

(** ** The [crcmod] package

    [crcmod] is a third-party package; the code only calls its factory
    functions.  [mkCrcFun] builds, by default, a bit-reflected CRC: the
    register is shifted right and the reflected polynomial is folded in
    whenever a one is shifted out. *)

Module Crcmod.
Import Py.

Definition shift1 (poly crc : Z) : Z :=
  Z.lxor (Z.shiftr crc 1) (if Z.testbit crc 0 then poly else 0).

Definition update_byte (poly crc : Z) (b : byte) : Z :=
  Nat.iter 8 (shift1 poly) (Z.lxor crc (byte_val b)).

Definition crc_reflected (poly init xorout : Z) (data : bytes) : Z :=
  Z.lxor (fold_left (update_byte poly) data init) xorout.

End Crcmod.

(** ** [leader/src/protocol.py] *)

Definition PROTOCOL_VERSION : Z := 1.

(** [crc32_func = crcmod.predefined.mkCrcFun('crc-32')] *)
Definition crc32_func : Py.bytes -> Z :=
  Crcmod.crc_reflected 0xEDB88320 0xFFFFFFFF 0xFFFFFFFF.

(** [crc16_func = crcmod.mkCrcFun(0x11021, initCrc=0xFFFF, xorOut=0x0000)];
    0x8408 is 0x1021 bit-reflected. *)
Definition crc16_func : Py.bytes -> Z :=
  Crcmod.crc_reflected 0x8408 0xFFFF 0.

Module MessageType.
Definition SENSOR_REPORT : Z := 0x01.
Definition ACK : Z := 0x02.
Definition CONFIG : Z := 0x03.
Definition LOG_DATA : Z := 0x04.
Definition LOG_ACK : Z := 0x05.
Definition TIME_SYNC : Z := 0x06.
Definition OTA_ANNOUNCE : Z := 0x10.
Definition OTA_REQUEST : Z := 0x11.
Definition OTA_CHUNK : Z := 0x12.
Definition OTA_CHUNK_ACK : Z := 0x13.
Definition OTA_CHUNK_NACK : Z := 0x14.
Definition OTA_COMPLETE : Z := 0x15.
Definition OTA_ABORT : Z := 0x16.
Definition OTA_STATUS : Z := 0x17.
End MessageType.

Module PacketHeader.
Import Py Struct.

Record t := mk {
  magic : bytes;
  version : Z;
  msg_type : Z;
  device_type : Z;
  uuid : bytes;
  sequence : Z;
  payload_len : Z
}.

(** ['<2sBBB16sHB'] *)
Definition FORMAT : list item := [Str 2; B; B; B; Str 16; H; B].
Definition SIZE : Z := Z.of_nat (calcsize FORMAT).

Definition pack (h : t) : option bytes :=
  Struct.pack FORMAT
    [VBytes (magic h); VInt (version h); VInt (msg_type h);
     VInt (device_type h); VBytes (uuid h); VInt (sequence h);
     VInt (payload_len h)].

Definition unpack (data : bytes) : option t :=
  match Struct.unpack FORMAT (slice data 0 SIZE) with
  | Some [VBytes m; VInt v; VInt mt; VInt dt; VBytes u; VInt s; VInt p] =>
      Some (mk m v mt dt u s p)
  | _ => None
  end.

End PacketHeader.

Module SensorReport.
Import Py Struct.

Record t := mk {
  timestamp : Z;
  moisture_raw : Z;
  moisture_percent : Z;
  battery_mv : Z;
  temperature : Z;
  rssi : Z;
  pending_logs : Z;
  flags : Z
}.

(** ['<IHBHHHBB'] *)
Definition FORMAT : list item := [I; H; B; H; H; H; B; B].
Definition SIZE : Z := Z.of_nat (calcsize FORMAT).

Definition unpack (data : bytes) : option t :=
  match Struct.unpack FORMAT (slice data 0 SIZE) with
  | Some [VInt ts; VInt raw; VInt pct; VInt bat; VInt temp; VInt r; VInt pl;
          VInt f] => Some (mk ts raw pct bat temp r pl f)
  | _ => None
  end.

End SensorReport.

Module AckPayload.
Import Py Struct.

Record t := mk {
  acked_sequence : Z;
  status : Z;
  flags : Z
}.

(** ['<HBB'] *)
Definition FORMAT : list item := [H; B; B].
Definition SIZE : Z := Z.of_nat (calcsize FORMAT).

Definition pack (a : t) : option bytes :=
  Struct.pack FORMAT [VInt (acked_sequence a); VInt (status a); VInt (flags a)].

End AckPayload.

Module OtaAnnounce.
Import Py Struct.

Record t := mk {
  target_device_type : Z;
  version_major : Z;
  version_minor : Z;
  version_patch : Z;
  firmware_size : Z;
  total_chunks : Z;
  firmware_crc : Z;
  announce_id : Z
}.

(** ['<BBBBIHII'] *)
Definition pack (a : t) : option bytes :=
  Struct.pack [B; B; B; B; I; H; I; I]
    [VInt (target_device_type a); VInt (version_major a);
     VInt (version_minor a); VInt (version_patch a);
     VInt (firmware_size a); VInt (total_chunks a);
     VInt (firmware_crc a); VInt (announce_id a)].

End OtaAnnounce.

Module OtaRequest.
Import Py Struct.

Record t := mk {
  announce_id : Z;
  current_version_major : Z;
  current_version_minor : Z;
  current_version_patch : Z;
  last_chunk_received : Z
}.

(** ['<IBBBH'] *)
Definition FORMAT : list item := [I; B; B; B; H].
Definition SIZE : Z := Z.of_nat (calcsize FORMAT).

Definition unpack (data : bytes) : option t :=
  match Struct.unpack FORMAT (slice data 0 SIZE) with
  | Some [VInt a; VInt ma; VInt mi; VInt pa; VInt l] => Some (mk a ma mi pa l)
  | _ => None
  end.

End OtaRequest.

Module OtaChunk.
Import Py Struct.

Record t := mk {
  announce_id : Z;
  chunk_index : Z;
  chunk_size : Z;
  chunk_crc : Z;
  data : bytes
}.

(** ['<IHHH'] *)
Definition HEADER_FORMAT : list item := [I; H; H; H].
Definition HEADER_SIZE : Z := Z.of_nat (calcsize HEADER_FORMAT).

Definition pack (c : t) : option bytes :=
  match Struct.pack HEADER_FORMAT
          [VInt (announce_id c); VInt (chunk_index c); VInt (chunk_size c);
           VInt (chunk_crc c)] with
  | Some header => Some (header ++ data c)
  | None => None
  end.

End OtaChunk.

Module OtaChunkAck.
Import Py Struct.

Record t := mk {
  announce_id : Z;
  chunk_index : Z;
  status : Z
}.

(** ['<IHB'] *)
Definition FORMAT : list item := [I; H; B].
Definition SIZE : Z := Z.of_nat (calcsize FORMAT).

Definition unpack (data : bytes) : option t :=
  match Struct.unpack FORMAT (slice data 0 SIZE) with
  | Some [VInt a; VInt c; VInt s] => Some (mk a c s)
  | _ => None
  end.

End OtaChunkAck.

Module OtaComplete.
Import Py Struct.

Record t := mk {
  announce_id : Z;
  calculated_crc : Z;
  status : Z
}.

(** ['<IIB'] *)
Definition FORMAT : list item := [I; I; B].
Definition SIZE : Z := Z.of_nat (calcsize FORMAT).

Definition unpack (data : bytes) : option t :=
  match Struct.unpack FORMAT (slice data 0 SIZE) with
  | Some [VInt a; VInt c; VInt s] => Some (mk a c s)
  | _ => None
  end.

End OtaComplete.

Module OtaStatus.
Import Py Struct.

Record t := mk {
  announce_id : Z;
  chunks_received : Z;
  total_chunks : Z;
  state : Z;
  error_code : Z
}.

(** ['<IHHBB'] *)
Definition FORMAT : list item := [I; H; H; B; B].
Definition SIZE : Z := Z.of_nat (calcsize FORMAT).

Definition unpack (data : bytes) : option t :=
  match Struct.unpack FORMAT (slice data 0 SIZE) with
  | Some [VInt a; VInt r; VInt n; VInt s; VInt e] => Some (mk a r n s e)
  | _ => None
  end.

End OtaStatus.

(** The [Protocol] class.  A builder returns the packet, or [None] when
    [struct.pack] raises, together with the object as the call leaves it. *)

Module Protocol.
Import Py Struct.

Record t := mk {
  uuid : bytes;
  sequence : Z
}.

(** [Protocol(controller_uuid = b'\x00' * 16)] *)
Definition init : t := mk (repeat x00 16) 0.

Definition next_sequence (p : t) : Z * t :=
  let s := Z.land (sequence p + 1) 0xFFFF in
  (s, mk (uuid p) s).

Definition build_packet (p : t) (msg_type : Z) (payload : bytes)
  : option bytes * t :=
  let '(s, p') := next_sequence p in
  let header :=
    PacketHeader.mk [x41; x47] PROTOCOL_VERSION msg_type 0x00 (uuid p) s
      (len payload) in
  match PacketHeader.pack header with
  | Some h => (Some (h ++ payload), p')
  | None => (None, p')
  end.

Definition build_ota_announce (p : t) (target_device_type : Z)
    (version : Z * Z * Z) (firmware_size firmware_crc announce_id : Z)
  : option bytes * t :=
  let total_chunks := (firmware_size + 199) / 200 in
  let '(v0, v1, v2) := version in
  match OtaAnnounce.pack
          (OtaAnnounce.mk target_device_type v0 v1 v2 firmware_size
             total_chunks firmware_crc announce_id) with
  | Some payload => build_packet p MessageType.OTA_ANNOUNCE payload
  | None => (None, p)
  end.

Definition build_ota_chunk (p : t) (announce_id chunk_index : Z)
    (data : bytes) : option bytes * t :=
  let chunk_crc := crc16_func data in
  match OtaChunk.pack
          (OtaChunk.mk announce_id chunk_index (len data) chunk_crc data) with
  | Some payload => build_packet p MessageType.OTA_CHUNK payload
  | None => (None, p)
  end.

Definition build_ota_abort (p : t) (announce_id : Z) : option bytes * t :=
  match Struct.pack [I] [VInt announce_id] with
  | Some payload => build_packet p MessageType.OTA_ABORT payload
  | None => (None, p)
  end.

(** [parse_packet].  [None] is the [None] the method returns on a short
    frame; past that test [PacketHeader.unpack] is given 24 bytes and
    cannot raise. *)
Definition parse_packet (data : bytes) : option (PacketHeader.t * bytes) :=
  if len data <? PacketHeader.SIZE then None
  else
    match PacketHeader.unpack data with
    | Some header =>
        Some (header,
              slice data PacketHeader.SIZE
                (PacketHeader.SIZE + PacketHeader.payload_len header))
    | None => None
    end.

Definition parse_ota_request (payload : bytes) : option OtaRequest.t :=
  if len payload <? OtaRequest.SIZE then None else OtaRequest.unpack payload.

Definition parse_ota_chunk_ack (payload : bytes) : option OtaChunkAck.t :=
  if len payload <? OtaChunkAck.SIZE then None
  else OtaChunkAck.unpack payload.

Definition parse_ota_complete (payload : bytes) : option OtaComplete.t :=
  if len payload <? OtaComplete.SIZE then None
  else OtaComplete.unpack payload.

Definition parse_ota_status (payload : bytes) : option OtaStatus.t :=
  if len payload <? OtaStatus.SIZE then None else OtaStatus.unpack payload.

(** [uuid_to_str] *)
Definition uuid_to_str (uuid : bytes) : string := hex uuid.

(** [build_ack(sequence, status = 0, flags = 0)] *)
Definition build_ack (p : t) (sequence status flags : Z) : option bytes * t :=
  match AckPayload.pack (AckPayload.mk sequence status flags) with
  | Some payload => build_packet p MessageType.ACK payload
  | None => (None, p)
  end.

Definition parse_sensor_report (payload : bytes) : option SensorReport.t :=
  if len payload <? SensorReport.SIZE then None
  else SensorReport.unpack payload.

(** [str_to_uuid]: [None] is the [ValueError] of [bytes.fromhex]. *)
Definition str_to_uuid (s : string) : option bytes :=
  fromhex (str_remove "-" s).

End Protocol.

(** ** [leader/src/ota_manager.py] *)

Module Ota.
Import Py.

Definition OTA_CHUNK_SIZE : Z := 200.
Definition OTA_ANNOUNCE_INTERVAL_SEC : Z := 30.
Definition OTA_CHUNK_TIMEOUT_SEC : Z := 10.
Definition OTA_MAX_RETRIES : Z := 5.

Inductive DeviceOtaState :=
| UNKNOWN
| ANNOUNCED
| REQUESTED
| RECEIVING
| COMPLETE
| ERROR.

Definition state_eqb (a b : DeviceOtaState) : bool :=
  match a, b with
  | UNKNOWN, UNKNOWN | ANNOUNCED, ANNOUNCED | REQUESTED, REQUESTED
  | RECEIVING, RECEIVING | COMPLETE, COMPLETE | ERROR, ERROR => true
  | _, _ => false
  end.

(** The clock, read in seconds. *)
Definition time := Z.

Record DeviceOtaInfo := mkDevice {
  uuid : bytes;
  state : DeviceOtaState;
  current_version : Z * Z * Z;
  last_chunk_sent : Z;
  last_chunk_acked : Z;
  retry_count : Z;
  last_activity : time;
  error_message : string
}.

(** [DeviceOtaInfo(uuid=uuid)], with the defaults of the dataclass. *)
Definition new_device (u : bytes) : DeviceOtaInfo :=
  mkDevice u UNKNOWN (0, 0, 0) (-1) (-1) 0 0 EmptyString.

(** Attribute assignments on a device record. *)
Definition set_state (v : DeviceOtaState) (d : DeviceOtaInfo) :=
  mkDevice (uuid d) v (current_version d) (last_chunk_sent d)
    (last_chunk_acked d) (retry_count d) (last_activity d) (error_message d).
Definition set_current_version (v : Z * Z * Z) (d : DeviceOtaInfo) :=
  mkDevice (uuid d) (state d) v (last_chunk_sent d)
    (last_chunk_acked d) (retry_count d) (last_activity d) (error_message d).
Definition set_last_chunk_sent (v : Z) (d : DeviceOtaInfo) :=
  mkDevice (uuid d) (state d) (current_version d) v
    (last_chunk_acked d) (retry_count d) (last_activity d) (error_message d).
Definition set_last_chunk_acked (v : Z) (d : DeviceOtaInfo) :=
  mkDevice (uuid d) (state d) (current_version d) (last_chunk_sent d)
    v (retry_count d) (last_activity d) (error_message d).
Definition set_retry_count (v : Z) (d : DeviceOtaInfo) :=
  mkDevice (uuid d) (state d) (current_version d) (last_chunk_sent d)
    (last_chunk_acked d) v (last_activity d) (error_message d).
Definition set_last_activity (v : time) (d : DeviceOtaInfo) :=
  mkDevice (uuid d) (state d) (current_version d) (last_chunk_sent d)
    (last_chunk_acked d) (retry_count d) v (error_message d).
Definition set_error_message (v : string) (d : DeviceOtaInfo) :=
  mkDevice (uuid d) (state d) (current_version d) (last_chunk_sent d)
    (last_chunk_acked d) (retry_count d) (last_activity d) v.

(** The [devices] dictionary: keys in insertion order, as a Python
    [dict] keeps them. *)
Definition dict := list (string * DeviceOtaInfo).

Fixpoint dict_get (k : string) (d : dict) : option DeviceOtaInfo :=
  match d with
  | [] => None
  | (k', v) :: r => if String.eqb k k' then Some v else dict_get k r
  end.

(** [k in d] *)
Definition dict_mem (k : string) (d : dict) : bool :=
  match dict_get k d with
  | Some _ => true
  | None => false
  end.

(** [d[k] = v] *)
Fixpoint dict_set (k : string) (v : DeviceOtaInfo) (d : dict) : dict :=
  match d with
  | [] => [(k, v)]
  | (k', v') :: r =>
      if String.eqb k k' then (k', v) :: r else (k', v') :: dict_set k v r
  end.

(** [d.values()] *)
Definition dict_values (d : dict) : list DeviceOtaInfo := map snd d.

Definition dict_keys (d : dict) : list string := map fst d.

Record OtaSession := mkSession {
  announce_id : Z;
  target_device_type : Z;
  firmware_path : string;
  firmware_data : bytes;
  firmware_size : Z;
  firmware_crc : Z;
  version : Z * Z * Z;
  total_chunks : Z;
  devices : dict;
  start_time : time;
  is_active : bool
}.

Definition set_devices (v : dict) (s : OtaSession) :=
  mkSession (announce_id s) (target_device_type s) (firmware_path s)
    (firmware_data s) (firmware_size s) (firmware_crc s) (version s)
    (total_chunks s) v (start_time s) (is_active s).
Definition set_is_active (v : bool) (s : OtaSession) :=
  mkSession (announce_id s) (target_device_type s) (firmware_path s)
    (firmware_data s) (firmware_size s) (firmware_crc s) (version s)
    (total_chunks s) (devices s) (start_time s) v.

(** What the manager does to the outside: packets handed to [self.send],
    and calls of the callbacks (made when a callback is installed). *)
Inductive effect :=
| Send (packet : bytes)
| OnProgress (uuid_str : string) (chunks total : Z)
| OnDeviceComplete (uuid_str : string)
| OnSessionComplete (complete_count error_count : Z).

(** The [OtaManager] object.  [lock] tells whether [self._lock], a
    [threading.Lock], is held; [trace] lists the effects, oldest first. *)
Record OtaManager := mkManager {
  protocol : Protocol.t;
  session : option OtaSession;
  lock : bool;
  running : bool;
  trace : list effect
}.

(** [OtaManager(protocol, send_func)] *)
Definition new_manager (p : Protocol.t) : OtaManager :=
  mkManager p None false false [].

Definition set_protocol (v : Protocol.t) (m : OtaManager) :=
  mkManager v (session m) (lock m) (running m) (trace m).
Definition set_session (v : option OtaSession) (m : OtaManager) :=
  mkManager (protocol m) v (lock m) (running m) (trace m).
Definition set_lock (v : bool) (m : OtaManager) :=
  mkManager (protocol m) (session m) v (running m) (trace m).
Definition set_running (v : bool) (m : OtaManager) :=
  mkManager (protocol m) (session m) (lock m) v (trace m).
Definition emit (e : effect) (m : OtaManager) :=
  mkManager (protocol m) (session m) (lock m) (running m) (trace m ++ [e]).

(** [self.session and self.session.is_active] *)
Definition session_active (m : OtaManager) : bool :=
  match session m with
  | Some s => is_active s
  | None => false
  end.

(** *** Methods as computations on the manager

    A call returns, raises, or never returns: [threading.Lock] is not
    reentrant, so a thread that acquires a lock that is held, by itself
    or by another thread that never releases it, waits forever. *)

Inductive exn :=
| RuntimeError
| FileNotFoundError
| OSError
| StructError
| AttributeError
| KeyError.

Inductive outcome (A : Type) :=
| Returned (a : A) (m : OtaManager)
| Raised (e : exn) (m : OtaManager)
| Blocked (m : OtaManager).
Arguments Returned {A} a m.
Arguments Raised {A} e m.
Arguments Blocked {A} m.

(** The manager as the call leaves it. *)
Definition final {A : Type} (o : outcome A) : OtaManager :=
  match o with
  | Returned _ m => m
  | Raised _ m => m
  | Blocked m => m
  end.

Definition M (A : Type) := OtaManager -> outcome A.

Definition ret {A : Type} (a : A) : M A := fun m => Returned a m.

Definition bind {A B : Type} (c : M A) (f : A -> M B) : M B :=
  fun m =>
    match c m with
    | Returned a m' => f a m'
    | Raised e m' => Raised e m'
    | Blocked m' => Blocked m'
    end.

Notation "x <- c ;; k" := (bind c (fun x => k))
  (at level 61, c at next level, right associativity).
Notation "c ;; k" := (bind c (fun _ => k))
  (at level 61, right associativity).

Definition raise {A : Type} (e : exn) : M A := fun m => Raised e m.

Definition update (f : OtaManager -> OtaManager) : M unit :=
  fun m => Returned tt (f m).

(** [self.session], for an attribute access: [AttributeError] on [None]. *)
Definition the_session : M OtaSession :=
  fun m =>
    match session m with
    | Some s => Returned s m
    | None => Raised AttributeError m
    end.

(** [with self._lock: body] *)
Definition acquire : M unit :=
  fun m => if lock m then Blocked m else Returned tt (set_lock true m).

Definition with_lock {A : Type} (body : M A) : M A :=
  fun m =>
    match acquire m with
    | Returned _ m1 =>
        match body m1 with
        | Returned a m2 => Returned a (set_lock false m2)
        | Raised e m2 => Raised e (set_lock false m2)
        | Blocked m2 => Blocked m2
        end
    | Raised e m1 => Raised e m1
    | Blocked m1 => Blocked m1
    end.

(** A call of a builder of [self.protocol]. *)
Definition build (f : Protocol.t -> option bytes * Protocol.t) : M bytes :=
  fun m =>
    match f (protocol m) with
    | (Some packet, p) => Returned packet (set_protocol p m)
    | (None, p) => Raised StructError (set_protocol p m)
    end.

(** [self.send(packet)] *)
Definition send (packet : bytes) : M unit := update (emit (Send packet)).

(** [uuid_str in self.session.devices] *)
Definition tracked (uuid_str : string) : M bool :=
  s <- the_session ;; ret (dict_mem uuid_str (devices s)).

(** [self.session.devices[uuid_str]] *)
Definition the_device (uuid_str : string) : M DeviceOtaInfo :=
  s <- the_session ;;
  match dict_get uuid_str (devices s) with
  | Some d => ret d
  | None => raise KeyError
  end.

(** An attribute assignment on the record [self.session.devices[uuid_str]];
    the record is shared by the dictionary and by every local name bound
    to it. *)
Definition assign (uuid_str : string) (f : DeviceOtaInfo -> DeviceOtaInfo)
  : M unit :=
  s <- the_session ;;
  d <- the_device uuid_str ;;
  update (set_session (Some (set_devices (dict_set uuid_str (f d) (devices s)) s))).

(** [for uuid_str, device in self.session.devices.items(): body] *)
Fixpoint for_each (keys : list string) (body : string -> M unit) : M unit :=
  match keys with
  | [] => ret tt
  | k :: r => body k ;; for_each r body
  end.

Definition for_devices (body : string -> M unit) : M unit :=
  s <- the_session ;; for_each (dict_keys (devices s)) body.

(** The bytes of chunk [chunk_index], as [_send_chunk] slices them. *)
Definition chunk_data (s : OtaSession) (chunk_index : Z) : bytes :=
  let start := chunk_index * OTA_CHUNK_SIZE in
  let end_ := Z.min (start + OTA_CHUNK_SIZE) (firmware_size s) in
  slice (firmware_data s) start end_.

Definition _send_chunk (uuid_str : string) (chunk_index : Z) : M unit :=
  fun m =>
    match session m with
    | None => Returned tt m
    | Some s =>
        if total_chunks s <=? chunk_index then Returned tt m
        else
          (packet <- build (fun p =>
                       Protocol.build_ota_chunk p (announce_id s) chunk_index
                         (chunk_data s chunk_index)) ;;
           send packet ;;
           with_lock
             (t <- tracked uuid_str ;;
              if t then assign uuid_str (set_last_chunk_sent chunk_index)
              else ret tt)) m
    end.

Definition _send_announce : M unit :=
  fun m =>
    match session m with
    | None => Returned tt m
    | Some s =>
        (packet <- build (fun p =>
                     Protocol.build_ota_announce p (target_device_type s)
                       (version s) (firmware_size s) (firmware_crc s)
                       (announce_id s)) ;;
         send packet) m
    end.

Definition _check_session_complete : M unit :=
  fun m =>
    match session m with
    | None => Returned tt m
    | Some s =>
        let terminal d :=
          state_eqb (state d) COMPLETE || state_eqb (state d) ERROR in
        let all_done := forallb terminal (dict_values (devices s)) in
        if all_done && (0 <? len (devices s)) then
          let complete_count :=
            len (filter (fun d => state_eqb (state d) COMPLETE)
                   (dict_values (devices s))) in
          let error_count :=
            len (filter (fun d => state_eqb (state d) ERROR)
                   (dict_values (devices s))) in
          (update (emit (OnSessionComplete complete_count error_count)) ;;
           update (set_session (Some (set_is_active false s))) ;;
           update (set_running false)) m
        else Returned tt m
    end.

Definition _handle_request (now : time) (uuid_str : string) (uuid : bytes)
    (payload : bytes) : M bool :=
  match Protocol.parse_ota_request payload with
  | None => ret false
  | Some request =>
      s <- the_session ;;
      if negb (OtaRequest.announce_id request =? announce_id s) then ret false
      else
        start_chunk <- with_lock
          (t <- tracked uuid_str ;;
           (if t then ret tt
            else
              s <- the_session ;;
              update (set_session (Some
                (set_devices (dict_set uuid_str (new_device uuid) (devices s))
                   s)))) ;;
           assign uuid_str (set_current_version
             (OtaRequest.current_version_major request,
              OtaRequest.current_version_minor request,
              OtaRequest.current_version_patch request)) ;;
           assign uuid_str (set_state REQUESTED) ;;
           assign uuid_str (set_last_activity now) ;;
           let start_chunk :=
             if OtaRequest.last_chunk_received request =? 0xFFFF then 0
             else OtaRequest.last_chunk_received request + 1 in
           assign uuid_str (set_last_chunk_acked (start_chunk - 1)) ;;
           ret start_chunk) ;;
        _send_chunk uuid_str start_chunk ;;
        ret true
  end.

Definition _handle_chunk_ack (now : time) (uuid_str : string)
    (payload : bytes) : M bool :=
  match Protocol.parse_ota_chunk_ack payload with
  | None => ret false
  | Some ack =>
      s <- the_session ;;
      if negb (OtaChunkAck.announce_id ack =? announce_id s) then ret false
      else
        with_lock
          (t <- tracked uuid_str ;;
           if negb t then ret false
           else
             (if OtaChunkAck.status ack =? 0 then
                assign uuid_str
                  (set_last_chunk_acked (OtaChunkAck.chunk_index ack)) ;;
                assign uuid_str (set_state RECEIVING) ;;
                assign uuid_str (set_last_activity now) ;;
                assign uuid_str (set_retry_count 0) ;;
                s <- the_session ;;
                update (emit (OnProgress uuid_str
                                (OtaChunkAck.chunk_index ack + 1)
                                (total_chunks s))) ;;
                let next_chunk := OtaChunkAck.chunk_index ack + 1 in
                if next_chunk <? total_chunks s then
                  _send_chunk uuid_str next_chunk
                else ret tt
              else ret tt) ;;
             ret true)
  end.

Definition _handle_chunk_nack (now : time) (uuid_str : string)
    (payload : bytes) : M bool :=
  match Protocol.parse_ota_chunk_ack payload with
  | None => ret false
  | Some ack =>
      s <- the_session ;;
      if negb (OtaChunkAck.announce_id ack =? announce_id s) then ret false
      else
        early <- with_lock
          (t <- tracked uuid_str ;;
           if negb t then ret (Some false)
           else
             assign uuid_str (set_last_activity now) ;;
             d <- the_device uuid_str ;;
             assign uuid_str (set_retry_count (retry_count d + 1)) ;;
             d <- the_device uuid_str ;;
             if OTA_MAX_RETRIES <? retry_count d then
               assign uuid_str (set_state ERROR) ;;
               assign uuid_str (set_error_message "Max retries exceeded") ;;
               ret (Some true)
             else ret None) ;;
        match early with
        | Some r => ret r
        | None =>
            _send_chunk uuid_str (OtaChunkAck.chunk_index ack) ;;
            ret true
        end
  end.

Definition _handle_complete (now : time) (uuid_str : string)
    (payload : bytes) : M bool :=
  match Protocol.parse_ota_complete payload with
  | None => ret false
  | Some complete =>
      s <- the_session ;;
      if negb (OtaComplete.announce_id complete =? announce_id s)
      then ret false
      else
        with_lock
          (t <- tracked uuid_str ;;
           if negb t then ret false
           else
             assign uuid_str (set_last_activity now) ;;
             (if OtaComplete.status complete =? 0 then
                assign uuid_str (set_state COMPLETE) ;;
                update (emit (OnDeviceComplete uuid_str))
              else
                assign uuid_str (set_state ERROR) ;;
                assign uuid_str (set_error_message "CRC mismatch")) ;;
             _check_session_complete ;;
             ret true)
  end.

Definition _handle_status (now : time) (uuid_str : string)
    (payload : bytes) : M bool :=
  match Protocol.parse_ota_status payload with
  | None => ret false
  | Some status =>
      s <- the_session ;;
      if negb (OtaStatus.announce_id status =? announce_id s) then ret false
      else
        with_lock
          (t <- tracked uuid_str ;;
           if negb t then ret false
           else assign uuid_str (set_last_activity now) ;; ret true)
  end.

Definition handle_message (now : time) (header : PacketHeader.t)
    (payload : bytes) : M bool :=
  fun m =>
    match session m with
    | None => Returned false m
    | Some s =>
        if negb (is_active s) then Returned false m
        else
          let uuid_str := Protocol.uuid_to_str (PacketHeader.uuid header) in
          let mt := PacketHeader.msg_type header in
          if mt =? MessageType.OTA_REQUEST then
            _handle_request now uuid_str (PacketHeader.uuid header) payload m
          else if mt =? MessageType.OTA_CHUNK_ACK then
            _handle_chunk_ack now uuid_str payload m
          else if mt =? MessageType.OTA_CHUNK_NACK then
            _handle_chunk_nack now uuid_str payload m
          else if mt =? MessageType.OTA_COMPLETE then
            _handle_complete now uuid_str payload m
          else if mt =? MessageType.OTA_STATUS then
            _handle_status now uuid_str payload m
          else Returned false m
    end.

Definition _process_pending_chunks : M unit :=
  fun m =>
    match session m with
    | None => Returned tt m
    | Some _ =>
        with_lock
          (for_devices (fun uuid_str =>
             device <- the_device uuid_str ;;
             s <- the_session ;;
             if state_eqb (state device) RECEIVING then
               let next_chunk := last_chunk_acked device + 1 in
               if next_chunk <? total_chunks s then
                 if last_chunk_sent device <? next_chunk then
                   _send_chunk uuid_str next_chunk
                 else ret tt
               else ret tt
             else ret tt)) m
    end.

Definition _check_timeouts (now : time) : M unit :=
  fun m =>
    match session m with
    | None => Returned tt m
    | Some _ =>
        with_lock
          (for_devices (fun uuid_str =>
             device <- the_device uuid_str ;;
             if state_eqb (state device) REQUESTED
                || state_eqb (state device) RECEIVING then
               if OTA_CHUNK_TIMEOUT_SEC <? now - last_activity device then
                 assign uuid_str (set_retry_count (retry_count device + 1)) ;;
                 device <- the_device uuid_str ;;
                 if OTA_MAX_RETRIES <? retry_count device then
                   assign uuid_str (set_state ERROR) ;;
                   assign uuid_str (set_error_message "Timeout")
                 else
                   let chunk := last_chunk_acked device + 1 in
                   s <- the_session ;;
                   if chunk <? total_chunks s then
                     assign uuid_str (set_last_activity now) ;;
                     _send_chunk uuid_str chunk
                   else ret tt
               else ret tt
             else ret tt)) m
    end.

(** One turn of the loop of [_announce_loop]; [false] when the loop
    condition fails and the thread ends. *)
Definition _announce_loop_turn (now : time) : M bool :=
  fun m =>
    if running m && session_active m then
      (_send_announce ;;
       _process_pending_chunks ;;
       _check_timeouts now ;;
       ret true) m
    else Returned false m.

(** The file system, as [start_update] sees one path. *)
Inductive fs_entry :=
| Absent
| Unreadable
| File (content : bytes).

(** [random.randint(a, b)], from a draw of the generator. *)
Definition randint (a b draw : Z) : Z := a + draw mod (b - a + 1).

Definition start_update (fs : string -> fs_entry) (draw : Z) (now : time)
    (firmware_path : string) (version : Z * Z * Z) (target_device_type : Z)
  : M Z :=
  fun m =>
    if session_active m then Raised RuntimeError m
    else
      match fs firmware_path with
      | Absent => Raised FileNotFoundError m
      | Unreadable => Raised OSError m
      | File firmware_data =>
          let firmware_size := len firmware_data in
          let firmware_crc := crc32_func firmware_data in
          let total_chunks :=
            (firmware_size + OTA_CHUNK_SIZE - 1) / OTA_CHUNK_SIZE in
          let announce_id := randint 1 0xFFFFFFFF draw in
          Returned announce_id
            (set_running true
               (set_session
                  (Some (mkSession announce_id target_device_type
                           firmware_path firmware_data firmware_size
                           firmware_crc version total_chunks [] now true))
                  m))
      end.

Definition stop_update : M unit :=
  update (set_running false) ;;
  fun m =>
    match session m with
    | None => Returned tt m
    | Some s =>
        (packet <- build (fun p =>
                     Protocol.build_ota_abort p (announce_id s)) ;;
         send packet ;;
         s <- the_session ;;
         update (set_session (Some (set_is_active false s)))) m
    end.

(** *** The leader process

    Three threads call the manager: the receive loop of the controller
    ([handle_message]), the announce thread ([_announce_loop]) and the
    caller of [stop_update].  A thread that raised or that waits on the
    lock makes no further call.  Calls are taken one at a time. *)

Inductive event :=
| Receive (now : time) (header : PacketHeader.t) (payload : bytes)
| Maintain (now : time)
| Stop.

Record Leader := mkLeader {
  manager : OtaManager;
  receive_halted : bool;
  announce_halted : bool
}.

Definition halts {A : Type} (o : outcome A) : bool :=
  match o with
  | Returned _ _ => false
  | _ => true
  end.

Definition step (e : event) (l : Leader) : Leader :=
  match e with
  | Receive now header payload =>
      if receive_halted l then l
      else
        let o := handle_message now header payload (manager l) in
        mkLeader (final o) (halts o) (announce_halted l)
  | Maintain now =>
      if announce_halted l then l
      else
        let o := _announce_loop_turn now (manager l) in
        let ended :=
          match o with
          | Returned true _ => false
          | _ => true
          end in
        mkLeader (final o) (receive_halted l) ended
  | Stop =>
      mkLeader (final (stop_update (manager l))) (receive_halted l)
        (announce_halted l)
  end.

Definition run (es : list event) (l : Leader) : Leader :=
  fold_left (fun l e => step e l) es l.

(** The leader right after a successful [start_update]. *)
Definition started (m : OtaManager) : Leader := mkLeader m false false.

(** *** Reports

    [get_progress] gives a dictionary; [None] stands for the dictionary
    [{"active": False}] of a manager that has no session.  [now] is the
    clock as [time.time()] reads it here, a [float] with its fraction;
    the start time is the number of seconds that the session holds. *)

Module Progress.
Record t := mk {
  active : bool;
  announce_id : Z;
  version : string;
  firmware_size : Z;
  total_chunks : Z;
  devices_total : Z;
  devices_complete : Z;
  devices_error : Z;
  devices_receiving : Z;
  elapsed_sec : Z
}.
End Progress.

Definition get_progress (now : float) (m : OtaManager)
  : option Progress.t :=
  match session m with
  | None => None
  | Some s =>
      let count st :=
        len (filter (fun d => state_eqb (state d) st)
               (dict_values (devices s))) in
      let devices_complete := count COMPLETE in
      let devices_error := count ERROR in
      let devices_receiving := count RECEIVING in
      let '(v0, v1, v2) := version s in
      Some (Progress.mk (is_active s) (announce_id s)
              (str_of_int v0 ++ "." ++ str_of_int v1 ++ "." ++ str_of_int v2)
              (firmware_size s) (total_chunks s) (len (devices s))
              devices_complete devices_error devices_receiving
              (int_of_float
                 (QArith_base.Qminus now (float_of_int (start_time s)))))
  end.

End Ota.

(** ** [devices/common/scripts/patch_app_header.py] *)

Module PatchAppHeader.
Import Py Struct.

Definition APP_HEADER_MAGIC : Z := 0x59534741.
(** [struct.pack('<I', APP_HEADER_MAGIC)] *)
Definition APP_HEADER_MAGIC_BYTES : bytes := le_encode 4 APP_HEADER_MAGIC.
Definition APP_HEADER_SIZE : Z := 48.

Definition CRC_TABLE : list Z :=
  [ 0x00000000; 0x1DB71064; 0x3B6E20C8; 0x26D930AC;
    0x76DC4190; 0x6B6B51F4; 0x4DB26158; 0x5005713C;
    0xEDB88320; 0xF00F9344; 0xD6D6A3E8; 0xCB61B38C;
    0x9B64C2B0; 0x86D3D2D4; 0xA00AE278; 0xBDBDF21C ].

(** [CRC_TABLE[i]], for an index the code keeps below 16. *)
Definition table (i : Z) : Z := nth (Z.to_nat i) CRC_TABLE 0.

(** The body of the loop of [crc32], for one byte. *)
Definition crc32_byte (crc : Z) (b : byte) : Z :=
  let byte := byte_val b in
  let crc := Z.lxor (table (Z.land (Z.lxor crc byte) 0x0F)) (Z.shiftr crc 4) in
  let crc :=
    Z.lxor (table (Z.land (Z.lxor crc (Z.shiftr byte 4)) 0x0F))
      (Z.shiftr crc 4) in
  crc.

Definition crc32 (data : bytes) : Z :=
  Z.lxor (fold_left crc32_byte data 0xFFFFFFFF) 0xFFFFFFFF.

(** The header dictionary; its keys are fixed. *)
Record header := mkHeader {
  magic : Z;
  header_version : Z;
  device_type : Z;
  hw_revision_min : Z;
  hw_revision_max : Z;
  fw_version_major : Z;
  fw_version_minor : Z;
  fw_version_patch : Z;
  fw_flags : Z;
  fw_size : Z;
  fw_crc32 : Z;
  fw_load_addr : Z;
  build_timestamp : Z;
  build_id : str;
  header_crc32 : Z
}.

Definition set_fw_size (v : Z) (h : header) :=
  mkHeader (magic h) (header_version h) (device_type h) (hw_revision_min h)
    (hw_revision_max h) (fw_version_major h) (fw_version_minor h)
    (fw_version_patch h) (fw_flags h) v (fw_crc32 h) (fw_load_addr h)
    (build_timestamp h) (build_id h) (header_crc32 h).
Definition set_fw_crc32 (v : Z) (h : header) :=
  mkHeader (magic h) (header_version h) (device_type h) (hw_revision_min h)
    (hw_revision_max h) (fw_version_major h) (fw_version_minor h)
    (fw_version_patch h) (fw_flags h) (fw_size h) v (fw_load_addr h)
    (build_timestamp h) (build_id h) (header_crc32 h).
Definition set_header_crc32 (v : Z) (h : header) :=
  mkHeader (magic h) (header_version h) (device_type h) (hw_revision_min h)
    (hw_revision_max h) (fw_version_major h) (fw_version_minor h)
    (fw_version_patch h) (fw_flags h) (fw_size h) (fw_crc32 h)
    (fw_load_addr h) (build_timestamp h) (build_id h) v.

(** ['<I B B B B B B B B I I I I 16s I'] *)
Definition FORMAT : list item :=
  [I; B; B; B; B; B; B; B; B; I; I; I; I; Str 16; I].

Inductive exn :=
| ValueError
| UnicodeEncodeError
| StructError.

Inductive result (A : Type) :=
| Ok (a : A)
| Raise (e : exn).
Arguments Ok {A} a.
Arguments Raise {A} e.

Definition parse_header (data : bytes) : result header :=
  if len data <? APP_HEADER_SIZE then Raise ValueError
  else
    match Struct.unpack FORMAT (slice data 0 APP_HEADER_SIZE) with
    | Some [VInt f0; VInt f1; VInt f2; VInt f3; VInt f4; VInt f5; VInt f6;
            VInt f7; VInt f8; VInt f9; VInt f10; VInt f11; VInt f12;
            VBytes f13; VInt f14] =>
        Ok (mkHeader f0 f1 f2 f3 f4 f5 f6 f7 f8 f9 f10 f11 f12
              (decode_ascii_replace (rstrip0 f13)) f14)
    | _ => Raise StructError
    end.

Definition pack_header (hdr : header) : result bytes :=
  match encode_ascii (build_id hdr) with
  | None => Raise UnicodeEncodeError
  | Some encoded =>
      let build_id := ljust0 16 (slice encoded 0 16) in
      match Struct.pack FORMAT
              [VInt (magic hdr); VInt (header_version hdr);
               VInt (device_type hdr); VInt (hw_revision_min hdr);
               VInt (hw_revision_max hdr); VInt (fw_version_major hdr);
               VInt (fw_version_minor hdr); VInt (fw_version_patch hdr);
               VInt (fw_flags hdr); VInt (fw_size hdr); VInt (fw_crc32 hdr);
               VInt (fw_load_addr hdr); VInt (build_timestamp hdr);
               VBytes build_id; VInt (header_crc32 hdr)] with
      | Some b => Ok b
      | None => Raise StructError
      end
  end.

(** The loop of [find_header_offset], entered at [offset].  The fuel is
    never used up when it exceeds the number of bytes (lemma
    [find_from_fuel]). *)
Fixpoint find_from (fuel : nat) (data : bytes) (offset : Z) : Z :=
  match fuel with
  | O => -1
  | S k =>
      if offset <=? len data - APP_HEADER_SIZE then
        if bytes_eqb (slice data offset (offset + 4)) APP_HEADER_MAGIC_BYTES
        then offset
        else find_from k data (offset + 4)
      else -1
  end.

Definition find_header_offset (data : bytes) : Z :=
  find_from (S (length data)) data 0.

(** [patch_binary], from the bytes read to the bytes written:
    [Ok (Some out)] when it writes [out] and returns [True], [Ok None]
    when it returns [False] and writes nothing. *)
Definition patch_binary (data : bytes) : result (option bytes) :=
  let header_offset := find_header_offset data in
  if header_offset <? 0 then Ok None
  else if len data <? header_offset + APP_HEADER_SIZE then Ok None
  else
    let header_data :=
      slice data header_offset (header_offset + APP_HEADER_SIZE) in
    match parse_header header_data with
    | Raise e => Raise e
    | Ok hdr =>
        let fw_size := len data in
        let hdr := set_fw_size fw_size hdr in
        let temp_hdr :=
          set_header_crc32 0xFFFFFFFF (set_fw_crc32 0xFFFFFFFF hdr) in
        match pack_header temp_hdr with
        | Raise e => Raise e
        | Ok temp_packed =>
            let temp_data :=
              slice_assign data header_offset
                (header_offset + APP_HEADER_SIZE) temp_packed in
            let fw_crc := crc32 temp_data in
            let hdr := set_fw_crc32 fw_crc hdr in
            match pack_header hdr with
            | Raise e => Raise e
            | Ok packed =>
                let header_for_crc := slice packed 0 (-4) in
                let header_crc := crc32 header_for_crc in
                let hdr := set_header_crc32 header_crc hdr in
                match pack_header hdr with
                | Raise e => Raise e
                | Ok final_packed =>
                    Ok (Some (slice_assign data header_offset
                                (header_offset + APP_HEADER_SIZE)
                                final_packed))
                end
            end
        end
    end.

End PatchAppHeader.

(** ** [leader/src/controller.py] *)

Module Controller.
Import Py.

(** An instant, as [datetime.now()] and [time.time()] read it. *)
Definition datetime := Z.

Record DeviceInfo := mkDevice {
  uuid : string;
  device_type : Z;
  first_seen : datetime;
  last_seen : datetime;
  firmware_version : string;
  battery_mv : Z;
  rssi : Z
}.

Definition set_last_seen (v : datetime) (d : DeviceInfo) :=
  mkDevice (uuid d) (device_type d) (first_seen d) v (firmware_version d)
    (battery_mv d) (rssi d).
Definition set_battery_mv (v : Z) (d : DeviceInfo) :=
  mkDevice (uuid d) (device_type d) (first_seen d) (last_seen d)
    (firmware_version d) v (rssi d).
Definition set_rssi (v : Z) (d : DeviceInfo) :=
  mkDevice (uuid d) (device_type d) (first_seen d) (last_seen d)
    (firmware_version d) (battery_mv d) v.

(** [self.devices], keys in insertion order. *)
Definition table := list (string * DeviceInfo).

Fixpoint lookup (k : string) (d : table) : option DeviceInfo :=
  match d with
  | [] => None
  | (k', v) :: r => if String.eqb k k' then Some v else lookup k r
  end.

Fixpoint store (k : string) (v : DeviceInfo) (d : table) : table :=
  match d with
  | [] => [(k, v)]
  | (k', v') :: r =>
      if String.eqb k k' then (k', v) :: r else (k', v') :: store k v r
  end.

(** A statement given to [cursor.execute], with its parameters. *)
Inductive statement :=
| InsertDevice (d : DeviceInfo)
| UpdateDevice (last_seen : datetime) (battery_mv rssi : Z) (uuid : string)
| InsertSensorData (device_uuid : string) (timestamp : datetime)
    (moisture_raw moisture_percent battery_mv temperature rssi : Z).

(** What the controller does to the outside: a statement committed to
    the database, or a call of [self.lora.send]. *)
Inductive effect :=
| Commit (st : statement)
| Transmit (data : bytes).

(** The [Controller] object.  [protocol] is the one [Protocol] object
    that the controller and its OTA manager both hold; [lora] tells
    whether [self.lora] is set; [log] lists the effects, oldest first. *)
Record t := mk {
  protocol : Protocol.t;
  ota_manager : option Ota.OtaManager;
  lora : bool;
  devices : table;
  log : list effect
}.

Definition set_protocol (v : Protocol.t) (c : t) :=
  mk v (ota_manager c) (lora c) (devices c) (log c).
Definition set_ota_manager (v : option Ota.OtaManager) (c : t) :=
  mk (protocol c) v (lora c) (devices c) (log c).
Definition set_devices (v : table) (c : t) :=
  mk (protocol c) (ota_manager c) (lora c) v (log c).
Definition emit (e : effect) (c : t) :=
  mk (protocol c) (ota_manager c) (lora c) (devices c) (log c ++ [e]).

Inductive error :=
| SqliteError
| StructError
| OtaError (e : Ota.exn).

(** A call returns, raises, or never returns. *)
Inductive outcome :=
| Done (c : t)
| Failed (e : error) (c : t)
| Stuck (c : t).

Definition final (o : outcome) : t :=
  match o with
  | Done c => c
  | Failed _ c => c
  | Stuck c => c
  end.

Definition andthen (o : outcome) (k : t -> outcome) : outcome :=
  match o with
  | Done c => k c
  | _ => o
  end.

(** Connect, execute, commit and close; [db st] tells whether sqlite3
    accepts the statement, and a statement it refuses raises. *)
Definition execute (db : statement -> bool) (st : statement) (c : t)
  : outcome :=
  if db st then Done (emit (Commit st) c) else Failed SqliteError c.

Definition _save_device (db : statement -> bool) (device : DeviceInfo)
  : t -> outcome :=
  execute db (InsertDevice device).

Definition _update_device (db : statement -> bool) (device : DeviceInfo)
  : t -> outcome :=
  execute db
    (UpdateDevice (last_seen device) (battery_mv device) (rssi device)
       (uuid device)).

(** [stamp] is the clock as [_store_sensor_data] reads it. *)
Definition _store_sensor_data (db : statement -> bool) (stamp : datetime)
    (uuid : string) (report : SensorReport.t) (rssi : Z) : t -> outcome :=
  execute db
    (InsertSensorData uuid stamp (SensorReport.moisture_raw report)
       (SensorReport.moisture_percent report)
       (SensorReport.battery_mv report) (SensorReport.temperature report)
       rssi).

Definition _send_packet (data : bytes) (c : t) : t :=
  if lora c then emit (Transmit data) c else c.

Definition SEND_LOGS : Z := 0x01.

Definition _handle_sensor_report (db : statement -> bool)
    (now stamp : datetime) (header : PacketHeader.t) (payload : bytes)
    (rssi : Z) (c : t) : outcome :=
  match Protocol.parse_sensor_report payload with
  | None => Done c
  | Some report =>
      let uuid_str := Protocol.uuid_to_str (PacketHeader.uuid header) in
      andthen
        (match lookup uuid_str (devices c) with
         | None =>
             let device :=
               mkDevice uuid_str (PacketHeader.device_type header) now now
                 "unknown" (SensorReport.battery_mv report) rssi in
             _save_device db device
               (set_devices (store uuid_str device (devices c)) c)
         | Some device =>
             let device :=
               set_rssi rssi
                 (set_battery_mv (SensorReport.battery_mv report)
                    (set_last_seen now device)) in
             _update_device db device
               (set_devices (store uuid_str device (devices c)) c)
         end)
        (fun c =>
           andthen (_store_sensor_data db stamp uuid_str report rssi c)
             (fun c =>
                let ack_flags :=
                  if Z.land (SensorReport.flags report) 0x08 =? 0 then 0
                  else Z.lor 0 SEND_LOGS in
                match Protocol.build_ack (protocol c)
                        (PacketHeader.sequence header) 0 ack_flags with
                | (Some ack_packet, p) =>
                    Done (_send_packet ack_packet (set_protocol p c))
                | (None, p) => Failed StructError (set_protocol p c)
                end))
  end.

(** [now] is the clock as the handler of the packet first reads it. *)
Definition _handle_packet (db : statement -> bool) (now stamp : datetime)
    (data : bytes) (rssi : Z) (c : t) : outcome :=
  match Protocol.parse_packet data with
  | None => Done c
  | Some (header, payload) =>
      if MessageType.OTA_ANNOUNCE <=? PacketHeader.msg_type header then
        match ota_manager c with
        | Some m =>
            let back m' :=
              set_ota_manager (Some m') (set_protocol (Ota.protocol m') c) in
            match Ota.handle_message now header payload
                    (Ota.set_protocol (protocol c) m) with
            | Ota.Returned _ m' => Done (back m')
            | Ota.Raised e m' => Failed (OtaError e) (back m')
            | Ota.Blocked m' => Stuck (back m')
            end
        | None => Done c
        end
      else if PacketHeader.msg_type header =? MessageType.SENSOR_REPORT then
        _handle_sensor_report db now stamp header payload rssi c
      else Done c
  end.

(** A packet that [self.lora.receive] gave to [_receive_loop], with the
    clock and the database as the handling of the packet finds them. *)
Record reception := mkReception {
  rx_data : bytes;
  rx_rssi : Z;
  rx_now : datetime;
  rx_stamp : datetime;
  rx_db : statement -> bool
}.

(** [_receive_loop], over the packets received while [self._running]
    holds; an exception ends the thread. *)
Fixpoint _receive_loop (rs : list reception) (c : t) : outcome :=
  match rs with
  | [] => Done c
  | r :: rs =>
      andthen
        (_handle_packet (rx_db r) (rx_now r) (rx_stamp r) (rx_data r)
           (rx_rssi r) c)
        (_receive_loop rs)
  end.

End Controller.

(** ** [leader/src/lora_driver.py] *)

Module LoRa.

Definition REG_PA_CONFIG : Z := 0x09.
Definition REG_MODEM_CONFIG_1 : Z := 0x1D.
Definition REG_MODEM_CONFIG_2 : Z := 0x1E.
Definition REG_DETECTION_OPTIMIZE : Z := 0x31.
Definition REG_DETECTION_THRESHOLD : Z := 0x37.
Definition REG_PA_DAC : Z := 0x4D.
Definition PA_BOOST : Z := 0x80.

Section Driver.

(** The SPI device [self.spi], once opened: [xfer2] shifts a list of
    bytes out and returns the list shifted in. *)
Variable Spi : Type.
Variable xfer2 : list Z -> Spi -> list Z * Spi.

(** [None] is the [IndexError] of [response[1]]. *)
Definition _read_register (address : Z) (spi : Spi) : option Z * Spi :=
  let (response, spi) := xfer2 [Z.land address 0x7F; 0x00] spi in
  (nth_error response 1, spi).

Definition _write_register (address value : Z) (spi : Spi) : Spi :=
  snd (xfer2 [Z.lor address 0x80; value] spi).

Definition _set_tx_power (power : Z) (spi : Spi) : Spi :=
  let power := Z.max 2 (Z.min 20 power) in
  if 17 <? power then
    let spi := _write_register REG_PA_DAC 0x87 spi in
    let power := Z.min power 20 in
    _write_register REG_PA_CONFIG (Z.lor PA_BOOST (power - 5)) spi
  else
    let spi := _write_register REG_PA_DAC 0x84 spi in
    _write_register REG_PA_CONFIG (Z.lor PA_BOOST (power - 2)) spi.

Definition _set_spreading_factor (sf : Z) (spi : Spi) : option unit * Spi :=
  let sf := Z.max 6 (Z.min 12 sf) in
  let spi :=
    if sf =? 6 then
      _write_register REG_DETECTION_THRESHOLD 0x0C
        (_write_register REG_DETECTION_OPTIMIZE 0xC5 spi)
    else
      _write_register REG_DETECTION_THRESHOLD 0x0A
        (_write_register REG_DETECTION_OPTIMIZE 0xC3 spi) in
  match _read_register REG_MODEM_CONFIG_2 spi with
  | (Some config2, spi) =>
      (Some tt,
       _write_register REG_MODEM_CONFIG_2
         (Z.lor (Z.land config2 0x0F) (Z.shiftl sf 4)) spi)
  | (None, spi) => (None, spi)
  end.

(** [bw_map.get(bw, 7)] *)
Definition bw_map : list (Z * Z) :=
  [(7800, 0); (10400, 1); (15600, 2); (20800, 3); (31250, 4); (41700, 5);
   (62500, 6); (125000, 7); (250000, 8); (500000, 9)].

Fixpoint get (m : list (Z * Z)) (k default : Z) : Z :=
  match m with
  | [] => default
  | (k', v) :: r => if k =? k' then v else get r k default
  end.

Definition _set_bandwidth (bw : Z) (spi : Spi) : option unit * Spi :=
  let bw_val := get bw_map bw 7 in
  match _read_register REG_MODEM_CONFIG_1 spi with
  | (Some config1, spi) =>
      (Some tt,
       _write_register REG_MODEM_CONFIG_1
         (Z.lor (Z.land config1 0x0F) (Z.shiftl bw_val 4)) spi)
  | (None, spi) => (None, spi)
  end.

Definition _set_coding_rate (cr : Z) (spi : Spi) : option unit * Spi :=
  let cr := Z.max 5 (Z.min 8 cr) in
  match _read_register REG_MODEM_CONFIG_1 spi with
  | (Some config1, spi) =>
      (Some tt,
       _write_register REG_MODEM_CONFIG_1
         (Z.lor (Z.land config1 0xF1) (Z.shiftl (cr - 4) 1)) spi)
  | (None, spi) => (None, spi)
  end.

End Driver.
End LoRa.

(** ** The CRC-32 of the specification

    Reflected polynomial 0xEDB88320, initial value 0xFFFFFFFF, final xor
    0xFFFFFFFF, computed one bit at a time: the definition against which
    the table-driven [PatchAppHeader.crc32] is compared. *)

Definition crc32_reference (data : Py.bytes) : Z :=
  Crcmod.crc_reflected 0xEDB88320 0xFFFFFFFF 0xFFFFFFFF data.

(* ===================================================================== *)
(** * Part II: the terms of the statements                                *)
(* ===================================================================== *)

(** ** Packets and checksums *)

Section PacketTerms.
Import Py Struct.

(** A value that [pack] stores as it is: an integer within the width of
    its item, a byte string of exactly the width of its item. *)
Definition fits (f : item) (v : value) : Prop :=
  match f, v with
  | UInt n, VInt z => 0 <= z < 256 ^ Z.of_nat n
  | Str n, VBytes b => length b = n
  | _, _ => False
  end.

(** The fields of a header are in range: two bytes of magic (["AG"] for
    this protocol), 8-bit version, message type, device type and payload
    length, a 16-byte UUID and a 16-bit sequence number. *)
Definition header_in_range (h : PacketHeader.t) : Prop :=
  length (PacketHeader.magic h) = 2%nat /\
  0 <= PacketHeader.version h < 256 /\
  0 <= PacketHeader.msg_type h < 256 /\
  0 <= PacketHeader.device_type h < 256 /\
  length (PacketHeader.uuid h) = 16%nat /\
  0 <= PacketHeader.sequence h < 65536 /\
  0 <= PacketHeader.payload_len h < 256.

Definition sample_header : PacketHeader.t :=
  PacketHeader.mk [x41; x47] 1 0x13 1
    [x01; x02; x03; x04; x05; x06; x07; x08;
     x09; x0a; x0b; x0c; x0d; x0e; x0f; x10] 7 3.

(** A frame of 24 bytes whose magic is ["XX"] and whose version byte is 9. *)
Definition frame_bad_magic_version : bytes :=
  [x58; x58; x09; x13; x01] ++ repeat x00 16 ++ [x07; x00; x00].

(** Four shifts of the register. *)
Definition shift4 (p x : Z) : Z :=
  Crcmod.shift1 p (Crcmod.shift1 p (Crcmod.shift1 p (Crcmod.shift1 p x))).

(** The protocol object after a run of [build_packet] calls, one for each
    message type and payload of [reqs]. *)
Definition build_many (p : Protocol.t) (reqs : list (Z * bytes))
  : Protocol.t :=
  fold_left (fun q r => snd (Protocol.build_packet q (fst r) (snd r))) reqs p.

End PacketTerms.

(** ** Application headers *)

Section PatchTerms.
Import Py Struct PatchAppHeader.

(** The magic number stands at [o]. *)
Definition magic_at (data : bytes) (o : Z) : Prop :=
  slice data o (o + 4) = APP_HEADER_MAGIC_BYTES.

(** [r] is the first offset, counting from [off] in steps of 4 and
    leaving room for a header, at which the magic number stands; or [-1]
    if there is none. *)
Definition first_magic (data : bytes) (off r : Z) : Prop :=
  (r = -1 /\
   forall k, 0 <= k -> off + 4 * k <= len data - APP_HEADER_SIZE ->
             ~ magic_at data (off + 4 * k)) \/
  (exists j, 0 <= j /\ r = off + 4 * j /\
             r <= len data - APP_HEADER_SIZE /\ magic_at data r /\
             forall k, 0 <= k < j -> ~ magic_at data (off + 4 * k)).

(** A 32-bit field. *)
Definition in32 (v : Z) : bool := (0 <=? v) && (v <? 2 ^ 32).

(** The build identifier is ASCII, so that [pack_header] can encode it. *)
Definition ascii_build_id (h : bytes) : bool :=
  forallb (fun b => byte_val b <? 128) (rstrip0 (slice h 28 44)).

(** The header dictionary that [parse_header] builds from 48 bytes. *)
Definition header_of (h : bytes) : header :=
  mkHeader
    (le_decode (slice h 0 4)) (le_decode (slice h 4 5))
    (le_decode (slice h 5 6)) (le_decode (slice h 6 7))
    (le_decode (slice h 7 8)) (le_decode (slice h 8 9))
    (le_decode (slice h 9 10)) (le_decode (slice h 10 11))
    (le_decode (slice h 11 12)) (le_decode (slice h 12 16))
    (le_decode (slice h 16 20)) (le_decode (slice h 20 24))
    (le_decode (slice h 24 28))
    (decode_ascii_replace (rstrip0 (slice h 28 44)))
    (le_decode (slice h 44 48)).

(** The four bytes of the placeholder 0xFFFFFFFF. *)
Definition FF4 : bytes := [xff; xff; xff; xff].

(** The header that [patch_binary] writes in place of the header [h] of
    a binary of [sz] bytes, [pre] standing before it and [post] after. *)
Definition patched_header (pre h post : bytes) : bytes :=
  let sz := len (pre ++ h ++ post) in
  let temp :=
    pre ++ (slice h 0 12 ++ le_encode 4 sz ++ FF4 ++ slice h 20 44 ++ FF4)
        ++ post in
  let c := crc32 temp in
  let hc :=
    crc32 (slice h 0 12 ++ le_encode 4 sz ++ le_encode 4 c ++ slice h 20 44) in
  slice h 0 12 ++ le_encode 4 sz ++ le_encode 4 c ++ slice h 20 44 ++
  le_encode 4 hc.

(** [off] is the smallest multiple of 4 at which the magic number stands
    with at least 48 bytes remaining. *)
Definition first_aligned_magic (data : bytes) (off : Z) : Prop :=
  0 <= off /\ off mod 4 = 0 /\ off + 48 <= len data /\ magic_at data off /\
  forall o, 0 <= o < off -> o mod 4 = 0 -> ~ magic_at data o.

(** [out] has the length of [data] and the same byte at every index
    outside [off .. off + 48). *)
Definition same_outside_header (data out : bytes) (off : Z) : Prop :=
  len out = len data /\
  forall i, 0 <= i < len data -> i < off \/ off + 48 <= i ->
            nth_error out (Z.to_nat i) = nth_error data (Z.to_nat i).

(** The patched fields, read back from a binary whose header is at [off]. *)
Definition read_fw_size (b : bytes) (off : Z) : Z :=
  le_decode (slice b (off + 12) (off + 16)).

Definition read_fw_crc32 (b : bytes) (off : Z) : Z :=
  le_decode (slice b (off + 16) (off + 20)).

Definition read_header_crc32 (b : bytes) (off : Z) : Z :=
  le_decode (slice b (off + 44) (off + 48)).

(** The binary with both CRC fields of its header held at 0xFFFFFFFF. *)
Definition with_crc_placeholders (b : bytes) (off : Z) : bytes :=
  slice_assign (slice_assign b (off + 16) (off + 20) FF4)
    (off + 44) (off + 48) FF4.

(** A binary of 60 bytes: eight bytes of code, an unpatched header at
    offset 8 (device type 1, firmware 1.2.3, build ["abc"]), four bytes
    of code. *)
Definition sample_binary : bytes :=
  [x00; x20; x00; x20; xc1; x00; x00; x08] ++
  [x41; x47; x53; x59; x01; x01; x00; xff; x01; x02; x03; x00;
   xff; xff; xff; xff; xff; xff; xff; xff;
   x00; x60; x02; x00; x80; x51; x01; x00;
   x61; x62; x63; x00; x00; x00; x00; x00;
   x00; x00; x00; x00; x00; x00; x00; x00;
   xff; xff; xff; xff] ++
  [x70; x47; x00; xbf].

Definition sample_patched : bytes :=
  Eval vm_compute in
    match patch_binary sample_binary with
    | Ok (Some out) => out
    | _ => []
    end.

End PatchTerms.

(** ** OTA sessions *)

Section OtaTerms.
Import Py Ota.

(** [n] is the number of chunks of 200 bytes needed for [size] bytes. *)
Definition is_ceil_div_200 (size n : Z) : Prop :=
  200 * (n - 1) < size <= 200 * n.

(** The size and chunk count of a session agree with its firmware, as
    [start_update] sets them. *)
Definition session_ok (s : OtaSession) : Prop :=
  firmware_size s = len (firmware_data s) /\
  total_chunks s = (firmware_size s + OTA_CHUNK_SIZE - 1) / OTA_CHUNK_SIZE.

(** The chunk indexes of a session, in order. *)
Definition chunk_indexes (s : OtaSession) : list Z :=
  map Z.of_nat (seq 0 (Z.to_nat (total_chunks s))).

(** The session once chunk [i] is recorded as sent to [u]. *)
Definition mark_sent (u : string) (i : Z) (s : OtaSession) : OtaSession :=
  match dict_get u (devices s) with
  | Some d => set_devices (dict_set u (set_last_chunk_sent i d) (devices s)) s
  | None => s
  end.

(** From a manager satisfying [Pre], the computation [c] either returns
    [a] and leaves a manager satisfying [Q a], or raises or waits forever
    and leaves a manager satisfying [R]. *)
Definition hoare {A : Type} (Pre : OtaManager -> Prop) (c : M A)
    (Q : A -> OtaManager -> Prop) (R : OtaManager -> Prop) : Prop :=
  forall m, Pre m ->
    match c m with
    | Returned a m' => Q a m'
    | Raised _ m' => R m'
    | Blocked m' => R m'
    end.

(** The part of the chunk invariant that the code keeps: the last chunk
    acknowledged is at least -1, and the last chunk sent lies between -1
    and the chunk count [T]. *)
Definition device_in_range (T : Z) (d : DeviceOtaInfo) : Prop :=
  -1 <= last_chunk_acked d /\ -1 <= last_chunk_sent d < T.

Definition inv_T (T : Z) (m : OtaManager) : Prop :=
  0 <= T /\
  match session m with
  | None => True
  | Some s =>
      total_chunks s = T /\ Forall (device_in_range T) (dict_values (devices s))
  end.

(** The same, for the chunk count of the session at hand. *)
Definition chunk_marks_in_range (m : OtaManager) : Prop :=
  match session m with
  | None => True
  | Some s =>
      0 <= total_chunks s /\
      Forall (device_in_range (total_chunks s)) (dict_values (devices s))
  end.

(** The computation [c] keeps the invariant, however it ends. *)
Definition keeps (T : Z) {A : Type} (c : M A) : Prop :=
  hoare (inv_T T) c (fun _ => inv_T T) (inv_T T).

(** A device, the firmware of 450 bytes it is to receive (three chunks,
    the last of 50 bytes), and the disk holding it. *)
Definition device_uuid : bytes :=
  [x01; x02; x03; x04; x05; x06; x07; x08;
   x09; x0a; x0b; x0c; x0d; x0e; x0f; x10].

Definition device_key : string := Protocol.uuid_to_str device_uuid.

Definition firmware_450 : bytes :=
  map (fun n => byte_of (Z.of_nat n)) (seq 0 450).

Definition disk (path : string) : fs_entry :=
  if String.eqb path "fw.bin" then File firmware_450 else Absent.

(** The manager after [start_update("fw.bin", (1, 2, 0))], the generator
    drawing the announce id 0xDEADBEEF. *)
Definition started_manager : OtaManager :=
  final (start_update disk 0xDEADBEEE 1000 "fw.bin" (1, 2, 0) 0xFF
           (new_manager Protocol.init)).

(** Payloads as the device packs them. *)
Definition request_payload (announce_id last_chunk_received : Z) : bytes :=
  le_encode 4 announce_id ++ [x01; x01; x00] ++
  le_encode 2 last_chunk_received.

Definition ack_payload (announce_id chunk_index status : Z) : bytes :=
  le_encode 4 announce_id ++ le_encode 2 chunk_index ++ le_encode 1 status.

Definition complete_payload (announce_id crc status : Z) : bytes :=
  le_encode 4 announce_id ++ le_encode 4 crc ++ le_encode 1 status.

(** A message of the device, received at [now]. *)
Definition from_device (now : time) (msg_type : Z) (payload : bytes) : event :=
  Receive now
    (PacketHeader.mk [x41; x47] 1 msg_type 1 device_uuid 1 (len payload))
    payload.

(** The record of the device in a manager. *)
Definition device_record (m : OtaManager) : option DeviceOtaInfo :=
  match session m with
  | Some s => dict_get device_key (devices s)
  | None => None
  end.

(** The packets handed to the radio, oldest first. *)
Definition packets (m : OtaManager) : list bytes :=
  flat_map (fun e => match e with Send p => [p] | _ => [] end) (trace m).

Definition started_session : OtaSession :=
  match session started_manager with
  | Some s => s
  | None => mkSession 0 0 EmptyString [] 0 0 (0, 0, 0) 0 [] 0 false
  end.

(** The record of the device after the request and a stale ACK. *)
Definition after_request : Leader :=
  run [from_device 1001 MessageType.OTA_REQUEST
         (request_payload 0xDEADBEEF 0xFFFF)]
    (started started_manager).

Definition after_stale_ack : Leader :=
  run [from_device 1002 MessageType.OTA_CHUNK_ACK
         (ack_payload 0xDEADBEEF 2 0)]
    after_request.

(** A device that resumes after chunk 1, acknowledges chunk 2, and then
    acknowledges chunk 0 again. *)
Definition after_resume_and_ack : Leader :=
  run [from_device 1001 MessageType.OTA_REQUEST (request_payload 0xDEADBEEF 1);
       from_device 1002 MessageType.OTA_CHUNK_ACK (ack_payload 0xDEADBEEF 2 0)]
    (started started_manager).

Definition after_old_ack : Leader :=
  run [from_device 1003 MessageType.OTA_CHUNK_ACK
         (ack_payload 0xDEADBEEF 0 0)]
    after_resume_and_ack.

Definition ack_of_chunk_0 : bytes := ack_payload 0xDEADBEEF 0 0.




Definition requested_session : OtaSession :=
  match session (manager after_request) with
  | Some s => s
  | None => started_session
  end.

Definition requested_device : DeviceOtaInfo :=
  match device_record (manager after_request) with
  | Some d => d
  | None => new_device []
  end.

Definition nack_of_chunk_0 : bytes := ack_payload 0xDEADBEEF 0 1.

Definition nack_header : PacketHeader.t :=
  PacketHeader.mk [x41; x47] 1 MessageType.OTA_CHUNK_NACK 1 device_uuid 2
    (len nack_of_chunk_0).

(** The invariant as the specification words it. *)
Definition chunk_invariant_claimed (s : OtaSession) (d : DeviceOtaInfo)
  : Prop :=
  -1 <= last_chunk_acked d /\ last_chunk_acked d <= last_chunk_sent d /\
  last_chunk_sent d < total_chunks s.

(** A device that had received every chunk but the session is new to the
    leader: it asks to resume after chunk 2, the last of three. *)
Definition after_resume_request : Leader :=
  run [from_device 1001 MessageType.OTA_REQUEST (request_payload 0xDEADBEEF 2)]
    (started started_manager).

(** Every device is in a final state, and there is at least one. *)
Definition all_devices_done (s : OtaSession) : bool :=
  forallb (fun d => state_eqb (state d) COMPLETE || state_eqb (state d) ERROR)
    (dict_values (devices s))
  && (0 <? len (devices s)).

Definition after_six_nacks : Leader :=
  run (repeat (Receive 1002 nack_header nack_of_chunk_0) 6) after_request.

Definition after_crc_mismatch : Leader :=
  run [from_device 1002 MessageType.OTA_COMPLETE
         (complete_payload 0xDEADBEEF 0 1)]
    after_request.




(** The number of devices of a session that are in the state [st]. *)
Definition devices_in_state (st : DeviceOtaState) (s : OtaSession) : Z :=
  len (filter (fun d => state_eqb (state d) st) (dict_values (devices s))).

(** A device that [_process_pending_chunks] would send a chunk to. *)
Definition needs_chunk (s : OtaSession) (d : DeviceOtaInfo) : bool :=
  state_eqb (state d) RECEIVING &&
  (last_chunk_acked d + 1 <? total_chunks s) &&
  (last_chunk_sent d <? last_chunk_acked d + 1).

(** A device that [_check_timeouts] would count a retry for. *)
Definition timed_out (now : time) (d : DeviceOtaInfo) : bool :=
  (state_eqb (state d) REQUESTED || state_eqb (state d) RECEIVING) &&
  (OTA_CHUNK_TIMEOUT_SEC <? now - last_activity d).

(** No device is waiting for a chunk or has timed out. *)
Definition quiet (now : time) (s : OtaSession) : bool :=
  forallb (fun d => negb (needs_chunk s d) && negb (timed_out now d))
    (dict_values (devices s)).

(** The fields of the announce fit the packet. *)
Definition announceable (s : OtaSession) : Prop :=
  0 <= target_device_type s < 256 /\
  (let '(v0, v1, v2) := version s in
   0 <= v0 < 256 /\ 0 <= v1 < 256 /\ 0 <= v2 < 256) /\
  0 <= firmware_size s <= 13107000 /\
  0 <= firmware_crc s < 2 ^ 32 /\
  0 <= announce_id s < 2 ^ 32.

(** A status report as the device packs it. *)
Definition status_payload (announce_id received total state error : Z)
  : bytes :=
  le_encode 4 announce_id ++ le_encode 2 received ++ le_encode 2 total ++
  le_encode 1 state ++ le_encode 1 error.

(** The header of a message of the device. *)
Definition device_header (msg_type : Z) (payload : bytes) : PacketHeader.t :=
  PacketHeader.mk [x41; x47] 1 msg_type 1 device_uuid 1 (len payload).

(** The body of the loop of [_check_timeouts]. *)
Definition timeout_body (now : time) (uuid_str : string) : M unit :=
  device <- the_device uuid_str ;;
  if state_eqb (state device) REQUESTED
     || state_eqb (state device) RECEIVING then
    if OTA_CHUNK_TIMEOUT_SEC <? now - last_activity device then
      assign uuid_str (set_retry_count (retry_count device + 1)) ;;
      device <- the_device uuid_str ;;
      if OTA_MAX_RETRIES <? retry_count device then
        assign uuid_str (set_state ERROR) ;;
        assign uuid_str (set_error_message "Timeout"%string)
      else
        let chunk := last_chunk_acked device + 1 in
        s <- the_session ;;
        if chunk <? total_chunks s then
          assign uuid_str (set_last_activity now) ;;
          _send_chunk uuid_str chunk
        else ret tt
    else ret tt
  else ret tt.

(** A timed-out device that [_check_timeouts] would send a chunk to. *)
Definition resend_due (now : time) (s : OtaSession) (d : DeviceOtaInfo)
  : bool :=
  timed_out now d && negb (OTA_MAX_RETRIES <? retry_count d + 1) &&
  (last_chunk_acked d + 1 <? total_chunks s).

(** The record of a device after [_check_timeouts] has passed it without
    sending. *)
Definition swept (now : time) (d : DeviceOtaInfo) : DeviceOtaInfo :=
  if timed_out now d then
    if OTA_MAX_RETRIES <? retry_count d + 1 then
      set_error_message "Timeout"%string
        (set_state ERROR (set_retry_count (retry_count d + 1) d))
    else set_retry_count (retry_count d + 1) d
  else d.

Definition sweep (now : time) (dv : dict) : dict :=
  map (fun kv => (fst kv, swept now (snd kv))) dv.

(** The body of the loop of [_process_pending_chunks]. *)
Definition pending_body (uuid_str : string) : M unit :=
  device <- the_device uuid_str ;;
  s <- the_session ;;
  if state_eqb (state device) RECEIVING then
    let next_chunk := last_chunk_acked device + 1 in
    if next_chunk <? total_chunks s then
      if last_chunk_sent device <? next_chunk then
        _send_chunk uuid_str next_chunk
      else ret tt
    else ret tt
  else ret tt.

(** The session fits the fields of a chunk packet. *)
Definition chunks_sendable (s : OtaSession) : Prop :=
  session_ok s /\ total_chunks s <= 65536 /\ 0 <= announce_id s < 2 ^ 32.

(** The manager after the request and five NACKs of chunk 0. *)
Definition after_five_nacks : Leader :=
  run (repeat (Receive 1002 nack_header nack_of_chunk_0) 5) after_request.

Definition worn_session : OtaSession :=
  match session (manager after_five_nacks) with
  | Some s => s
  | None => started_session
  end.

(** The session of [after_request] with chunk 0 acknowledged to it. *)
Definition acked_session : OtaSession :=
  set_devices
    [(device_key, set_state RECEIVING (set_last_chunk_acked 0 requested_device))]
    requested_session.

(** The manager inside the lock, the devices being [dv]. *)
Definition held (p : Protocol.t) (s : OtaSession) (r : bool) (t : list effect)
    (dv : dict) : OtaManager :=
  mkManager p (Some (set_devices dv s)) true r t.

End OtaTerms.

(** ** The controller *)

Section ControllerTerms.
Import Py Controller.

(** The record of a device once a report of it is handled: a new record
    for a device not in the table [old = None], the old record with the
    time, the battery level and the RSSI of the report otherwise. *)
Definition reported (now : datetime) (h : PacketHeader.t)
    (report : SensorReport.t) (rssi : Z) (old : option DeviceInfo)
  : DeviceInfo :=
  match old with
  | None =>
      mkDevice (Protocol.uuid_to_str (PacketHeader.uuid h))
        (PacketHeader.device_type h) now now "unknown"
        (SensorReport.battery_mv report) rssi
  | Some d =>
      mkDevice (uuid d) (device_type d) (first_seen d) now
        (firmware_version d) (SensorReport.battery_mv report) rssi
  end.

(** The statement that records the device. *)
Definition device_statement (now : datetime) (h : PacketHeader.t)
    (report : SensorReport.t) (rssi : Z) (old : option DeviceInfo)
  : statement :=
  match old with
  | None => InsertDevice (reported now h report rssi None)
  | Some d =>
      UpdateDevice now (SensorReport.battery_mv report) rssi (uuid d)
  end.

(** The statement that records the measurement. *)
Definition data_statement (stamp : datetime) (h : PacketHeader.t)
    (report : SensorReport.t) (rssi : Z) : statement :=
  InsertSensorData (Protocol.uuid_to_str (PacketHeader.uuid h)) stamp
    (SensorReport.moisture_raw report) (SensorReport.moisture_percent report)
    (SensorReport.battery_mv report) (SensorReport.temperature report) rssi.

(** The flags of the ACK: SEND_LOGS when the report has HAS_PENDING,
    bit 3 of its flags. *)
Definition ack_flags_of (report : SensorReport.t) : Z :=
  if Z.testbit (SensorReport.flags report) 3 then 1 else 0.

(** The frame is a sensor report that parses. *)
Definition sensor_frame (data : bytes) (h : PacketHeader.t)
    (report : SensorReport.t) : Prop :=
  exists payload,
    Protocol.parse_packet data = Some (h, payload) /\
    PacketHeader.msg_type h = MessageType.SENSOR_REPORT /\
    Protocol.parse_sensor_report payload = Some report.

(** The key of the sender in the table of devices, and its record. *)
Definition key_of (h : PacketHeader.t) : string :=
  Protocol.uuid_to_str (PacketHeader.uuid h).

Definition known (c : Controller.t) (h : PacketHeader.t)
  : option DeviceInfo :=
  lookup (key_of h) (devices c).

(** The statements that insert a device with the key [k]. *)
Definition inserts_of (k : string) (l : list effect) : list DeviceInfo :=
  flat_map (fun e =>
              match e with
              | Commit (InsertDevice d) =>
                  if String.eqb (uuid d) k then [d] else []
              | _ => []
              end) l.

(** A soil-moisture sensor report as the device frames it, and the
    controller that receives it. *)
Definition report_payload : bytes :=
  le_encode 4 1700000000 ++ le_encode 2 512 ++ le_encode 1 47 ++
  le_encode 2 3700 ++ le_encode 2 215 ++ le_encode 2 60 ++ le_encode 1 2 ++
  le_encode 1 0x08.

Definition report_frame : bytes :=
  [x41; x47; x01; x01; x01] ++ device_uuid ++ le_encode 2 9 ++
  le_encode 1 15 ++ report_payload.

Definition report_header : PacketHeader.t :=
  PacketHeader.mk [x41; x47] 1 MessageType.SENSOR_REPORT 1 device_uuid 9 15.

Definition report_fields : SensorReport.t :=
  SensorReport.mk 1700000000 512 47 3700 215 60 2 0x08.

Definition fresh_controller : Controller.t :=
  Controller.mk Protocol.init None true [] [].

(** What a device in the table keeps through the handling of packets:
    its record stays, with its UUID, type, first sighting and firmware
    version, and no statement inserting it is committed. *)
Definition kept (k : string) (d : DeviceInfo) (c c' : Controller.t) : Prop :=
  (exists d',
     lookup k (devices c') = Some d' /\
     Controller.uuid d' = Controller.uuid d /\
     Controller.device_type d' = Controller.device_type d /\
     first_seen d' = first_seen d /\
     firmware_version d' = firmware_version d) /\
  inserts_of k (log c') = inserts_of k (log c).

(** The controller once the report is handled, the record it has of the
    device, and a second report received later. *)
Definition reported_controller : Controller.t :=
  final (_handle_packet (fun _ => true) 1000 1001 report_frame (-80)
           fresh_controller).

Definition first_record : DeviceInfo :=
  reported 1000 report_header report_fields (-80) None.

Definition later_receptions : list reception :=
  [mkReception report_frame (-75) 2000 2001 (fun _ => true)].

End ControllerTerms.

(** ** The radio *)

Section LoRaTerms.

(** The inclusive range [lo .. hi]. *)
Definition between (lo hi : Z) : list Z :=
  map (fun n => lo + Z.of_nat n) (seq 0 (Z.to_nat (hi - lo + 1))).

(** [x] limited to [lo .. hi], as [max(lo, min(hi, x))]. *)
Definition limited (lo hi x : Z) : Z := Z.max lo (Z.min hi x).

(** An SPI device that answers every transfer with the bytes 0x00 0x72
    and keeps the list of what it was sent. *)
Definition recording_bus (request : list Z) (sent : list (list Z))
  : list Z * list (list Z) :=
  ([0x00; 0x72], sent ++ [request]).

End LoRaTerms.

(* ===================================================================== *)
(** * Part III: properties                                                *)
(* ===================================================================== *)

(** ** Bytes, slices and little-endian integers *)

Section PyFacts.
Import Py.

Lemma byte_val_range (b : byte) : 0 <= byte_val b < 256.
Proof.
  unfold byte_val. pose proof (Byte.to_N_bounded b). lia.
Qed.

Lemma byte_of_val (b : byte) : byte_of (byte_val b) = b.
Proof.
  unfold byte_of, byte_val.
  pose proof (Byte.to_N_bounded b).
  rewrite Z.mod_small by lia.
  rewrite N2Z.id, Byte.of_to_N. reflexivity.
Qed.

Lemma byte_val_of (z : Z) : byte_val (byte_of z) = z mod 256.
Proof.
  unfold byte_of, byte_val.
  pose proof (Z.mod_pos_bound z 256 ltac:(lia)) as Hr.
  destruct (Byte.of_N (Z.to_N (z mod 256))) as [b|] eqn:E.
  - apply Byte.to_of_N in E. lia.
  - apply Byte.of_N_None_iff in E. lia.
Qed.

Lemma byte_of_mod (z : Z) : byte_of z = byte_of (z mod 256).
Proof.
  unfold byte_of. rewrite Z.mod_mod by lia. reflexivity.
Qed.

Lemma len_nonneg {A : Type} (l : list A) : 0 <= len l.
Proof. unfold len. lia. Qed.

Lemma len_app {A : Type} (a b : list A) : len (a ++ b) = len a + len b.
Proof. unfold len. rewrite length_app. lia. Qed.

Lemma le_encode_length (n : nat) (v : Z) : length (le_encode n v) = n.
Proof.
  revert v. induction n as [|n IH]; intros v; simpl; [reflexivity|].
  now rewrite IH.
Qed.

Lemma le_decode_range (l : bytes) :
  0 <= le_decode l < 256 ^ Z.of_nat (length l).
Proof.
  induction l as [|b t IH]; cbn [le_decode length].
  - simpl. lia.
  - rewrite Nat2Z.inj_succ, Z.pow_succ_r by lia.
    pose proof (byte_val_range b). lia.
Qed.

Lemma le_encode_decode (l : bytes) : le_encode (length l) (le_decode l) = l.
Proof.
  induction l as [|b t IH]; cbn [le_encode le_decode length];
    [reflexivity|].
  pose proof (byte_val_range b) as Hb.
  f_equal.
  - rewrite byte_of_mod, (Z.mul_comm 256), Z.mod_add by lia.
    rewrite <- byte_of_mod. apply byte_of_val.
  - rewrite (Z.mul_comm 256), Z.div_add by lia.
    rewrite Z.div_small by lia. exact IH.
Qed.

Lemma le_decode_encode (n : nat) (v : Z) :
  0 <= v < 256 ^ Z.of_nat n -> le_decode (le_encode n v) = v.
Proof.
  revert v. induction n as [|n IH]; intros v Hv.
  - simpl in *. lia.
  - rewrite Nat2Z.inj_succ, Z.pow_succ_r in Hv by lia.
    cbn [le_encode le_decode]. rewrite byte_val_of, IH.
    + pose proof (Z.div_mod v 256 ltac:(lia)). lia.
    + split; [apply Z.div_pos; lia|].
      apply Z.div_lt_upper_bound; lia.
Qed.

(** A slice with bounds inside the sequence. *)
Lemma slice_inside {A : Type} (l : list A) (lo hi : Z) :
  0 <= lo -> lo <= hi -> hi <= len l ->
  slice l lo hi = firstn (Z.to_nat (hi - lo)) (skipn (Z.to_nat lo) l).
Proof.
  intros H0 H1 H2. unfold slice, clamp.
  destruct (Z.ltb_spec lo 0); [lia|].
  destruct (Z.ltb_spec hi 0); [lia|].
  rewrite !Z.min_l by lia. reflexivity.
Qed.

(** The middle of three concatenated pieces. *)
Lemma slice_middle {A : Type} (a b c : list A) :
  slice (a ++ b ++ c) (len a) (len a + len b) = b.
Proof.
  rewrite slice_inside.
  - replace (len a + len b - len a) with (len b) by lia.
    unfold len. rewrite !Nat2Z.id.
    rewrite skipn_app, skipn_all, Nat.sub_diag. simpl.
    rewrite firstn_app, firstn_all, Nat.sub_diag. simpl.
    apply app_nil_r.
  - apply len_nonneg.
  - pose proof (len_nonneg b). lia.
  - rewrite !len_app. pose proof (len_nonneg c). lia.
Qed.

Lemma slice_prefix {A : Type} (a b : list A) : slice (a ++ b) 0 (len a) = a.
Proof.
  pose proof (slice_middle (@nil A) a b) as H. simpl in H.
  unfold len at 1 in H. simpl in H. exact H.
Qed.

Lemma slice_all {A : Type} (a : list A) : slice a 0 (len a) = a.
Proof.
  pose proof (slice_prefix a []) as H. rewrite app_nil_r in H. exact H.
Qed.

(** A slice whose upper bound lies past the end stops at the end. *)
Lemma slice_past_end {A : Type} (l : list A) (lo hi : Z) :
  0 <= lo -> len l <= hi -> slice l lo hi = skipn (Z.to_nat lo) l.
Proof.
  intros H0 H1. unfold slice, clamp.
  pose proof (len_nonneg l).
  destruct (Z.ltb_spec lo 0); [lia|].
  destruct (Z.ltb_spec hi 0); [lia|].
  rewrite (Z.min_r hi) by lia.
  destruct (Z.le_ge_cases lo (len l)).
  - rewrite Z.min_l by lia. apply firstn_all2.
    rewrite length_skipn. unfold len in *. lia.
  - rewrite Z.min_r by lia. rewrite Z.sub_diag. simpl.
    symmetry. apply skipn_all2. unfold len in *. lia.
Qed.

Lemma slice_assign_middle {A : Type} (a b c seg : list A) :
  slice_assign (a ++ b ++ c) (len a) (len a + len b) seg = a ++ seg ++ c.
Proof.
  unfold slice_assign, clamp.
  pose proof (len_nonneg a). pose proof (len_nonneg b).
  pose proof (len_nonneg c).
  destruct (Z.ltb_spec (len a) 0); [lia|].
  destruct (Z.ltb_spec (len a + len b) 0); [lia|].
  rewrite !len_app.
  rewrite (Z.min_l (len a)), (Z.min_l (len a + len b)), Z.max_r by lia.
  unfold len. rewrite <- Nat2Z.inj_add, !Nat2Z.id.
  rewrite firstn_app, firstn_all, Nat.sub_diag. simpl. rewrite app_nil_r.
  f_equal. f_equal.
  rewrite app_assoc, skipn_app.
  rewrite skipn_all2 by (rewrite length_app; lia).
  rewrite length_app, Nat.sub_diag. reflexivity.
Qed.

(** Cutting a sequence in three at two positions. *)
Lemma split3 {A : Type} (l : list A) (lo n : Z) :
  0 <= lo -> 0 <= n -> lo + n <= len l ->
  exists a b c, l = a ++ b ++ c /\ len a = lo /\ len b = n /\
                b = slice l lo (lo + n).
Proof.
  intros H0 Hn H1.
  exists (firstn (Z.to_nat lo) l).
  exists (firstn (Z.to_nat n) (skipn (Z.to_nat lo) l)).
  exists (skipn (Z.to_nat n) (skipn (Z.to_nat lo) l)).
  unfold len in *.
  repeat split.
  - now rewrite !firstn_skipn.
  - rewrite length_firstn. lia.
  - rewrite length_firstn, length_skipn. lia.
  - rewrite slice_inside by (unfold len; lia).
    now replace (lo + n - lo) with n by lia.
Qed.

End PyFacts.

(** ** [struct]: packing and unpacking are inverse *)

Section StructFacts.
Import Py Struct.

Lemma ljust0_exact (n : nat) (b : bytes) : length b = n -> ljust0 n b = b.
Proof.
  intros <-. unfold ljust0. rewrite Nat.sub_diag. apply app_nil_r.
Qed.

Lemma ljust0_length (n : nat) (b : bytes) :
  (length b <= n)%nat -> length (ljust0 n b) = n.
Proof.
  intros H. unfold ljust0. rewrite length_app, repeat_length. lia.
Qed.

Lemma pack_item_length (f : item) (v : value) (b : bytes) :
  pack_item f v = Some b -> length b = item_size f.
Proof.
  destruct f as [n|n], v as [z|s]; simpl; try discriminate.
  - destruct (_ && _); [|discriminate]. intros [= <-].
    apply le_encode_length.
  - intros [= <-]. apply ljust0_length. rewrite length_firstn. lia.
Qed.

Lemma pack_length (fmt : list item) :
  forall vs b, pack fmt vs = Some b -> length b = calcsize fmt.
Proof.
  induction fmt as [|f fmt IH]; intros [|v vs] b; simpl; try discriminate.
  - now intros [= <-].
  - destruct (pack_item f v) as [a|] eqn:Ea; [|discriminate].
    destruct (pack fmt vs) as [r|] eqn:Er; [|discriminate].
    intros [= <-]. rewrite length_app.
    now rewrite (pack_item_length _ _ _ Ea), (IH _ _ Er).
Qed.

Lemma unpack_pack_item (f : item) (v : value) (b : bytes) :
  pack_item f v = Some b -> fits f v -> unpack_item f b = v.
Proof.
  destruct f as [n|n], v as [z|s]; simpl; try contradiction.
  - intros Hp Hz.
    destruct (_ && _); [|discriminate]. injection Hp as <-.
    now rewrite le_decode_encode.
  - intros [= <-] Hs. f_equal.
    rewrite firstn_all2 by lia. now apply ljust0_exact.
Qed.

(** Unpacking what was packed gives the values back, whatever follows
    the packed bytes. *)
Lemma unpack_items_pack (fmt : list item) :
  forall vs b rest,
    pack fmt vs = Some b -> Forall2 fits fmt vs ->
    unpack_items fmt (b ++ rest) = vs.
Proof.
  induction fmt as [|f fmt IH]; intros [|v vs] b rest; simpl;
    try discriminate.
  - reflexivity.
  - destruct (pack_item f v) as [a|] eqn:Ea; [|discriminate].
    destruct (pack fmt vs) as [r|] eqn:Er; [|discriminate].
    intros [= <-] HF. inversion HF as [|? ? ? ? Hfit HF']; subst.
    pose proof (pack_item_length _ _ _ Ea) as La.
    rewrite <- app_assoc.
    rewrite firstn_app, skipn_app, <- La.
    rewrite firstn_all, skipn_all, Nat.sub_diag. simpl.
    rewrite app_nil_r. f_equal.
    + now apply unpack_pack_item.
    + now apply IH.
Qed.

Lemma unpack_pack (fmt : list item) (vs : list value) (b : bytes) :
  pack fmt vs = Some b -> Forall2 fits fmt vs -> unpack fmt b = Some vs.
Proof.
  intros Hp HF. unfold unpack.
  rewrite (pack_length _ _ _ Hp), Nat.eqb_refl.
  pose proof (unpack_items_pack fmt vs b [] Hp HF) as H.
  rewrite app_nil_r in H. now rewrite H.
Qed.

Lemma pack_unpack_item (f : item) (b : bytes) :
  length b = item_size f -> pack_item f (unpack_item f b) = Some b.
Proof.
  destruct f as [n|n]; simpl; intros <-.
  - pose proof (le_decode_range b) as Hr.
    destruct (Z.leb_spec 0 (le_decode b)); [|lia].
    destruct (Z.ltb_spec (le_decode b) (256 ^ Z.of_nat (length b))); [|lia].
    simpl. now rewrite le_encode_decode.
  - rewrite firstn_all. now rewrite ljust0_exact.
Qed.

(** Packing what was unpacked gives the bytes back. *)
Lemma pack_unpack_items (fmt : list item) :
  forall b, length b = calcsize fmt -> pack fmt (unpack_items fmt b) = Some b.
Proof.
  induction fmt as [|f fmt IH]; intros b Hb; simpl in *.
  - destruct b; [reflexivity|discriminate].
  - rewrite pack_unpack_item by (rewrite length_firstn; lia).
    rewrite IH by (rewrite length_skipn; lia).
    now rewrite firstn_skipn.
Qed.

End StructFacts.

(** ** The packet header *)

Section HeaderFacts.
Import Py Struct.

Lemma header_size : PacketHeader.SIZE = 24.
Proof. reflexivity. Qed.

Lemma header_pack_in_range (h : PacketHeader.t) :
  header_in_range h -> exists b, PacketHeader.pack h = Some b.
Proof.
  intros (Hm & Hv & Ht & Hd & Hu & Hs & Hp).
  unfold PacketHeader.pack, PacketHeader.FORMAT, B, H.
  cbn [pack pack_item].
  repeat match goal with
  | |- context [((0 <=? ?z) && (?z <? ?n))] =>
      replace ((0 <=? z) && (z <? n)) with true
        by (symmetry; apply andb_true_iff; split;
            [apply Z.leb_le | apply Z.ltb_lt]; simpl; lia)
  end.
  eexists. reflexivity.
Qed.

Lemma header_unpack_pack (h : PacketHeader.t) (b rest : bytes) :
  header_in_range h -> PacketHeader.pack h = Some b ->
  PacketHeader.unpack (b ++ rest) = Some h.
Proof.
  intros (Hm & Hv & Ht & Hd & Hu & Hs & Hp) Hb.
  unfold PacketHeader.unpack.
  pose proof (pack_length _ _ _ Hb) as Lb.
  change (calcsize PacketHeader.FORMAT) with 24%nat in Lb.
  replace PacketHeader.SIZE with (len b) by (unfold len; rewrite Lb; reflexivity).
  rewrite slice_prefix.
  unfold PacketHeader.pack in Hb.
  rewrite (unpack_pack _ _ _ Hb).
  - destruct h; reflexivity.
  - unfold PacketHeader.FORMAT, B, H.
    repeat (apply Forall2_cons; [simpl; first [assumption | lia]|]).
    apply Forall2_nil.
Qed.

End HeaderFacts.

Section HeaderTheorems.
Import Py Struct.

(** C6. For every header whose fields are in range, [PacketHeader.pack]
    gives exactly 24 bytes; unpacking them gives the header back; and
    [parse_packet] on those bytes followed by a payload of the announced
    length returns the header together with the payload. *)
Theorem header_roundtrip (h : PacketHeader.t) (payload : bytes) :
  header_in_range h ->
  PacketHeader.payload_len h = len payload ->
  exists b,
    PacketHeader.pack h = Some b /\
    len b = 24 /\
    PacketHeader.unpack b = Some h /\
    Protocol.parse_packet (b ++ payload) = Some (h, payload).
Proof.
  intros Hr Hl.
  destruct (header_pack_in_range h Hr) as [b Hb].
  pose proof (pack_length _ _ _ Hb) as Lb.
  change (calcsize PacketHeader.FORMAT) with 24%nat in Lb.
  assert (Lb' : len b = 24) by (unfold len; rewrite Lb; reflexivity).
  exists b. repeat split; try assumption.
  - pose proof (header_unpack_pack h b [] Hr Hb) as H.
    now rewrite app_nil_r in H.
  - unfold Protocol.parse_packet.
    rewrite len_app, header_size.
    pose proof (len_nonneg payload).
    destruct (Z.ltb_spec (len b + len payload) 24); [lia|].
    rewrite (header_unpack_pack h b payload Hr Hb).
    rewrite Hl, <- Lb'.
    pose proof (slice_middle b payload []) as Hs.
    rewrite app_nil_r in Hs. now rewrite Hs.
Qed.

Lemma header_roundtrip_witness :
  exists b,
    PacketHeader.pack sample_header = Some b /\
    len b = 24 /\
    PacketHeader.unpack b = Some sample_header /\
    Protocol.parse_packet (b ++ [xde; xad; xbe]) =
      Some (sample_header, [xde; xad; xbe]).
Proof.
  apply (header_roundtrip sample_header [xde; xad; xbe]).
  - unfold header_in_range, sample_header. simpl. repeat split; lia.
  - reflexivity.
Defined.

(** C7, as stated, fails: [parse_packet] returns a header for a frame
    whose magic is not ["AG"] and whose version is not 1. *)
Lemma parse_packet_accepts_bad_magic_and_version :
  firstn 2 frame_bad_magic_version <> [x41; x47] /\
  nth 2 frame_bad_magic_version x00 <> x01 /\
  Protocol.parse_packet frame_bad_magic_version =
    Some (PacketHeader.mk [x58; x58] 9 0x13 1 (repeat x00 16) 7 0, []).
Proof.
  split; [discriminate|]. split; [discriminate|]. vm_compute. reflexivity.
Qed.

(** C7, amended. [parse_packet] fails exactly on the frames shorter than
    24 bytes. On any longer frame it returns a header, whose magic and
    version are the first three bytes of the frame, whatever they are. *)
Theorem parse_packet_fails_iff_short (data : bytes) :
  (Protocol.parse_packet data = None <-> len data < 24) /\
  (24 <= len data ->
   exists h p,
     Protocol.parse_packet data = Some (h, p) /\
     PacketHeader.magic h = firstn 2 data /\
     PacketHeader.version h = le_decode (firstn 1 (skipn 2 data))).
Proof.
  assert (Hlong : 24 <= len data ->
    exists h p,
      Protocol.parse_packet data = Some (h, p) /\
      PacketHeader.magic h = firstn 2 data /\
      PacketHeader.version h = le_decode (firstn 1 (skipn 2 data))).
  { intros Hl. unfold Protocol.parse_packet, PacketHeader.unpack.
    rewrite header_size.
    destruct (Z.ltb_spec (len data) 24); [lia|].
    rewrite slice_inside by lia.
    change (Z.to_nat (24 - 0)) with 24%nat. change (Z.to_nat 0) with 0%nat.
    rewrite skipn_O. unfold unpack.
    rewrite length_firstn.
    replace (Nat.min 24 (length data)) with 24%nat by (unfold len in *; lia).
    change (Nat.eqb 24 (calcsize PacketHeader.FORMAT)) with true.
    cbn [unpack_items unpack_item item_size PacketHeader.FORMAT B H].
    eexists _, _. split; [reflexivity|]. cbn [PacketHeader.magic PacketHeader.version].
    rewrite !firstn_firstn. simpl Nat.min.
    rewrite skipn_firstn_comm, firstn_firstn. simpl. split; reflexivity. }
  split; [|exact Hlong].
  split.
  - intros Hn. destruct (Z.lt_ge_cases (len data) 24) as [|Hge]; [assumption|].
    destruct (Hlong Hge) as (h & p & Hp & _). congruence.
  - intros Hs. unfold Protocol.parse_packet. rewrite header_size.
    destruct (Z.ltb_spec (len data) 24); [reflexivity|lia].
Qed.

End HeaderTheorems.

(** ** The table-driven CRC-32 against the bitwise one *)

Section CrcFacts.
Import Py.

Ltac by_bits :=
  apply Z.bits_inj'; intros ?n ?Hn;
  rewrite ?Z.lxor_spec, ?Z.testbit_0_l;
  repeat match goal with
  | |- context [Z.testbit ?a ?b] => destruct (Z.testbit a b)
  end; reflexivity.

Lemma shift1_lxor (p x y : Z) :
  Crcmod.shift1 p (Z.lxor x y) =
  Z.lxor (Crcmod.shift1 p x) (Crcmod.shift1 p y).
Proof.
  unfold Crcmod.shift1. rewrite Z.shiftr_lxor, Z.lxor_spec.
  destruct (Z.testbit x 0), (Z.testbit y 0); cbn [xorb]; by_bits.
Qed.

Lemma shift1_shiftl (p h k : Z) :
  0 <= k -> Crcmod.shift1 p (Z.shiftl h (k + 1)) = Z.shiftl h k.
Proof.
  intros Hk. unfold Crcmod.shift1.
  rewrite Z.shiftl_spec_low by lia.
  rewrite Z.shiftr_shiftl_l by lia.
  replace (k + 1 - 1) with k by lia. apply Z.lxor_0_r.
Qed.

Lemma shift4_lxor (p x y : Z) :
  shift4 p (Z.lxor x y) = Z.lxor (shift4 p x) (shift4 p y).
Proof. unfold shift4. now rewrite !shift1_lxor. Qed.

Lemma shift4_high (p h : Z) : shift4 p (Z.shiftl h 4) = h.
Proof.
  unfold shift4.
  change (Z.shiftl h 4) with (Z.shiftl h (3 + 1)).
  rewrite shift1_shiftl by lia.
  change (Z.shiftl h 3) with (Z.shiftl h (2 + 1)).
  rewrite shift1_shiftl by lia.
  change (Z.shiftl h 2) with (Z.shiftl h (1 + 1)).
  rewrite shift1_shiftl by lia.
  change (Z.shiftl h 1) with (Z.shiftl h (0 + 1)).
  rewrite shift1_shiftl by lia.
  apply Z.shiftl_0_r.
Qed.

(** The table holds the four-shift image of each nibble. *)
Lemma shift4_table (n : Z) :
  0 <= n < 16 -> shift4 0xEDB88320 n = PatchAppHeader.table n.
Proof.
  intros Hn.
  rewrite <- (Z2Nat.id n) by lia.
  assert (Hk : (Z.to_nat n < 16)%nat) by lia.
  revert Hk. generalize (Z.to_nat n). intros k Hk.
  do 16 (destruct k as [|k]; [reflexivity|]). lia.
Qed.

Lemma nibble_split (x : Z) :
  x = Z.lxor (Z.land x 15) (Z.shiftl (Z.shiftr x 4) 4).
Proof.
  apply Z.bits_inj'. intros n Hn.
  rewrite Z.lxor_spec, Z.land_spec.
  change 15 with (Z.ones 4).
  destruct (Z.lt_ge_cases n 4).
  - rewrite Z.ones_spec_low, Z.shiftl_spec_low by lia.
    now rewrite andb_true_r, xorb_false_r.
  - rewrite Z.ones_spec_high, Z.shiftl_spec, Z.shiftr_spec by lia.
    rewrite andb_false_r. simpl. f_equal. lia.
Qed.

Lemma nibble_range (x : Z) : 0 <= Z.land x 15 < 16.
Proof.
  change 15 with (Z.ones 4). rewrite Z.land_ones by lia.
  apply Z.mod_pos_bound. reflexivity.
Qed.

Lemma shift4_nibble (x : Z) :
  shift4 0xEDB88320 x =
  Z.lxor (PatchAppHeader.table (Z.land x 15)) (Z.shiftr x 4).
Proof.
  rewrite (nibble_split x) at 1.
  rewrite shift4_lxor, shift4_high, shift4_table by apply nibble_range.
  reflexivity.
Qed.

Lemma byte_high_nibble (b : byte) : Z.shiftr (Z.shiftr (byte_val b) 4) 4 = 0.
Proof.
  pose proof (byte_val_range b).
  rewrite Z.shiftr_shiftr by lia. rewrite Z.shiftr_div_pow2 by lia.
  apply Z.div_small. simpl. lia.
Qed.

Lemma iter8 {A : Type} (f : A -> A) (x : A) :
  Nat.iter 8 f x = f (f (f (f (f (f (f (f x))))))).
Proof. reflexivity. Qed.

Lemma iter8_shift4 (p x : Z) :
  Nat.iter 8 (Crcmod.shift1 p) x = shift4 p (shift4 p x).
Proof. rewrite iter8. unfold shift4. reflexivity. Qed.

Lemma fold_left_pointwise {A E : Type} (f g : A -> E -> A) (l : list E) :
  (forall a e, f a e = g a e) ->
  forall a, fold_left f l a = fold_left g l a.
Proof.
  intros Hfg. induction l as [|e t IH]; intros a; cbn [fold_left].
  - reflexivity.
  - rewrite Hfg. apply IH.
Qed.

(** One byte: two table look-ups do what eight shifts do. *)
Lemma crc32_byte_bitwise (crc : Z) (b : byte) :
  PatchAppHeader.crc32_byte crc b = Crcmod.update_byte 0xEDB88320 crc b.
Proof.
  unfold Crcmod.update_byte, PatchAppHeader.crc32_byte. cbv zeta.
  rewrite iter8_shift4.
  set (t := PatchAppHeader.table (Z.land (Z.lxor crc (byte_val b)) 15)).
  set (c1 := Z.lxor t (Z.shiftr crc 4)).
  assert (E : shift4 0xEDB88320 (Z.lxor crc (byte_val b)) =
              Z.lxor c1 (Z.shiftr (byte_val b) 4)).
  { rewrite shift4_nibble. fold t. rewrite Z.shiftr_lxor. unfold c1.
    now rewrite Z.lxor_assoc. }
  rewrite E, shift4_nibble, Z.shiftr_lxor.
  rewrite byte_high_nibble, Z.lxor_0_r. reflexivity.
Qed.

Lemma crc32_fold_bitwise (data : bytes) (crc : Z) :
  fold_left PatchAppHeader.crc32_byte data crc =
  fold_left (Crcmod.update_byte 0xEDB88320) data crc.
Proof.
  apply fold_left_pointwise. exact crc32_byte_bitwise.
Qed.

(** The script's [crc32] is the CRC-32 of the specification. *)
Lemma crc32_is_reference (data : bytes) :
  PatchAppHeader.crc32 data = crc32_reference data.
Proof.
  unfold PatchAppHeader.crc32, crc32_reference, Crcmod.crc_reflected.
  now rewrite crc32_fold_bitwise.
Qed.

(** Range of the xor of two numbers below a power of two. *)
Lemma lxor_range (n a b : Z) :
  0 <= n -> 0 <= a < 2 ^ n -> 0 <= b < 2 ^ n -> 0 <= Z.lxor a b < 2 ^ n.
Proof.
  intros Hn Ha Hb.
  assert (H0 : 0 <= Z.lxor a b) by (apply Z.lxor_nonneg; lia).
  split; [assumption|].
  destruct (Z.eq_dec n 0) as [->|Hn0].
  { change (2 ^ 0) with 1 in *.
    replace a with 0 by lia. replace b with 0 by lia. simpl. lia. }
  destruct (Z.eq_dec (Z.lxor a b) 0) as [->|Hne]; [lia|].
  apply Z.log2_lt_pow2; [lia|].
  eapply Z.le_lt_trans; [apply Z.log2_lxor; lia|].
  apply Z.max_lub_lt.
  - destruct (Z.eq_dec a 0) as [->|]; [simpl|apply Z.log2_lt_pow2]; lia.
  - destruct (Z.eq_dec b 0) as [->|]; [simpl|apply Z.log2_lt_pow2]; lia.
Qed.

Lemma shiftr_range (n a k : Z) :
  0 <= k -> 0 <= a < 2 ^ n -> 0 <= Z.shiftr a k < 2 ^ n.
Proof.
  intros Hk Ha. rewrite Z.shiftr_div_pow2 by lia.
  assert (0 < 2 ^ k) by (apply Z.pow_pos_nonneg; lia).
  split; [apply Z.div_pos; lia|].
  apply Z.le_lt_trans with a; [|lia].
  apply Z.div_le_upper_bound; nia.
Qed.

Lemma table_range (i : Z) : 0 <= PatchAppHeader.table i < 2 ^ 32.
Proof.
  unfold PatchAppHeader.table.
  assert (H : Forall (fun v => 0 <= v < 2 ^ 32) PatchAppHeader.CRC_TABLE).
  { unfold PatchAppHeader.CRC_TABLE. repeat constructor; simpl; lia. }
  destruct (nth_in_or_default (Z.to_nat i) PatchAppHeader.CRC_TABLE 0)
    as [Hin | ->].
  - rewrite Forall_forall in H. now apply H.
  - simpl. lia.
Qed.

Lemma crc32_byte_range (crc : Z) (b : byte) :
  0 <= crc < 2 ^ 32 -> 0 <= PatchAppHeader.crc32_byte crc b < 2 ^ 32.
Proof.
  intros Hc. unfold PatchAppHeader.crc32_byte.
  apply lxor_range; [lia|apply table_range|].
  apply shiftr_range; [lia|].
  apply lxor_range; [lia|apply table_range|].
  apply shiftr_range; [lia|assumption].
Qed.

Lemma crc32_range (data : bytes) : 0 <= PatchAppHeader.crc32 data < 2 ^ 32.
Proof.
  unfold PatchAppHeader.crc32.
  apply lxor_range; [lia| |simpl; lia].
  assert (H : forall crc, 0 <= crc < 2 ^ 32 ->
            0 <= fold_left PatchAppHeader.crc32_byte data crc < 2 ^ 32).
  { induction data as [|b t IH]; intros crc Hc; simpl fold_left.
    - assumption.
    - apply IH. now apply crc32_byte_range. }
  apply H. simpl. lia.
Qed.

End CrcFacts.

(** ** [find_header_offset] *)

Section FindFacts.
Import Py PatchAppHeader.

Lemma bytes_eqb_eq (a b : bytes) : bytes_eqb a b = true <-> a = b.
Proof.
  unfold bytes_eqb. destruct (list_eq_dec Byte.byte_eq_dec a b); split;
    congruence.
Qed.

Lemma find_from_first (fuel : nat) (data : bytes) :
  forall off,
    len data - APP_HEADER_SIZE - off < 4 * Z.of_nat fuel ->
    first_magic data off (find_from fuel data off).
Proof.
  induction fuel as [|fuel IH]; intros off Hf; cbn [find_from].
  - left. split; [reflexivity|]. intros k Hk Hle. lia.
  - destruct (Z.leb_spec off (len data - APP_HEADER_SIZE)) as [Hle|Hgt].
    + destruct (bytes_eqb (slice data off (off + 4)) APP_HEADER_MAGIC_BYTES)
        eqn:Em.
      * right. exists 0. apply bytes_eqb_eq in Em.
        replace (off + 4 * 0) with off by lia.
        repeat split; try assumption; try lia.
      * assert (Hno : ~ magic_at data off).
        { intros Hm. apply bytes_eqb_eq in Hm. unfold magic_at in *.
          congruence. }
        destruct (IH (off + 4) ltac:(lia)) as [[Hr Hall] | (j & Hj & Hr & Hb & Hm & Hall)].
        -- left. split; [assumption|]. intros k Hk Hkle.
           destruct (Z.eq_dec k 0) as [->|].
           ++ now replace (off + 4 * 0) with off by lia.
           ++ replace (off + 4 * k) with (off + 4 + 4 * (k - 1)) by lia.
              apply Hall; lia.
        -- right. exists (j + 1). repeat split; try assumption; try lia.
           intros k Hk. destruct (Z.eq_dec k 0) as [->|].
           ++ now replace (off + 4 * 0) with off by lia.
           ++ replace (off + 4 * k) with (off + 4 + 4 * (k - 1)) by lia.
              apply Hall; lia.
    + left. split; [reflexivity|]. intros k Hk Hkle. lia.
Qed.

(** At most one result fits the description. *)
Lemma first_magic_unique (data : bytes) (off r r' : Z) :
  first_magic data off r -> first_magic data off r' -> r = r'.
Proof.
  intros [[-> Hall] | (j & Hj & -> & Hb & Hm & Hall)]
         [[-> Hall'] | (j' & Hj' & -> & Hb' & Hm' & Hall')].
  - reflexivity.
  - exfalso. now apply (Hall j').
  - exfalso. now apply (Hall' j).
  - destruct (Z.lt_trichotomy j j') as [Hlt | [-> | Hgt]].
    + exfalso. apply (Hall' j); [lia | assumption].
    + reflexivity.
    + exfalso. apply (Hall j'); [lia | assumption].
Qed.

(** The loop of [find_header_offset] leaves by its own test: more fuel
    does not change what it returns. *)
Lemma find_from_fuel (data : bytes) (extra : nat) :
  find_from (S (length data) + extra) data 0 = find_header_offset data.
Proof.
  unfold find_header_offset.
  apply first_magic_unique with data 0; apply find_from_first;
    unfold len, APP_HEADER_SIZE; lia.
Qed.

Lemma find_header_offset_first (data : bytes) :
  first_magic data 0 (find_header_offset data).
Proof.
  apply find_from_first. unfold len, APP_HEADER_SIZE. lia.
Qed.

(** What a non-negative result of [find_header_offset] means. *)
Lemma find_header_offset_found (data : bytes) (off : Z) :
  find_header_offset data = off -> 0 <= off ->
  off mod 4 = 0 /\ off + APP_HEADER_SIZE <= len data /\ magic_at data off /\
  forall o, 0 <= o < off -> o mod 4 = 0 -> ~ magic_at data o.
Proof.
  intros <- H0.
  destruct (find_header_offset_first data)
    as [[Hr _] | (j & Hj & Hr & Hb & Hm & Hall)]; [lia|].
  rewrite Hr in *. repeat split; try assumption.
  - replace (0 + 4 * j) with (j * 4) by lia. apply Z.mod_mul. lia.
  - lia.
  - intros o Ho Hmod.
    replace o with (0 + 4 * (o / 4))
      by (pose proof (Z.div_mod o 4 ltac:(lia)); lia).
    apply Hall. pose proof (Z.div_mod o 4 ltac:(lia)). lia.
Qed.

(** Conversely, the first aligned offset with the magic number and room
    for a header is what [find_header_offset] returns. *)
Lemma find_header_offset_is (data : bytes) (off : Z) :
  0 <= off -> off mod 4 = 0 -> off + APP_HEADER_SIZE <= len data ->
  magic_at data off ->
  (forall o, 0 <= o < off -> o mod 4 = 0 -> ~ magic_at data o) ->
  find_header_offset data = off.
Proof.
  intros H0 Hmod Hb Hm Hall.
  apply first_magic_unique with data 0.
  - apply find_header_offset_first.
  - right. exists (off / 4).
    pose proof (Z.div_mod off 4 ltac:(lia)) as Hd.
    repeat split; try lia.
    + now replace (0 + 4 * (off / 4)) with off by lia.
    + intros k Hk. apply Hall; [lia|].
      replace (0 + 4 * k) with (k * 4) by lia. apply Z.mod_mul. lia.
Qed.

End FindFacts.

(** ** The application header: parsing and packing *)

Section AppHeaderFacts.
Import Py Struct PatchAppHeader.

Lemma encode_decode_ascii (l : bytes) :
  encode_ascii (decode_ascii_replace l) =
  if forallb (fun b => byte_val b <? 128) l then Some l else None.
Proof.
  induction l as [|b t IH]; cbn [decode_ascii_replace map encode_ascii forallb].
  - reflexivity.
  - fold (decode_ascii_replace t). rewrite IH.
    pose proof (byte_val_range b) as Hb.
    destruct (Z.ltb_spec (byte_val b) 128) as [Hlt|Hge].
    + destruct (Z.leb_spec 0 (byte_val b)); [|lia].
      destruct (Z.ltb_spec (byte_val b) 128); [|lia].
      cbn [andb]. destruct (forallb _ t); [|reflexivity].
      now rewrite byte_of_val.
    + reflexivity.
Qed.

Lemma rstrip0_length (l : bytes) : (length (rstrip0 l) <= length l)%nat.
Proof.
  induction l as [|b t IH]; cbn [rstrip0 length]; [lia|].
  destruct (rstrip0 t) as [|x r].
  - destruct (Byte.eqb b x00); simpl; lia.
  - simpl in *. lia.
Qed.

(** Padding with zero bytes undoes the stripping of zero bytes. *)
Lemma ljust0_rstrip0 (l : bytes) : ljust0 (length l) (rstrip0 l) = l.
Proof.
  unfold ljust0.
  induction l as [|b t IH]; cbn [rstrip0 length]; [reflexivity|].
  destruct (rstrip0 t) as [|x r] eqn:Er.
  - simpl in IH. rewrite Nat.sub_0_r in IH.
    destruct (Byte.eqb b x00) eqn:Eb.
    + apply Byte.byte_dec_bl in Eb. subst b. simpl. now rewrite IH.
    + simpl. rewrite Nat.sub_0_r. now rewrite IH.
  - cbn [length app] in *. rewrite Nat.sub_succ. now rewrite IH.
Qed.

Lemma pack_item_decoded (n : nat) (l : bytes) :
  length l = n -> pack_item (UInt n) (VInt (le_decode l)) = Some l.
Proof. intros Hl. now apply (pack_unpack_item (UInt n) l). Qed.

Lemma pack_item_bytes (n : nat) (l : bytes) :
  length l = n -> pack_item (Str n) (VBytes l) = Some l.
Proof. intros Hl. now apply (pack_unpack_item (Str n) l). Qed.

Lemma pack_item_I (v : Z) :
  pack_item I (VInt v) = if in32 v then Some (le_encode 4 v) else None.
Proof. reflexivity. Qed.

Lemma parse_header_48 (h : bytes) :
  length h = 48%nat -> parse_header h = Ok (header_of h).
Proof.
  intros Hl.
  do 48 (destruct h as [|? h]; [discriminate|]).
  destruct h; [|discriminate].
  reflexivity.
Qed.

Lemma slice_length {A : Type} (l : list A) (lo hi : Z) :
  0 <= lo -> lo <= hi -> hi <= len l ->
  length (slice l lo hi) = Z.to_nat (hi - lo).
Proof.
  intros H0 H1 H2. rewrite slice_inside by assumption.
  rewrite length_firstn, length_skipn. unfold len in *. lia.
Qed.

(** Setting the three patched fields of a header. *)
Lemma set_patched_fields
    (f0 f1 f2 f3 f4 f5 f6 f7 f8 f9 f10 f11 f12 : Z) (f13 : str) (f14 : Z)
    (sz c hc : Z) :
  set_header_crc32 hc (set_fw_crc32 c (set_fw_size sz
    (mkHeader f0 f1 f2 f3 f4 f5 f6 f7 f8 f9 f10 f11 f12 f13 f14))) =
  mkHeader f0 f1 f2 f3 f4 f5 f6 f7 f8 sz c f11 f12 f13 hc.
Proof. reflexivity. Qed.

(** Packing a header whose untouched fields were decoded from the byte
    strings [s0] .. [s12] and [bid]. *)
Lemma pack_header_fields
    (s0 s1 s2 s3 s4 s5 s6 s7 s8 s11 s12 bid : bytes) (sz c hc : Z) :
  length s0 = 4%nat -> length s1 = 1%nat -> length s2 = 1%nat ->
  length s3 = 1%nat -> length s4 = 1%nat -> length s5 = 1%nat ->
  length s6 = 1%nat -> length s7 = 1%nat -> length s8 = 1%nat ->
  length s11 = 4%nat -> length s12 = 4%nat -> length bid = 16%nat ->
  pack_header
    (mkHeader (le_decode s0) (le_decode s1) (le_decode s2) (le_decode s3)
       (le_decode s4) (le_decode s5) (le_decode s6) (le_decode s7)
       (le_decode s8) sz c (le_decode s11) (le_decode s12)
       (decode_ascii_replace (rstrip0 bid)) hc) =
  if forallb (fun b => byte_val b <? 128) (rstrip0 bid) then
    if in32 sz && in32 c && in32 hc then
      Ok (s0 ++ s1 ++ s2 ++ s3 ++ s4 ++ s5 ++ s6 ++ s7 ++ s8 ++
          le_encode 4 sz ++ le_encode 4 c ++ s11 ++ s12 ++ bid ++
          le_encode 4 hc)
    else Raise StructError
  else Raise UnicodeEncodeError.
Proof.
  intros L0 L1 L2 L3 L4 L5 L6 L7 L8 L11 L12 Lbid.
  unfold pack_header.
  cbn [build_id magic header_version device_type hw_revision_min
       hw_revision_max fw_version_major fw_version_minor fw_version_patch
       fw_flags fw_size fw_crc32 fw_load_addr build_timestamp header_crc32].
  rewrite encode_decode_ascii.
  destruct (forallb _ (rstrip0 bid)); [|reflexivity].
  assert (Hj : ljust0 16 (slice (rstrip0 bid) 0 16) = bid).
  { pose proof (rstrip0_length bid) as Hr.
    rewrite slice_past_end by (unfold len; lia).
    change (Z.to_nat 0) with 0%nat. rewrite skipn_O.
    rewrite <- Lbid. apply ljust0_rstrip0. }
  rewrite Hj.
  unfold FORMAT, I, B. cbn [pack].
  rewrite !pack_item_decoded by assumption.
  rewrite (pack_item_bytes 16 bid Lbid).
  fold I. rewrite !pack_item_I.
  destruct (in32 sz); [|reflexivity].
  destruct (in32 c); [|reflexivity].
  destruct (in32 hc); reflexivity.
Qed.

(** Packing a parsed header whose size and checksums were replaced:
    the bytes of the other fields come back as they were. *)
Lemma pack_header_parsed (h : bytes) (sz c hc : Z) :
  length h = 48%nat ->
  pack_header
    (set_header_crc32 hc (set_fw_crc32 c (set_fw_size sz (header_of h)))) =
  if ascii_build_id h then
    if in32 sz && in32 c && in32 hc then
      Ok (slice h 0 12 ++ le_encode 4 sz ++ le_encode 4 c ++
          slice h 20 44 ++ le_encode 4 hc)
    else Raise StructError
  else Raise UnicodeEncodeError.
Proof.
  intros Hl.
  assert (Hlen : len h = 48) by (unfold len; rewrite Hl; reflexivity).
  unfold header_of. rewrite set_patched_fields.
  rewrite pack_header_fields by (rewrite slice_length; lia).
  unfold ascii_build_id.
  destruct (forallb _ _); [|reflexivity].
  destruct (in32 sz && in32 c && in32 hc); [|reflexivity].
  f_equal.
  do 48 (destruct h as [|? h]; [discriminate|]).
  destruct h; [|discriminate].
  reflexivity.
Qed.

End AppHeaderFacts.

(** ** Slices of a sequence embedded in a longer one *)

Section SliceFacts.
Import Py.

Lemma slice_at {A : Type} (l a b c : list A) (lo hi : Z) :
  l = a ++ b ++ c -> lo = len a -> hi = len a + len b -> slice l lo hi = b.
Proof. intros -> -> ->. apply slice_middle. Qed.

Lemma slice_assign_at {A : Type} (l a b c seg : list A) (lo hi : Z) :
  l = a ++ b ++ c -> lo = len a -> hi = len a + len b ->
  slice_assign l lo hi seg = a ++ seg ++ c.
Proof. intros -> -> ->. apply slice_assign_middle. Qed.

(** A slice of the middle piece, taken in the whole. *)
Lemma slice_inner {A : Type} (pre h post : list A) (lo hi : Z) :
  0 <= lo -> lo <= hi -> hi <= len h ->
  slice (pre ++ h ++ post) (len pre + lo) (len pre + hi) = slice h lo hi.
Proof.
  intros H0 H1 H2.
  destruct (split3 h lo (hi - lo)) as (x & y & z & Eh & Lx & Ly & Ey);
    [lia..|].
  replace (lo + (hi - lo)) with hi in Ey by lia. rewrite <- Ey.
  apply slice_at with (a := pre ++ x) (c := z ++ post).
  - rewrite Eh, <- !app_assoc. reflexivity.
  - rewrite len_app. lia.
  - rewrite len_app. lia.
Qed.

Lemma slice_assign_inner {A : Type} (pre h post seg : list A) (lo hi : Z) :
  0 <= lo -> lo <= hi -> hi <= len h ->
  slice_assign (pre ++ h ++ post) (len pre + lo) (len pre + hi) seg =
  pre ++ slice_assign h lo hi seg ++ post.
Proof.
  intros H0 H1 H2.
  destruct (split3 h lo (hi - lo)) as (x & y & z & Eh & Lx & Ly & Ey);
    [lia..|].
  rewrite (slice_assign_at (pre ++ h ++ post) (pre ++ x) y (z ++ post));
    [ | rewrite Eh, <- !app_assoc; reflexivity
      | rewrite len_app; lia | rewrite len_app; lia ].
  rewrite (slice_assign_at h x y z); [ | assumption | lia | lia ].
  rewrite <- !app_assoc. reflexivity.
Qed.

Lemma slice_assign_len {A : Type} (l seg : list A) (lo hi : Z) :
  0 <= lo -> lo <= hi -> hi <= len l ->
  len (slice_assign l lo hi seg) = len l - (hi - lo) + len seg.
Proof.
  intros H0 H1 H2.
  destruct (split3 l lo (hi - lo)) as (x & y & z & El & Lx & Ly & Ey);
    [lia..|].
  rewrite (slice_assign_at l x y z); [ | assumption | lia | lia ].
  rewrite El, !len_app. lia.
Qed.

(** A slice that ends inside the first piece. *)
Lemma slice_in_prefix {A : Type} (a b : list A) (lo hi : Z) :
  0 <= lo -> lo <= hi -> hi <= len a ->
  slice (a ++ b) lo hi = slice a lo hi.
Proof.
  intros H0 H1 H2.
  pose proof (slice_inner (@nil A) a b lo hi H0 H1 H2) as H.
  exact H.
Qed.

Lemma nth_error_before {A : Type} (pre h h' post : list A) (i : nat) :
  (i < length pre)%nat ->
  nth_error (pre ++ h' ++ post) i = nth_error (pre ++ h ++ post) i.
Proof. intros Hi. now rewrite !nth_error_app1. Qed.

Lemma nth_error_after {A : Type} (pre h h' post : list A) (i : nat) :
  length h' = length h -> (length pre + length h <= i)%nat ->
  nth_error (pre ++ h' ++ post) i = nth_error (pre ++ h ++ post) i.
Proof.
  intros Hl Hi.
  rewrite !(nth_error_app2 pre) by lia.
  rewrite !nth_error_app2 by lia. now rewrite Hl.
Qed.

End SliceFacts.

(** ** [patch_binary] *)

Section PatchFacts.
Import Py PatchAppHeader.

Lemma in32_crc32 (d : bytes) : in32 (crc32 d) = true.
Proof.
  pose proof (crc32_range d) as H. unfold in32.
  apply andb_true_iff. split; [apply Z.leb_le | apply Z.ltb_lt]; lia.
Qed.

Lemma in32_le_decode (l : bytes) : length l = 4%nat -> in32 (le_decode l) = true.
Proof.
  intros Hl. pose proof (le_decode_range l) as H. rewrite Hl in H.
  unfold in32.
  apply andb_true_iff. split; [apply Z.leb_le | apply Z.ltb_lt]; lia.
Qed.

Lemma slice_drop_last4 (a b c d e : bytes) :
  length e = 4%nat -> slice (a ++ b ++ c ++ d ++ e) 0 (-4) = a ++ b ++ c ++ d.
Proof.
  intros He.
  replace (a ++ b ++ c ++ d ++ e) with ((a ++ b ++ c ++ d) ++ e)
    by (rewrite <- !app_assoc; reflexivity).
  set (x := a ++ b ++ c ++ d).
  unfold slice, clamp. rewrite len_app.
  assert (Le : len e = 4) by (unfold len; rewrite He; reflexivity).
  pose proof (len_nonneg x). rewrite Le.
  cbn [Z.ltb Z.compare].
  rewrite Z.min_l, Z.max_r by lia.
  replace (-4 + (len x + 4) - 0) with (len x) by lia.
  change (Z.to_nat 0) with 0%nat. rewrite skipn_O.
  unfold len. rewrite Nat2Z.id.
  rewrite firstn_app, firstn_all, Nat.sub_diag. simpl. apply app_nil_r.
Qed.

(** What [patch_binary] does to a binary whose header [h] stands at the
    offset that [find_header_offset] returns. *)
Lemma patch_binary_shape (pre h post : bytes) :
  length h = 48%nat ->
  find_header_offset (pre ++ h ++ post) = len pre ->
  patch_binary (pre ++ h ++ post) =
  if ascii_build_id h then
    if in32 (len (pre ++ h ++ post)) then
      Ok (Some (pre ++ patched_header pre h post ++ post))
    else Raise StructError
  else Raise UnicodeEncodeError.
Proof.
  intros Hl Hoff.
  assert (Hlen : len h = 48) by (unfold len; rewrite Hl; reflexivity).
  unfold patch_binary. rewrite Hoff. cbv zeta.
  pose proof (len_nonneg pre) as Hpre. pose proof (len_nonneg post) as Hpost.
  destruct (Z.ltb_spec (len pre) 0); [lia|].
  rewrite !len_app. unfold APP_HEADER_SIZE.
  destruct (Z.ltb_spec (len pre + (len h + len post)) (len pre + 48)); [lia|].
  assert (SA : forall seg,
            slice_assign (pre ++ h ++ post) (len pre) (len pre + 48) seg =
            pre ++ seg ++ post)
    by (intros seg; rewrite <- Hlen; apply slice_assign_middle).
  rewrite <- Hlen at 1. rewrite slice_middle.
  rewrite (parse_header_48 h Hl).
  rewrite pack_header_parsed by assumption.
  destruct (ascii_build_id h) eqn:Easc; [|reflexivity].
  set (sz := len pre + (len h + len post)).
  change (in32 4294967295) with true. rewrite !andb_true_r.
  destruct (in32 sz) eqn:Esz; [|reflexivity].
  rewrite !SA.
  change (le_encode 4 4294967295) with FF4.
  set (temp := pre ++ _ ++ post).
  change (pack_header
            (set_fw_crc32 (crc32 temp) (set_fw_size sz (header_of h))))
    with (pack_header
            (set_header_crc32 (le_decode (slice h 44 48))
               (set_fw_crc32 (crc32 temp) (set_fw_size sz (header_of h))))).
  rewrite pack_header_parsed by assumption.
  rewrite Easc, Esz, in32_crc32.
  rewrite in32_le_decode by (rewrite slice_length; lia).
  cbn [andb].
  rewrite slice_drop_last4 by apply le_encode_length.
  rewrite pack_header_parsed by assumption.
  rewrite Easc, Esz, !in32_crc32. cbn [andb].
  rewrite SA.
  unfold patched_header. cbv zeta. rewrite !len_app. reflexivity.
Qed.

(** Slices of the header that [patch_binary] writes. *)
Lemma rewritten_header_slices (h : bytes) (sz c hc : Z) :
  length h = 48%nat ->
  let h' :=
    slice h 0 12 ++ le_encode 4 sz ++ le_encode 4 c ++ slice h 20 44 ++
    le_encode 4 hc in
  length h' = 48%nat /\
  slice h' 0 4 = slice h 0 4 /\
  slice h' 0 12 = slice h 0 12 /\
  slice h' 20 44 = slice h 20 44 /\
  ascii_build_id h' = ascii_build_id h /\
  slice h' 12 16 = le_encode 4 sz /\
  slice h' 16 20 = le_encode 4 c /\
  slice h' 44 48 = le_encode 4 hc /\
  slice h' 0 44 =
    slice h 0 12 ++ le_encode 4 sz ++ le_encode 4 c ++ slice h 20 44 /\
  slice_assign (slice_assign h' 16 20 FF4) 44 48 FF4 =
    slice h 0 12 ++ le_encode 4 sz ++ FF4 ++ slice h 20 44 ++ FF4.
Proof.
  intros Hl.
  do 48 (destruct h as [|? h]; [discriminate|]).
  destruct h; [|discriminate].
  cbv zeta. repeat split; reflexivity.
Qed.

End PatchFacts.

Section PatchTheorems.
Import Py PatchAppHeader.

(** A successful run of [patch_binary], taken apart. *)
Lemma patch_binary_success (data out : bytes) :
  patch_binary data = Ok (Some out) ->
  exists pre h post,
    data = pre ++ h ++ post /\ length h = 48%nat /\
    len pre = find_header_offset data /\
    ascii_build_id h = true /\ in32 (len data) = true /\
    out = pre ++ patched_header pre h post ++ post.
Proof.
  intros H.
  assert (Hoff : 0 <= find_header_offset data /\
                 find_header_offset data + 48 <= len data).
  { pose proof H as H'. unfold patch_binary in H'. cbv zeta in H'.
    destruct (Z.ltb_spec (find_header_offset data) 0); [discriminate|].
    unfold APP_HEADER_SIZE in H'.
    destruct (Z.ltb_spec (len data) (find_header_offset data + 48));
      [discriminate|].
    lia. }
  destruct Hoff as [H0 H1].
  destruct (split3 data (find_header_offset data) 48 H0 ltac:(lia) H1)
    as (pre & h & post & Ed & Lpre & Lh & _).
  exists pre, h, post.
  assert (Lh' : length h = 48%nat) by (unfold len in Lh; lia).
  rewrite Ed in H. rewrite patch_binary_shape in H;
    [ | assumption | rewrite <- Ed; now symmetry ].
  rewrite <- Ed in H.
  destruct (ascii_build_id h); [|discriminate].
  destruct (in32 (len data)); [|discriminate].
  injection H as <-.
  repeat split; try assumption; reflexivity.
Qed.

Lemma patched_header_length (pre h post : bytes) :
  length h = 48%nat -> length (patched_header pre h post) = 48%nat.
Proof.
  intros Hl. unfold patched_header. cbv zeta.
  now apply rewritten_header_slices.
Qed.

(** The offset found is the first aligned one that holds the magic
    number, and patching keeps the length. *)
Lemma patch_binary_offset (data out : bytes) :
  patch_binary data = Ok (Some out) ->
  first_aligned_magic data (find_header_offset data) /\ len out = len data.
Proof.
  intros H.
  destruct (patch_binary_success data out H)
    as (pre & h & post & Ed & Lh & Lpre & _ & _ & Eo).
  pose proof (len_nonneg pre) as Hpre.
  assert (Hfound := find_header_offset_found data _ eq_refl ltac:(lia)).
  destruct Hfound as (Hmod & Hroom & Hm & Hmin).
  unfold APP_HEADER_SIZE in Hroom.
  split.
  - unfold first_aligned_magic. repeat split; try assumption; lia.
  - pose proof (patched_header_length pre h post Lh) as Lh'.
    subst data out. unfold len. rewrite !length_app. lia.
Qed.

(** C10. When [patch_binary] succeeds, the offset [off] it patched at is
    the smallest multiple of 4 at which the magic number stands with at
    least 48 bytes remaining; the output has the length of the input and
    differs from it at most inside the 48 header bytes at [off]. *)
Theorem patch_binary_frame (data out : bytes) :
  patch_binary data = Ok (Some out) ->
  first_aligned_magic data (find_header_offset data) /\
  same_outside_header data out (find_header_offset data).
Proof.
  intros H.
  destruct (patch_binary_offset data out H) as [Hfirst Hlen].
  split; [exact Hfirst|].
  split; [exact Hlen|].
  destruct (patch_binary_success data out H)
    as (pre & h & post & Ed & Lh & Lpre & _ & _ & Eo).
  pose proof (patched_header_length pre h post Lh) as Lh'.
  rewrite <- Lpre. subst data out.
  intros i Hi [Hlt | Hge].
  - apply nth_error_before. unfold len in *. lia.
  - apply nth_error_after; [congruence|]. unfold len in *. lia.
Qed.

(** C9. When [patch_binary] succeeds, with the header at [off]: fw_size
    is the length of the binary; fw_crc32 is the CRC-32 of the whole
    output with both CRC fields held at 0xFFFFFFFF; header_crc32 is the
    CRC-32 of the first 44 bytes of the written header; the script's
    table-driven [crc32] is the bitwise CRC-32 of the specification; and
    patching the output again writes the same output. *)
Theorem patch_binary_fields_and_idempotence (data out : bytes) :
  patch_binary data = Ok (Some out) ->
  let off := find_header_offset data in
  len out = len data /\
  read_fw_size out off = len out /\
  read_fw_crc32 out off = crc32_reference (with_crc_placeholders out off) /\
  read_header_crc32 out off = crc32_reference (slice out off (off + 44)) /\
  (forall d, crc32 d = crc32_reference d) /\
  patch_binary out = Ok (Some out).
Proof.
  intros H off.
  destruct (patch_binary_offset data out H) as [Hfirst Hlen].
  destruct (patch_binary_success data out H)
    as (pre & h & post & Ed & Lh & Lpre & Hasc & Hsz & Eo).
  fold off in Lpre.
  destruct Hfirst as (H0 & Hmod & Hroom & Hm & Hmin). fold off in H0, Hmod, Hroom, Hm, Hmin.
  set (sz := len (pre ++ h ++ post)) in *.
  set (temp := pre ++ (slice h 0 12 ++ le_encode 4 sz ++ FF4 ++
                       slice h 20 44 ++ FF4) ++ post).
  set (c := crc32 temp).
  set (hc := crc32 (slice h 0 12 ++ le_encode 4 sz ++ le_encode 4 c ++
                    slice h 20 44)).
  assert (Eh : patched_header pre h post =
               slice h 0 12 ++ le_encode 4 sz ++ le_encode 4 c ++
               slice h 20 44 ++ le_encode 4 hc) by reflexivity.
  destruct (rewritten_header_slices h sz c hc Lh)
    as (L' & S4 & S12 & S44 & Sasc & Ssz & Sc & Shc & S044 & Sph).
  rewrite <- Eh in L', S4, S12, S44, Sasc, Ssz, Sc, Shc, S044, Sph.
  set (h' := patched_header pre h post) in *.
  assert (Lh' : len h' = 48) by (unfold len; rewrite L'; reflexivity).
  assert (Hszr : 0 <= sz < 2 ^ 32).
  { pose proof Hsz as Hsz'. unfold in32 in Hsz'.
    rename Hsz' into Hb.
    apply andb_true_iff in Hb. destruct Hb as [A B].
    apply Z.leb_le in A. apply Z.ltb_lt in B. subst sz. rewrite <- Ed. lia. }
  assert (Hin : forall lo hi, 0 <= lo -> lo <= hi -> hi <= 48 ->
            slice out (off + lo) (off + hi) = slice h' lo hi).
  { intros lo hi A B C. rewrite Eo, <- Lpre. apply slice_inner; lia. }
  split; [assumption|].
  split.
  { unfold read_fw_size. rewrite Hin by lia. rewrite Ssz.
    rewrite le_decode_encode by (simpl; lia).
    rewrite Hlen. subst sz. now rewrite Ed. }
  split.
  { unfold read_fw_crc32. rewrite Hin by lia. rewrite Sc.
    rewrite le_decode_encode by (pose proof (crc32_range temp); simpl; lia).
    rewrite <- crc32_is_reference. unfold c. f_equal.
    unfold with_crc_placeholders. rewrite Eo, <- Lpre.
    rewrite slice_assign_inner by lia.
    rewrite slice_assign_inner.
    - rewrite Sph. reflexivity.
    - lia.
    - lia.
    - rewrite slice_assign_len by lia. change (len FF4) with 4. lia. }
  split.
  { unfold read_header_crc32. rewrite Hin by lia. rewrite Shc.
    rewrite le_decode_encode by (pose proof (crc32_range
      (slice h 0 12 ++ le_encode 4 sz ++ le_encode 4 c ++ slice h 20 44));
      simpl; fold hc; lia).
    rewrite <- crc32_is_reference.
    replace off with (off + 0) at 1 by lia. rewrite Hin by lia.
    rewrite S044. reflexivity. }
  split; [exact crc32_is_reference|].
  assert (Hfind : find_header_offset out = len pre).
  { rewrite Lpre. apply find_header_offset_is; try assumption.
    - rewrite Hlen. unfold APP_HEADER_SIZE. lia.
    - unfold magic_at in *.
      assert (E4 : forall b x : bytes, (forall lo hi, 0 <= lo -> lo <= hi ->
                     hi <= 48 -> slice b (off + lo) (off + hi) = slice x lo hi) ->
                   slice b off (off + 4) = slice x 0 4).
      { intros b x Hb. rewrite <- (Hb 0 4) by lia. f_equal. lia. }
      rewrite (E4 out h' Hin), S4. rewrite <- Hm. symmetry.
      apply E4. intros lo hi A B C. rewrite Ed, <- Lpre.
      apply slice_inner; unfold len; lia.
    - intros o Ho Hmo Hmag. apply (Hmin o Ho Hmo).
      unfold magic_at in *. rewrite <- Hmag.
      assert (Ho4 : o + 4 <= len pre).
      { rewrite Lpre.
        pose proof (Z.div_mod o 4 ltac:(lia)).
        pose proof (Z.div_mod off 4 ltac:(lia)). lia. }
      rewrite Ed, Eo.
      rewrite !slice_in_prefix by lia. reflexivity. }
  rewrite Eo.
  rewrite patch_binary_shape
    by (first [exact L' | rewrite <- Eo; exact Hfind]).
  rewrite Sasc, Hasc.
  rewrite <- Eo, Hlen. rewrite Hsz.
  do 2 f_equal. rewrite Eo. do 2 f_equal.
  unfold patched_header at 1. cbv zeta.
  rewrite S12, S44.
  assert (Esz : len (pre ++ h' ++ post) = sz).
  { subst sz. rewrite !len_app, Lh'.
    replace (len h) with 48 by (unfold len; lia). reflexivity. }
  rewrite Esz. reflexivity.
Qed.

End PatchTheorems.

Section PatchWitness.
Import Py PatchAppHeader.

(** The nine bytes of ["123456789"], whose CRC-32 is 0xCBF43926. *)
Example crc32_check_value :
  crc32 [x31; x32; x33; x34; x35; x36; x37; x38; x39] = 0xCBF43926 /\
  crc32_reference [x31; x32; x33; x34; x35; x36; x37; x38; x39] = 0xCBF43926.
Proof. split; vm_compute; reflexivity. Qed.

Lemma patch_binary_frame_witness :
  first_aligned_magic sample_binary (find_header_offset sample_binary) /\
  same_outside_header sample_binary sample_patched
    (find_header_offset sample_binary).
Proof.
  apply (patch_binary_frame sample_binary sample_patched).
  vm_compute. reflexivity.
Defined.

Lemma patch_binary_fields_and_idempotence_witness :
  let off := find_header_offset sample_binary in
  len sample_patched = len sample_binary /\
  read_fw_size sample_patched off = len sample_patched /\
  read_fw_crc32 sample_patched off =
    crc32_reference (with_crc_placeholders sample_patched off) /\
  read_header_crc32 sample_patched off =
    crc32_reference (slice sample_patched off (off + 44)) /\
  (forall d, crc32 d = crc32_reference d) /\
  patch_binary sample_patched = Ok (Some sample_patched).
Proof.
  apply (patch_binary_fields_and_idempotence sample_binary sample_patched).
  vm_compute. reflexivity.
Defined.

End PatchWitness.

(** ** [start_update] *)

Section StartFacts.
Import Py Ota.

Lemma randint_range (a b draw : Z) :
  a <= b -> a <= randint a b draw <= b.
Proof.
  intros Hab. unfold randint.
  pose proof (Z.mod_pos_bound draw (b - a + 1) ltac:(lia)). lia.
Qed.

Lemma ceil_div_200 (size : Z) :
  is_ceil_div_200 size ((size + OTA_CHUNK_SIZE - 1) / OTA_CHUNK_SIZE).
Proof.
  unfold is_ceil_div_200, OTA_CHUNK_SIZE.
  pose proof (Z.div_mod (size + 200 - 1) 200 ltac:(lia)).
  pose proof (Z.mod_pos_bound (size + 200 - 1) 200 ltac:(lia)).
  lia.
Qed.

(** C8. [start_update] raises [RuntimeError] whenever a session is
    active, and fails whenever the firmware file does not exist (with
    [FileNotFoundError] unless a session is active) or cannot be read;
    a failure leaves the manager as it was.  Otherwise it returns an
    announce id between 1 and 0xFFFFFFFF and installs an active session
    holding the file, whose size is the length of the file and whose
    chunk count is that size divided by 200, rounded up. *)
Theorem start_update_outcomes
    (fs : string -> fs_entry) (draw : Z) (now : time) (path : string)
    (version : Z * Z * Z) (target : Z) (m : OtaManager) :
  let o := start_update fs draw now path version target m in
  (session_active m = true -> o = Raised RuntimeError m) /\
  (fs path = Absent ->
   exists e, o = Raised e m /\
             (session_active m = false -> e = FileNotFoundError)) /\
  (fs path = Unreadable ->
   exists e, o = Raised e m /\ (session_active m = false -> e = OSError)) /\
  (forall data, session_active m = false -> fs path = File data ->
   exists s,
     o = Returned (announce_id s)
           (set_running true (set_session (Some s) m)) /\
     1 <= announce_id s <= 0xFFFFFFFF /\
     is_active s = true /\
     firmware_data s = data /\
     firmware_size s = len data /\
     is_ceil_div_200 (firmware_size s) (total_chunks s) /\
     devices s = []).
Proof.
  cbv zeta. unfold start_update.
  destruct (session_active m) eqn:Ea.
  - repeat split.
    + intros _. exists RuntimeError. split; [reflexivity|discriminate].
    + intros _. exists RuntimeError. split; [reflexivity|discriminate].
    + intros data Hf. discriminate.
  - split; [discriminate|].
    split; [|split].
    + intros ->. exists FileNotFoundError. split; reflexivity.
    + intros ->. exists OSError. split; reflexivity.
    + intros data _ ->.
      exists (mkSession (randint 1 0xFFFFFFFF draw) target path data
                (len data) (crc32_func data) version
                ((len data + OTA_CHUNK_SIZE - 1) / OTA_CHUNK_SIZE) [] now
                true).
      split; [reflexivity|].
      cbn [announce_id is_active firmware_data firmware_size total_chunks
           devices].
      repeat split; try reflexivity.
      * apply randint_range. lia.
      * apply randint_range. lia.
      * apply ceil_div_200.
      * apply ceil_div_200.
Qed.

End StartFacts.

(** ** Chunks *)

Section ChunkFacts.
Import Py Ota.

Lemma firstn_plus {A : Type} (a b : nat) (l : list A) :
  firstn a l ++ firstn b (skipn a l) = firstn (a + b) l.
Proof.
  revert l. induction a as [|a IH]; intros l; [reflexivity|].
  destruct l as [|x l]; simpl.
  - now rewrite firstn_nil.
  - now rewrite IH.
Qed.

Lemma chunk_data_inside (s : OtaSession) (i : Z) :
  session_ok s -> 0 <= i < total_chunks s ->
  chunk_data s i =
    firstn (Z.to_nat (Z.min 200 (len (firmware_data s) - 200 * i)))
      (skipn (Z.to_nat (200 * i)) (firmware_data s)) /\
  0 < len (chunk_data s i) <= 200.
Proof.
  intros [Hsz Htot] Hi.
  pose proof (ceil_div_200 (firmware_size s)) as Hc.
  unfold is_ceil_div_200 in Hc. rewrite <- Htot in Hc.
  unfold chunk_data, OTA_CHUNK_SIZE. cbv zeta. rewrite Hsz in *.
  assert (E : slice (firmware_data s) (i * 200)
                (Z.min (i * 200 + 200) (len (firmware_data s))) =
              firstn (Z.to_nat (Z.min 200 (len (firmware_data s) - 200 * i)))
                (skipn (Z.to_nat (200 * i)) (firmware_data s))).
  { rewrite slice_inside by lia. f_equal; [|f_equal]; lia. }
  rewrite E. split; [reflexivity|].
  unfold len in *. rewrite length_firstn, length_skipn. lia.
Qed.

Lemma chunks_prefix (s : OtaSession) (k : nat) :
  session_ok s -> Z.of_nat k <= total_chunks s ->
  concat (map (chunk_data s) (map Z.of_nat (seq 0 k))) =
  firstn (Z.to_nat (Z.min (200 * Z.of_nat k) (len (firmware_data s))))
    (firmware_data s).
Proof.
  intros Hok. induction k as [|k IH]; intros Hk.
  - pose proof (len_nonneg (firmware_data s)).
    cbn [seq map concat]. rewrite Z.min_l by lia. reflexivity.
  - rewrite seq_S, !map_app, concat_app. cbn [map concat Nat.add].
    rewrite app_nil_r, IH by lia.
    destruct (chunk_data_inside s (Z.of_nat k) Hok ltac:(lia)) as [E [Hpos _]].
    assert (Hlt : 200 * Z.of_nat k < len (firmware_data s)).
    { rewrite E in Hpos. unfold len in *.
      rewrite length_firstn, length_skipn in Hpos. lia. }
    rewrite E.
    rewrite Z.min_l by lia.
    rewrite firstn_plus. f_equal. lia.
Qed.

Lemma chunks_concat (s : OtaSession) :
  session_ok s ->
  concat (map (chunk_data s) (chunk_indexes s)) = firmware_data s.
Proof.
  intros Hok. unfold chunk_indexes.
  pose proof (ceil_div_200 (firmware_size s)) as Hc.
  destruct Hok as [Hsz Htot]. unfold is_ceil_div_200 in Hc.
  rewrite <- Htot in Hc.
  pose proof (len_nonneg (firmware_data s)) as Hl.
  destruct (Z.le_gt_cases 0 (total_chunks s)) as [H0|Hneg].
  - rewrite chunks_prefix by (try split; try assumption; lia).
    apply firstn_all2. unfold len in *. lia.
  - lia.
Qed.

End ChunkFacts.

(** ** Packets built by the protocol *)

Section BuildFacts.
Import Py Struct.

Lemma shift1_range (n p crc : Z) :
  0 <= n -> 0 <= p < 2 ^ n -> 0 <= crc < 2 ^ n ->
  0 <= Crcmod.shift1 p crc < 2 ^ n.
Proof.
  intros Hn Hp Hc. unfold Crcmod.shift1.
  apply lxor_range; [assumption| |].
  - apply shiftr_range; [lia|assumption].
  - destruct (Z.testbit crc 0); [assumption|].
    split; [lia|]. apply Z.pow_pos_nonneg; lia.
Qed.

Lemma iter_invariant {A : Type} (f : A -> A) (P : A -> Prop) :
  (forall x, P x -> P (f x)) -> forall k x, P x -> P (Nat.iter k f x).
Proof.
  intros Hf k. induction k as [|k IH]; intros x Hx; cbn [Nat.iter nat_rect].
  - assumption.
  - apply Hf. now apply IH.
Qed.

Lemma fold_left_invariant {A E : Type} (f : A -> E -> A) (P : A -> Prop) :
  (forall a e, P a -> P (f a e)) ->
  forall l a, P a -> P (fold_left f l a).
Proof.
  intros Hf l. induction l as [|e t IH]; intros a Ha; cbn [fold_left].
  - assumption.
  - apply IH. now apply Hf.
Qed.

Lemma update_byte_range (n p crc : Z) (b : byte) :
  8 <= n -> 0 <= p < 2 ^ n -> 0 <= crc < 2 ^ n ->
  0 <= Crcmod.update_byte p crc b < 2 ^ n.
Proof.
  intros Hn Hp Hc. unfold Crcmod.update_byte.
  apply (iter_invariant (Crcmod.shift1 p) (fun x => 0 <= x < 2 ^ n)).
  - intros x Hx. apply shift1_range; [lia|assumption|assumption].
  - assert (Hb : 0 <= byte_val b < 2 ^ n).
    { pose proof (byte_val_range b).
      assert (2 ^ 8 <= 2 ^ n) by (apply Z.pow_le_mono_r; lia).
      change (2 ^ 8) with 256 in *. lia. }
    apply lxor_range; [lia|assumption|assumption].
Qed.

Lemma crc_reflected_range (n p init xorout : Z) (data : bytes) :
  8 <= n -> 0 <= p < 2 ^ n -> 0 <= init < 2 ^ n -> 0 <= xorout < 2 ^ n ->
  0 <= Crcmod.crc_reflected p init xorout data < 2 ^ n.
Proof.
  intros Hn Hp Hi Hx. unfold Crcmod.crc_reflected.
  apply lxor_range; [lia| |assumption].
  apply (fold_left_invariant (Crcmod.update_byte p)
           (fun x => 0 <= x < 2 ^ n)); [|assumption].
  intros a e Ha. now apply update_byte_range.
Qed.

Lemma crc16_func_range (data : bytes) : 0 <= crc16_func data < 65536.
Proof.
  change 65536 with (2 ^ 16). apply crc_reflected_range; simpl; lia.
Qed.

Lemma pack_item_in_range (n : nat) (z : Z) :
  0 <= z < 256 ^ Z.of_nat n ->
  pack_item (UInt n) (VInt z) = Some (le_encode n z).
Proof.
  intros Hz. cbn [pack_item].
  destruct (Z.leb_spec 0 z); [|lia].
  destruct (Z.ltb_spec z (256 ^ Z.of_nat n)); [|lia]. reflexivity.
Qed.

(** [build_packet] succeeds on a payload of at most 255 bytes, and puts
    24 bytes in front of it. *)
Lemma build_packet_ok (p : Protocol.t) (msg_type : Z) (payload : bytes) :
  0 <= msg_type < 256 -> len payload < 256 ->
  exists h,
    length h = 24%nat /\
    Protocol.build_packet p msg_type payload =
      (Some (h ++ payload), snd (Protocol.next_sequence p)).
Proof.
  intros Ht Hl. unfold Protocol.build_packet, Protocol.next_sequence.
  pose proof (len_nonneg payload) as Hl0.
  set (sq := Z.land (Protocol.sequence p + 1) 65535).
  assert (Hsq : 0 <= sq < 65536).
  { unfold sq. change 65535 with (Z.ones 16).
    rewrite Z.land_ones by lia. apply Z.mod_pos_bound. reflexivity. }
  unfold PacketHeader.pack, PacketHeader.FORMAT, B, H.
  cbn [PacketHeader.magic PacketHeader.version PacketHeader.msg_type
       PacketHeader.device_type PacketHeader.uuid PacketHeader.sequence
       PacketHeader.payload_len pack snd].
  rewrite !pack_item_in_range
    by (unfold PROTOCOL_VERSION; simpl Z.pow; lia).
  cbn [pack_item]. eexists. split; [|reflexivity].
  rewrite !length_app, !le_encode_length.
  rewrite !ljust0_length by (rewrite length_firstn; lia).
  reflexivity.
Qed.

(** [build_ota_chunk] succeeds when the announce id and the chunk index
    fit their fields and the data has at most 200 bytes; the data comes
    after the 24 bytes of the packet header and the 10 bytes of the chunk
    header. *)
Lemma build_ota_chunk_ok (p : Protocol.t) (announce_id chunk_index : Z)
    (data : bytes) :
  0 <= announce_id < 2 ^ 32 -> 0 <= chunk_index < 65536 -> len data <= 200 ->
  exists h,
    length h = 34%nat /\
    Protocol.build_ota_chunk p announce_id chunk_index data =
      (Some (h ++ data), snd (Protocol.next_sequence p)).
Proof.
  intros Ha Hc Hd. unfold Protocol.build_ota_chunk.
  pose proof (len_nonneg data) as Hd0.
  pose proof (crc16_func_range data) as Hcrc.
  unfold OtaChunk.pack, OtaChunk.HEADER_FORMAT, I, H.
  cbn [OtaChunk.announce_id OtaChunk.chunk_index OtaChunk.chunk_size
       OtaChunk.chunk_crc OtaChunk.data pack].
  rewrite !pack_item_in_range by (simpl Z.pow; lia).
  set (ch := le_encode 4 announce_id ++ le_encode 2 chunk_index ++
             le_encode 2 (len data) ++ le_encode 2 (crc16_func data) ++ []).
  assert (Lch : length ch = 10%nat)
    by (unfold ch; rewrite !length_app, !le_encode_length; reflexivity).
  destruct (build_packet_ok p MessageType.OTA_CHUNK (ch ++ data))
    as (h & Lh & Eb).
  - unfold MessageType.OTA_CHUNK. lia.
  - rewrite len_app. unfold len at 1. rewrite Lch. lia.
  - rewrite Eb. exists (h ++ ch). split.
    + rewrite length_app, Lh, Lch. reflexivity.
    + now rewrite <- app_assoc.
Qed.

(** A failure of [build_ota_chunk] on a chunk index that does not fit its
    16-bit field. *)
Lemma build_ota_chunk_bad_index (p : Protocol.t) (announce_id chunk_index : Z)
    (data : bytes) :
  chunk_index < 0 \/ 65536 <= chunk_index ->
  Protocol.build_ota_chunk p announce_id chunk_index data = (None, p).
Proof.
  intros Hc. unfold Protocol.build_ota_chunk.
  unfold OtaChunk.pack, OtaChunk.HEADER_FORMAT, I, H.
  cbn [OtaChunk.announce_id OtaChunk.chunk_index OtaChunk.chunk_size
       OtaChunk.chunk_crc OtaChunk.data pack].
  assert (E : pack_item (UInt 2) (VInt chunk_index) = None).
  { cbn [pack_item]. change (256 ^ Z.of_nat 2) with 65536.
    destruct (Z.leb_spec 0 chunk_index); [|reflexivity].
    destruct (Z.ltb_spec chunk_index 65536); [lia|reflexivity]. }
  rewrite E. destruct (pack_item (UInt 4) (VInt announce_id)); reflexivity.
Qed.

End BuildFacts.

(** ** [_send_chunk] *)

Section SendChunkFacts.
Import Py Ota.

(** Reduction of the computations of the manager. *)
Ltac run_m :=
  unfold bind, ret, raise, update, the_session, tracked, the_device, assign,
    acquire, with_lock, send, build;
  cbn [final halts protocol session lock running trace
       set_protocol set_session set_lock set_running emit fst snd].

Lemma send_chunk_out_of_range (u : string) (i : Z) (m : OtaManager)
    (s : OtaSession) :
  session m = Some s -> total_chunks s <= i ->
  _send_chunk u i m = Returned tt m.
Proof.
  intros Hs Hi. unfold _send_chunk. rewrite Hs.
  destruct (Z.leb_spec (total_chunks s) i); [reflexivity|lia].
Qed.

Lemma send_chunk_no_session (u : string) (i : Z) (m : OtaManager) :
  session m = None -> _send_chunk u i m = Returned tt m.
Proof. intros Hs. unfold _send_chunk. now rewrite Hs. Qed.

(** What [_send_chunk] does once the packet is built: it hands the packet
    to the radio, then takes the lock to record the chunk as sent; when
    the lock is held it waits for it forever, the packet being sent. *)
Lemma send_chunk_built (u : string) (i : Z) (m : OtaManager) (s : OtaSession)
    (packet : bytes) (p' : Protocol.t) :
  session m = Some s -> i < total_chunks s ->
  Protocol.build_ota_chunk (protocol m) (announce_id s) i (chunk_data s i) =
    (Some packet, p') ->
  _send_chunk u i m =
  if lock m then
    Blocked (mkManager p' (Some s) true (running m)
               (trace m ++ [Send packet]))
  else
    Returned tt (mkManager p' (Some (mark_sent u i s)) false (running m)
                   (trace m ++ [Send packet])).
Proof.
  intros Hs Hi Hb. unfold _send_chunk. rewrite Hs.
  destruct (Z.leb_spec (total_chunks s) i); [lia|].
  unfold bind at 1. unfold build. rewrite Hb.
  destruct m as [p ss l r t]. cbn in Hs. subst ss.
  run_m. destruct l; [reflexivity|].
  run_m. unfold mark_sent, dict_mem.
  destruct (dict_get u (devices s)) as [d|] eqn:Ed; run_m;
    rewrite ?Ed; run_m; reflexivity.
Qed.

Lemma send_chunk_not_built (u : string) (i : Z) (m : OtaManager)
    (s : OtaSession) :
  session m = Some s -> i < total_chunks s ->
  Protocol.build_ota_chunk (protocol m) (announce_id s) i (chunk_data s i) =
    (None, protocol m) ->
  _send_chunk u i m = Raised StructError m.
Proof.
  intros Hs Hi Hb. unfold _send_chunk. rewrite Hs.
  destruct (Z.leb_spec (total_chunks s) i); [lia|].
  unfold bind at 1. unfold build. rewrite Hb.
  destruct m; reflexivity.
Qed.

Lemma chunk_data_short (s : OtaSession) (i : Z) :
  session_ok s -> 0 <= i < total_chunks s -> len (chunk_data s i) <= 200.
Proof. intros Hok Hi. now apply chunk_data_inside. Qed.

End SendChunkFacts.

(** ** The [devices] dictionary *)

Section DictFacts.
Import Py Ota.

Lemma dict_get_set_same (k : string) (v : DeviceOtaInfo) (d : dict) :
  dict_get k (dict_set k v d) = Some v.
Proof.
  induction d as [|[k' v'] r IH]; cbn [dict_set dict_get].
  - now rewrite String.eqb_refl.
  - destruct (String.eqb k k') eqn:E; cbn [dict_get]; rewrite E;
      [reflexivity|exact IH].
Qed.

Lemma dict_get_set_other (k k' : string) (v : DeviceOtaInfo) (d : dict) :
  k <> k' -> dict_get k' (dict_set k v d) = dict_get k' d.
Proof.
  intros Hne. induction d as [|[k0 v0] r IH]; cbn [dict_set dict_get].
  - destruct (String.eqb_spec k' k); [congruence|reflexivity].
  - destruct (String.eqb_spec k k0) as [->|Hk]; cbn [dict_get].
    + destruct (String.eqb_spec k' k0); [congruence|reflexivity].
    + destruct (String.eqb_spec k' k0); [reflexivity|exact IH].
Qed.

Lemma dict_set_set (k : string) (v1 v2 : DeviceOtaInfo) (d : dict) :
  dict_set k v2 (dict_set k v1 d) = dict_set k v2 d.
Proof.
  induction d as [|[k' v'] r IH]; cbn [dict_set].
  - now rewrite String.eqb_refl.
  - destruct (String.eqb k k') eqn:E; cbn [dict_set]; rewrite E;
      [reflexivity|now rewrite IH].
Qed.

Lemma dict_values_set (P : DeviceOtaInfo -> Prop) (k : string)
    (v : DeviceOtaInfo) (d : dict) :
  Forall P (dict_values d) -> P v -> Forall P (dict_values (dict_set k v d)).
Proof.
  unfold dict_values. intros Hd Hv.
  induction d as [|[k' v'] r IH]; cbn [dict_set map].
  - constructor; [assumption|constructor].
  - inversion Hd as [|? ? Hv' Hr]; subst.
    destruct (String.eqb k k'); cbn [map snd].
    + constructor; assumption.
    + constructor; [assumption|now apply IH].
Qed.

Lemma dict_values_get (P : DeviceOtaInfo -> Prop) (k : string)
    (v : DeviceOtaInfo) (d : dict) :
  Forall P (dict_values d) -> dict_get k d = Some v -> P v.
Proof.
  unfold dict_values. intros Hd.
  induction d as [|[k' v'] r IH]; cbn [dict_get]; [discriminate|].
  inversion Hd as [|? ? Hv' Hr]; subst.
  destruct (String.eqb k k').
  - now intros [= <-].
  - now apply IH.
Qed.

Lemma dict_mem_get (k : string) (d : dict) :
  dict_mem k d = true <-> exists v, dict_get k d = Some v.
Proof.
  unfold dict_mem. destruct (dict_get k d) as [v|]; split.
  - intros _. now exists v.
  - reflexivity.
  - discriminate.
  - intros [v Hv]. discriminate.
Qed.

End DictFacts.

(** ** Reasoning on the computations of the manager *)

Section HoareFacts.
Import Py Ota.

Lemma hoare_final {A : Type} (I : OtaManager -> Prop) (c : M A) :
  hoare I c (fun _ => I) I -> forall m, I m -> I (final (c m)).
Proof.
  intros H m Hm. specialize (H m Hm). destruct (c m); exact H.
Qed.

Lemma hoare_ret {A : Type} (Pre : OtaManager -> Prop) (a : A)
    (Q : A -> OtaManager -> Prop) (R : OtaManager -> Prop) :
  (forall m, Pre m -> Q a m) -> hoare Pre (ret a) Q R.
Proof. intros H m Hm. now apply H. Qed.

Lemma hoare_raise {A : Type} (Pre : OtaManager -> Prop) (e : exn)
    (Q : A -> OtaManager -> Prop) (R : OtaManager -> Prop) :
  (forall m, Pre m -> R m) -> hoare Pre (raise e) Q R.
Proof. intros H m Hm. now apply H. Qed.

Lemma hoare_bind {A B : Type} (Pre : OtaManager -> Prop) (c : M A)
    (f : A -> M B) (Mid : A -> OtaManager -> Prop)
    (Q : B -> OtaManager -> Prop) (R : OtaManager -> Prop) :
  hoare Pre c Mid R -> (forall a, hoare (Mid a) (f a) Q R) ->
  hoare Pre (bind c f) Q R.
Proof.
  intros Hc Hf m Hm. unfold bind. specialize (Hc m Hm).
  destruct (c m) as [a m'|e m'|m']; try exact Hc.
  now apply Hf.
Qed.

Lemma hoare_weaken {A : Type} (Pre Pre' : OtaManager -> Prop) (c : M A)
    (Q : A -> OtaManager -> Prop) (R : OtaManager -> Prop) :
  (forall m, Pre' m -> Pre m) -> hoare Pre c Q R -> hoare Pre' c Q R.
Proof. intros Hp Hc m Hm. apply Hc. now apply Hp. Qed.

Lemma hoare_update (Pre : OtaManager -> Prop) (f : OtaManager -> OtaManager)
    (Q : unit -> OtaManager -> Prop) (R : OtaManager -> Prop) :
  (forall m, Pre m -> Q tt (f m)) -> hoare Pre (update f) Q R.
Proof. intros H m Hm. now apply H. Qed.

Lemma hoare_the_session (Pre : OtaManager -> Prop)
    (R : OtaManager -> Prop) :
  (forall m, Pre m -> R m) ->
  hoare Pre the_session (fun s m => Pre m /\ session m = Some s) R.
Proof.
  intros HR m Hm. unfold the_session.
  destruct (session m) eqn:E; [now split|now apply HR].
Qed.

Lemma hoare_for_each (I : OtaManager -> Prop) (keys : list string)
    (body : string -> M unit) :
  (forall k, hoare I (body k) (fun _ => I) I) ->
  hoare I (for_each keys body) (fun _ => I) I.
Proof.
  intros Hb. induction keys as [|k r IH]; cbn [for_each].
  - now apply hoare_ret.
  - apply hoare_bind with (Mid := fun _ => I); [apply Hb|intros _; exact IH].
Qed.

(** [with self._lock:] around a body that keeps [I], for an [I] that
    does not depend on the lock. *)
Lemma hoare_with_lock {A : Type} (I : OtaManager -> Prop) (body : M A) :
  (forall m b, I m -> I (set_lock b m)) ->
  hoare I body (fun _ => I) I ->
  hoare I (with_lock body) (fun _ => I) I.
Proof.
  intros Hl Hb m Hm. unfold with_lock, acquire.
  destruct (lock m); [exact Hm|].
  specialize (Hb (set_lock true m) (Hl _ _ Hm)).
  destruct (body (set_lock true m)); try apply Hl; exact Hb.
Qed.

End HoareFacts.

(** ** The chunk marks of the devices stay in range *)

Section RangeFacts.
Import Py Ota.

Lemma chunk_marks_inv_T (m : OtaManager) :
  chunk_marks_in_range m <->
  exists T, inv_T T m.
Proof.
  unfold chunk_marks_in_range, inv_T. split.
  - destruct (session m) as [s|].
    + intros [H0 HF]. exists (total_chunks s). auto.
    + intros _. exists 0. split; [lia|exact Logic.I].
  - intros [T [H0 H]]. destruct (session m) as [s|]; [|exact Logic.I].
    destruct H as [<- HF]. auto.
Qed.

Lemma the_device_run (u : string) (m : OtaManager) :
  the_device u m =
  match session m with
  | Some s =>
      match dict_get u (devices s) with
      | Some d => Returned d m
      | None => Raised KeyError m
      end
  | None => Raised AttributeError m
  end.
Proof.
  unfold the_device, bind, the_session.
  destruct (session m) as [s|]; [|reflexivity].
  destruct (dict_get u (devices s)); reflexivity.
Qed.

Lemma assign_run (u : string) (f : DeviceOtaInfo -> DeviceOtaInfo)
    (m : OtaManager) :
  assign u f m =
  match session m with
  | Some s =>
      match dict_get u (devices s) with
      | Some d =>
          Returned tt
            (set_session
               (Some (set_devices (dict_set u (f d) (devices s)) s)) m)
      | None => Raised KeyError m
      end
  | None => Raised AttributeError m
  end.
Proof.
  unfold assign, bind, the_session.
  destruct (session m) as [s|] eqn:Es; [|reflexivity].
  rewrite the_device_run, Es.
  destruct (dict_get u (devices s)); reflexivity.
Qed.

Variable T : Z.

Lemma inv_T_is_active (m : OtaManager) (s : OtaSession) (b : bool) :
  inv_T T m -> session m = Some s ->
  inv_T T (set_session (Some (set_is_active b s)) m).
Proof.
  unfold inv_T. intros [H0 H] Hs. rewrite Hs in H.
  split; [assumption|exact H].
Qed.

Lemma inv_T_set_device (m : OtaManager) (s : OtaSession) (u : string)
    (d : DeviceOtaInfo) :
  inv_T T m -> session m = Some s -> device_in_range T d ->
  inv_T T (set_session (Some (set_devices (dict_set u d (devices s)) s)) m).
Proof.
  unfold inv_T. intros [H0 H] Hs Hd. rewrite Hs in H. destruct H as [Ht HF].
  split; [assumption|].
  cbn [session set_session set_devices total_chunks devices].
  split; [assumption|]. now apply dict_values_set.
Qed.

Lemma keeps_the_session :
  hoare (inv_T T) the_session
    (fun s m => inv_T T m /\ session m = Some s) (inv_T T).
Proof. apply hoare_the_session. auto. Qed.

Lemma keeps_bind {A B : Type} (c : M A) (f : A -> M B) :
  keeps T c -> (forall a, keeps T (f a)) -> keeps T (bind c f).
Proof. intros Hc Hf. eapply hoare_bind; [exact Hc|exact Hf]. Qed.

Lemma keeps_ret {A : Type} (a : A) : keeps T (ret a).
Proof. apply hoare_ret. auto. Qed.

(** A continuation that reads the session first. *)
Lemma keeps_bind_session {B : Type} (f : OtaSession -> M B) :
  (forall s, hoare (fun m => inv_T T m /\ session m = Some s) (f s)
               (fun _ => inv_T T) (inv_T T)) ->
  keeps T (bind the_session f).
Proof. intros Hf. eapply hoare_bind; [apply keeps_the_session|exact Hf]. Qed.

(** Dropping what is known beside the invariant. *)
Lemma keeps_more {A : Type} (P : OtaManager -> Prop) (c : M A) :
  keeps T c ->
  hoare (fun m => inv_T T m /\ P m) c (fun _ => inv_T T) (inv_T T).
Proof. intros H. eapply hoare_weaken; [|exact H]. now intros m [Hm _]. Qed.

Lemma keeps_tracked (u : string) : keeps T (tracked u).
Proof.
  unfold tracked. apply keeps_bind_session.
  intros s. apply keeps_more. apply keeps_ret.
Qed.

Lemma keeps_the_device (u : string) : keeps T (the_device u).
Proof.
  intros m Hm. rewrite the_device_run.
  destruct (session m) as [s|]; [|exact Hm].
  destruct (dict_get u (devices s)); exact Hm.
Qed.

(** An attribute assignment that keeps a device in range. *)
Lemma keeps_assign (u : string) (f : DeviceOtaInfo -> DeviceOtaInfo) :
  (forall d, device_in_range T d -> device_in_range T (f d)) ->
  keeps T (assign u f).
Proof.
  intros Hf m Hm. rewrite assign_run.
  destruct (session m) as [s|] eqn:Es; [|exact Hm].
  destruct (dict_get u (devices s)) as [d|] eqn:Ed; [|exact Hm].
  apply inv_T_set_device; [assumption..|].
  apply Hf. destruct Hm as [_ H]. rewrite Es in H.
  eapply dict_values_get; [apply H|exact Ed].
Qed.

Lemma keeps_update (f : OtaManager -> OtaManager) :
  (forall m, session (f m) = session m) -> keeps T (update f).
Proof.
  intros Hf. apply hoare_update. intros m Hm.
  unfold inv_T in *. now rewrite Hf.
Qed.

Lemma keeps_send (packet : bytes) : keeps T (send packet).
Proof. apply keeps_update. reflexivity. Qed.

Lemma keeps_build (f : Protocol.t -> option bytes * Protocol.t) :
  keeps T (build f).
Proof.
  intros m Hm. unfold build. destruct (f (protocol m)) as [[pk|] p]; exact Hm.
Qed.

Lemma keeps_with_lock {A : Type} (body : M A) :
  keeps T body -> keeps T (with_lock body).
Proof. apply hoare_with_lock. intros m b H. exact H. Qed.

Lemma keeps_for_each (keys : list string) (body : string -> M unit) :
  (forall k, keeps T (body k)) -> keeps T (for_each keys body).
Proof. apply hoare_for_each. Qed.

Lemma keeps_for_devices (body : string -> M unit) :
  (forall k, keeps T (body k)) -> keeps T (for_devices body).
Proof.
  intros Hb. unfold for_devices. apply keeps_bind_session.
  intros s. apply keeps_more. now apply keeps_for_each.
Qed.

(** What [_send_chunk] does past its guard, for a chunk index in range. *)
Lemma keeps_send_chunk_body (s : OtaSession) (u : string) (i : Z) :
  0 <= i < T ->
  keeps T
    (packet <- build (fun p =>
                 Protocol.build_ota_chunk p (announce_id s) i
                   (chunk_data s i)) ;;
     send packet ;;
     with_lock
       (t <- tracked u ;;
        if t then assign u (set_last_chunk_sent i) else ret tt)).
Proof.
  intros Hi.
  apply keeps_bind; [apply keeps_build|]. intros packet.
  apply keeps_bind; [apply keeps_send|]. intros _.
  apply keeps_with_lock.
  apply keeps_bind; [apply keeps_tracked|]. intros [|].
  - apply keeps_assign. unfold device_in_range. cbn. intros d Hd. lia.
  - apply keeps_ret.
Qed.

Lemma keeps_send_chunk (u : string) (i : Z) : keeps T (_send_chunk u i).
Proof.
  intros m Hm. unfold _send_chunk.
  destruct (session m) as [s|] eqn:Es; [|exact Hm].
  destruct (Z.leb_spec (total_chunks s) i) as [|Hi]; [exact Hm|].
  destruct (Z.le_gt_cases 0 i) as [H0|Hneg].
  - apply (keeps_send_chunk_body s u i); [|exact Hm].
    destruct Hm as [_ H]. rewrite Es in H. destruct H as [<- _]. lia.
  - unfold bind at 1. unfold build.
    rewrite build_ota_chunk_bad_index by lia. exact Hm.
Qed.

End RangeFacts.

(** ** Payloads read off the wire are within their fields *)

Section ParseFacts.
Import Py Struct.

Lemma le_decode_bound (n : nat) (l : bytes) :
  (length l <= n)%nat -> 0 <= le_decode l < 256 ^ Z.of_nat n.
Proof.
  intros Hl. pose proof (le_decode_range l) as Hr.
  assert (256 ^ Z.of_nat (length l) <= 256 ^ Z.of_nat n)
    by (apply Z.pow_le_mono_r; lia).
  lia.
Qed.

Lemma le_decode_firstn (n : nat) (l : bytes) :
  0 <= le_decode (firstn n l) < 256 ^ Z.of_nat n.
Proof. apply le_decode_bound. rewrite length_firstn. lia. Qed.

Lemma unpack_items_of (fmt : list item) (data : bytes) (vs : list value) :
  Struct.unpack fmt data = Some vs -> vs = unpack_items fmt data.
Proof.
  unfold Struct.unpack. destruct (Nat.eqb _ _); [|discriminate].
  now intros [= <-].
Qed.

Lemma parse_ota_request_range (payload : bytes) (r : OtaRequest.t) :
  Protocol.parse_ota_request payload = Some r ->
  0 <= OtaRequest.announce_id r < 2 ^ 32 /\
  0 <= OtaRequest.last_chunk_received r < 65536.
Proof.
  unfold Protocol.parse_ota_request, OtaRequest.unpack.
  destruct (_ <? _); [discriminate|].
  destruct (Struct.unpack _ _) as [vs|] eqn:E; [|discriminate].
  apply unpack_items_of in E. subst vs.
  unfold OtaRequest.FORMAT, I, B, H.
  cbn [unpack_items unpack_item item_size].
  intros [= <-]. cbn [OtaRequest.announce_id OtaRequest.last_chunk_received].
  split; [apply (le_decode_firstn 4)|apply (le_decode_firstn 2)].
Qed.

Lemma parse_ota_chunk_ack_range (payload : bytes) (a : OtaChunkAck.t) :
  Protocol.parse_ota_chunk_ack payload = Some a ->
  0 <= OtaChunkAck.announce_id a < 2 ^ 32 /\
  0 <= OtaChunkAck.chunk_index a < 65536.
Proof.
  unfold Protocol.parse_ota_chunk_ack, OtaChunkAck.unpack.
  destruct (_ <? _); [discriminate|].
  destruct (Struct.unpack _ _) as [vs|] eqn:E; [|discriminate].
  apply unpack_items_of in E. subst vs.
  unfold OtaChunkAck.FORMAT, I, B, H.
  cbn [unpack_items unpack_item item_size].
  intros [= <-]. cbn [OtaChunkAck.announce_id OtaChunkAck.chunk_index].
  split; [apply (le_decode_firstn 4)|apply (le_decode_firstn 2)].
Qed.

End ParseFacts.

(** ** Every operation of the session keeps the chunk marks in range *)

Section HandlerRange.
Import Py Ota.

Variable T : Z.

Ltac keep_assign :=
  apply keeps_assign; unfold device_in_range;
  cbn [last_chunk_acked last_chunk_sent set_state set_current_version
       set_last_chunk_sent set_last_chunk_acked set_retry_count
       set_last_activity set_error_message];
  intros; try lia.

Ltac keep1 :=
  match goal with
  | |- keeps _ (ret _) => apply keeps_ret
  | |- keeps _ (_send_chunk _ _) => apply keeps_send_chunk
  | |- keeps _ (tracked _) => apply keeps_tracked
  | |- keeps _ (the_device _) => apply keeps_the_device
  | |- keeps _ (send _) => apply keeps_send
  | |- keeps _ (build _) => apply keeps_build
  | |- keeps _ (update (emit _)) => apply keeps_update; reflexivity
  | |- keeps _ (update (set_running _)) => apply keeps_update; reflexivity
  | |- keeps _ (with_lock _) => apply keeps_with_lock
  | |- keeps _ (for_devices _) => apply keeps_for_devices; intros ?k
  | |- keeps _ (assign _ _) => keep_assign
  | |- keeps _ (bind the_session _) =>
      apply keeps_bind_session; intros ?s; apply keeps_more
  | |- keeps _ (bind _ _) => apply keeps_bind; [|intros ?a]
  | |- keeps _ (if ?b then _ else _) => destruct b eqn:?E
  | |- keeps _ (match ?x with _ => _ end) => destruct x eqn:?E
  end.

Ltac keep := repeat keep1.

(** The first request of a device: its record enters the dictionary. *)
Lemma keeps_track_new (u : string) (uuid : bytes) :
  keeps T
    (s <- the_session ;;
     update (set_session (Some
       (set_devices (dict_set u (new_device uuid) (devices s)) s)))).
Proof.
  apply keeps_bind_session. intros s.
  apply hoare_update. intros m [Hm Hs].
  apply inv_T_set_device; [assumption..|].
  destruct Hm as [H0 _]. unfold device_in_range. cbn. lia.
Qed.

Lemma keeps_handle_request (now : time) (u : string) (uuid payload : bytes) :
  keeps T (_handle_request now u uuid payload).
Proof.
  unfold _handle_request.
  destruct (Protocol.parse_ota_request payload) as [request|] eqn:Ep;
    [|apply keeps_ret].
  destruct (parse_ota_request_range _ _ Ep) as [_ Hl].
  keep1. destruct (negb _); [apply keeps_ret|].
  apply keeps_bind; [|intros start_chunk; keep].
  apply keeps_with_lock.
  apply keeps_bind; [apply keeps_tracked|]. intros t.
  apply keeps_bind.
  { destruct t; [apply keeps_ret|apply keeps_track_new]. }
  intros _. keep.
  destruct (OtaRequest.last_chunk_received request =? 65535); lia.
Qed.

Lemma keeps_handle_chunk_ack (now : time) (u : string) (payload : bytes) :
  keeps T (_handle_chunk_ack now u payload).
Proof.
  unfold _handle_chunk_ack.
  destruct (Protocol.parse_ota_chunk_ack payload) as [ack|] eqn:Ep;
    [|apply keeps_ret].
  destruct (parse_ota_chunk_ack_range _ _ Ep) as [_ Hc].
  keep.
Qed.

Lemma keeps_handle_chunk_nack (now : time) (u : string) (payload : bytes) :
  keeps T (_handle_chunk_nack now u payload).
Proof.
  unfold _handle_chunk_nack.
  destruct (Protocol.parse_ota_chunk_ack payload) as [ack|] eqn:Ep;
    [|apply keeps_ret].
  keep.
Qed.

Lemma keeps_check_session_complete : keeps T _check_session_complete.
Proof.
  intros m Hm. unfold _check_session_complete.
  destruct (session m) as [s|] eqn:Es; [|exact Hm].
  destruct (_ && _); [|exact Hm].
  unfold bind, update. cbn [final].
  unfold inv_T in *. rewrite Es in Hm. exact Hm.
Qed.

Lemma keeps_handle_complete (now : time) (u : string) (payload : bytes) :
  keeps T (_handle_complete now u payload).
Proof.
  unfold _handle_complete.
  destruct (Protocol.parse_ota_complete payload) as [complete|] eqn:Ep;
    [|apply keeps_ret].
  keep1. destruct (negb _); [apply keeps_ret|].
  apply keeps_with_lock.
  apply keeps_bind; [apply keeps_tracked|]. intros t.
  destruct (negb t); [apply keeps_ret|].
  apply keeps_bind; [keep|]. intros _.
  apply keeps_bind; [keep|]. intros _.
  apply keeps_bind; [apply keeps_check_session_complete|].
  intros _. apply keeps_ret.
Qed.

Lemma keeps_handle_status (now : time) (u : string) (payload : bytes) :
  keeps T (_handle_status now u payload).
Proof.
  unfold _handle_status.
  destruct (Protocol.parse_ota_status payload) as [status|] eqn:Ep;
    [|apply keeps_ret].
  keep.
Qed.

Lemma keeps_handle_message (now : time) (header : PacketHeader.t)
    (payload : bytes) :
  keeps T (handle_message now header payload).
Proof.
  intros m Hm. unfold handle_message.
  destruct (session m) as [s|]; [|exact Hm].
  destruct (negb (is_active s)); [exact Hm|].
  destruct (_ =? _); [now apply keeps_handle_request|].
  destruct (_ =? _); [now apply keeps_handle_chunk_ack|].
  destruct (_ =? _); [now apply keeps_handle_chunk_nack|].
  destruct (_ =? _); [now apply keeps_handle_complete|].
  destruct (_ =? _); [now apply keeps_handle_status|].
  exact Hm.
Qed.

Lemma keeps_send_announce : keeps T _send_announce.
Proof.
  intros m Hm. unfold _send_announce.
  destruct (session m) as [s|]; [|exact Hm].
  revert m Hm. change (keeps T
    (packet <- build (fun p =>
                 Protocol.build_ota_announce p (target_device_type s)
                   (version s) (firmware_size s) (firmware_crc s)
                   (announce_id s)) ;;
     send packet)).
  keep.
Qed.

Lemma keeps_process_pending_chunks : keeps T _process_pending_chunks.
Proof.
  intros m Hm. unfold _process_pending_chunks.
  destruct (session m) as [s|]; [|exact Hm].
  revert m Hm.
  match goal with
  | |- forall m, _ -> match ?c m with _ => _ end => change (keeps T c)
  end.
  keep.
Qed.

Lemma keeps_check_timeouts (now : time) : keeps T (_check_timeouts now).
Proof.
  intros m Hm. unfold _check_timeouts.
  destruct (session m) as [s|]; [|exact Hm].
  revert m Hm.
  match goal with
  | |- forall m, _ -> match ?c m with _ => _ end => change (keeps T c)
  end.
  keep.
Qed.

Lemma keeps_announce_loop_turn (now : time) :
  keeps T (_announce_loop_turn now).
Proof.
  intros m Hm. unfold _announce_loop_turn.
  destruct (_ && _); [|exact Hm].
  revert m Hm.
  match goal with
  | |- forall m, _ -> match ?c m with _ => _ end => change (keeps T c)
  end.
  apply keeps_bind; [apply keeps_send_announce|]. intros _.
  apply keeps_bind; [apply keeps_process_pending_chunks|]. intros _.
  apply keeps_bind; [apply keeps_check_timeouts|]. intros _.
  apply keeps_ret.
Qed.

Lemma keeps_stop_update : keeps T stop_update.
Proof.
  unfold stop_update.
  apply keeps_bind; [apply keeps_update; reflexivity|]. intros _.
  intros m Hm. destruct (session m) as [s|]; [|exact Hm].
  revert m Hm.
  match goal with
  | |- forall m, _ -> match ?c m with _ => _ end => change (keeps T c)
  end.
  apply keeps_bind; [apply keeps_build|]. intros packet.
  apply keeps_bind; [apply keeps_send|]. intros _.
  apply keeps_bind_session. intros s'.
  apply hoare_update. intros m [Hm Hs].
  now apply inv_T_is_active.
Qed.

Lemma step_keeps (e : event) (l : Leader) :
  inv_T T (manager l) -> inv_T T (manager (step e l)).
Proof.
  intros Hl. destruct e as [now header payload|now|]; cbn [step].
  - destruct (receive_halted l); [exact Hl|]. cbn [manager].
    now apply hoare_final, Hl; apply keeps_handle_message.
  - destruct (announce_halted l); [exact Hl|]. cbn [manager].
    now apply hoare_final, Hl; apply keeps_announce_loop_turn.
  - cbn [manager]. now apply hoare_final, Hl; apply keeps_stop_update.
Qed.

Lemma run_keeps (es : list event) (l : Leader) :
  inv_T T (manager l) -> inv_T T (manager (run es l)).
Proof.
  unfold run. revert l. induction es as [|e es IH]; intros l Hl;
    cbn [fold_left]; [exact Hl|].
  apply IH. now apply step_keeps.
Qed.

End HandlerRange.

(** ** A session, for the concrete runs *)

Section Scenario.
Import Py Ota.

Example started_manager_session :
  option_map
    (fun s => (announce_id s, firmware_size s, total_chunks s, is_active s))
    (session started_manager) = Some (0xDEADBEEF, 450, 3, true).
Proof. vm_compute. reflexivity. Qed.

End Scenario.

Section ChunkTheorem.
Import Py Ota.

(** C1. In a session whose size and chunk count are those of its
    firmware [F], the data of chunk [i], for every [i] below the chunk
    count, is [F[i*200 : min((i+1)*200, |F|)]], between 1 and 200 bytes;
    the data of chunks 0, 1, ..., in order, concatenated, is [F]; and the
    packet that [_send_chunk] hands to the radio for chunk [i] carries
    exactly that data after the 34 bytes of its headers. *)
Theorem chunks_reconstruct_firmware (m : OtaManager) (s : OtaSession)
    (u : string) :
  session m = Some s -> session_ok s ->
  (forall i, 0 <= i < total_chunks s ->
     chunk_data s i =
       slice (firmware_data s) (i * 200)
         (Z.min ((i + 1) * 200) (len (firmware_data s))) /\
     chunk_data s i =
       firstn (Z.to_nat (Z.min 200 (len (firmware_data s) - 200 * i)))
         (skipn (Z.to_nat (200 * i)) (firmware_data s)) /\
     0 < len (chunk_data s i) <= 200) /\
  concat (map (chunk_data s) (chunk_indexes s)) = firmware_data s /\
  (forall i, 0 <= i < total_chunks s -> i < 65536 ->
     0 <= announce_id s < 2 ^ 32 ->
     exists h,
       length h = 34%nat /\
       trace (final (_send_chunk u i m)) =
         trace m ++ [Send (h ++ chunk_data s i)]).
Proof.
  intros Hs Hok. split; [|split].
  - intros i Hi.
    destruct (chunk_data_inside s i Hok Hi) as [E Hl].
    split; [|split; assumption].
    unfold chunk_data, OTA_CHUNK_SIZE. cbv zeta.
    destruct Hok as [-> _]. f_equal. lia.
  - now apply chunks_concat.
  - intros i Hi H16 Ha.
    destruct (build_ota_chunk_ok (protocol m) (announce_id s) i
                (chunk_data s i) Ha ltac:(lia)
                (chunk_data_short s i Hok Hi)) as (h & Lh & Eb).
    exists h. split; [assumption|].
    rewrite (send_chunk_built u i m s _ _ Hs ltac:(lia) Eb).
    destruct (lock m); reflexivity.
Qed.

Lemma started_manager_ok :
  exists s, session started_manager = Some s /\ session_ok s.
Proof.
  eexists. split; [reflexivity|]. split; vm_compute; reflexivity.
Qed.

Lemma chunks_reconstruct_firmware_witness :
  (forall i, 0 <= i < total_chunks started_session ->
     chunk_data started_session i =
       slice (firmware_data started_session) (i * 200)
         (Z.min ((i + 1) * 200) (len (firmware_data started_session))) /\
     chunk_data started_session i =
       firstn (Z.to_nat
                 (Z.min 200 (len (firmware_data started_session) - 200 * i)))
         (skipn (Z.to_nat (200 * i)) (firmware_data started_session)) /\
     0 < len (chunk_data started_session i) <= 200) /\
  concat (map (chunk_data started_session) (chunk_indexes started_session)) =
    firmware_data started_session /\
  (forall i, 0 <= i < total_chunks started_session -> i < 65536 ->
     0 <= announce_id started_session < 2 ^ 32 ->
     exists h,
       length h = 34%nat /\
       trace (final (_send_chunk device_key i started_manager)) =
         trace started_manager ++ [Send (h ++ chunk_data started_session i)]).
Proof.
  apply (chunks_reconstruct_firmware started_manager started_session device_key).
  - reflexivity.
  - split; vm_compute; reflexivity.
Defined.

(** The three chunks of the firmware of 450 bytes. *)
Example chunks_of_450 :
  map (fun i => len (chunk_data started_session i))
    (chunk_indexes started_session) = [200; 200; 50].
Proof. vm_compute. reflexivity. Qed.

End ChunkTheorem.

(** ** What the handlers of ACK and NACK do *)

Section AckNackFacts.
Import Py Ota.

Ltac run_m1 :=
  try unfold bind; try unfold ret; try unfold raise; try unfold update;
  try unfold the_session; try unfold tracked; try unfold the_device;
  try unfold assign; try unfold acquire; try unfold with_lock;
  try unfold send; try unfold build;
  cbn [final halts protocol session lock running trace
       set_protocol set_session set_lock set_running emit fst snd
       devices set_devices set_is_active total_chunks announce_id is_active
       negb].
Ltac run_m := repeat (progress run_m1).

Ltac flatten_state :=
  cbv [emit set_session set_lock set_devices protocol session lock running
       trace announce_id target_device_type firmware_path firmware_data
       firmware_size firmware_crc version total_chunks devices start_time
       is_active].

Lemma handle_message_active (now : time) (header : PacketHeader.t)
    (payload : bytes) (m : OtaManager) (s : OtaSession) :
  session m = Some s -> is_active s = true ->
  handle_message now header payload m =
  let u := Protocol.uuid_to_str (PacketHeader.uuid header) in
  let mt := PacketHeader.msg_type header in
  if mt =? MessageType.OTA_REQUEST then
    _handle_request now u (PacketHeader.uuid header) payload m
  else if mt =? MessageType.OTA_CHUNK_ACK then
    _handle_chunk_ack now u payload m
  else if mt =? MessageType.OTA_CHUNK_NACK then
    _handle_chunk_nack now u payload m
  else if mt =? MessageType.OTA_COMPLETE then
    _handle_complete now u payload m
  else if mt =? MessageType.OTA_STATUS then
    _handle_status now u payload m
  else Returned false m.
Proof.
  intros Hs Ha. unfold handle_message. rewrite Hs, Ha. reflexivity.
Qed.

(** An ACK with status 0, of whatever chunk index: the record is updated,
    the progress callback fires, and the next chunk, if there is one, is
    sent from inside the lock. *)
Lemma handle_chunk_ack_ok (now : time) (u : string) (payload : bytes)
    (m : OtaManager) (s : OtaSession) (d : DeviceOtaInfo)
    (ack : OtaChunkAck.t) :
  session m = Some s -> lock m = false ->
  dict_get u (devices s) = Some d ->
  Protocol.parse_ota_chunk_ack payload = Some ack ->
  OtaChunkAck.announce_id ack = announce_id s ->
  OtaChunkAck.status ack = 0 ->
  let i := OtaChunkAck.chunk_index ack in
  let d' :=
    set_retry_count 0 (set_last_activity now (set_state RECEIVING
      (set_last_chunk_acked i d))) in
  let s' := set_devices (dict_set u d' (devices s)) s in
  let m1 :=
    mkManager (protocol m) (Some s') true (running m)
      (trace m ++ [OnProgress u (i + 1) (total_chunks s)]) in
  _handle_chunk_ack now u payload m =
  if i + 1 <? total_chunks s then
    match _send_chunk u (i + 1) m1 with
    | Returned _ m2 => Returned true (set_lock false m2)
    | Raised e m2 => Raised e (set_lock false m2)
    | Blocked m2 => Blocked m2
    end
  else Returned true (set_lock false m1).
Proof.
  intros Hs Hl Hd Hp Ha Hst. cbv zeta.
  unfold _handle_chunk_ack. rewrite Hp.
  destruct m as [p ss l r t]. cbn in Hs, Hl. subst ss l.
  destruct s as [aid tdt fp fd fsz fcrc ver tc dv st act].
  cbn [announce_id devices total_chunks] in *.
  run_m. rewrite Ha, Z.eqb_refl. run_m. unfold dict_mem. rewrite Hd. run_m.
  rewrite Hst. cbn [Z.eqb].
  repeat (progress (run_m; rewrite ?Hd, ?dict_get_set_same)).
  rewrite !dict_set_set.
  destruct (_ <? _); [|reflexivity].
  flatten_state.
  destruct (_send_chunk _ _ _); reflexivity.
Qed.


End AckNackFacts.

Section AckTheorem.
Import Py Ota.

(** C3, as stated, fails. After a request from scratch the device has
    acknowledged nothing, so an ACK of chunk 2 is stale; yet it changes
    the record: chunk 2 becomes the last chunk acknowledged.  And after
    chunk 2 was acknowledged, an ACK of chunk 0 rewinds the record to 0. *)
Lemma stale_ack_changes_record :
  option_map (fun d => (last_chunk_acked d, state d))
    (device_record (manager after_request)) = Some (-1, REQUESTED) /\
  option_map (fun d => (last_chunk_acked d, state d))
    (device_record (manager after_stale_ack)) = Some (2, RECEIVING) /\
  option_map last_chunk_acked
    (device_record (manager after_resume_and_ack)) = Some 2 /\
  option_map last_chunk_acked
    (device_record (manager after_old_ack)) = Some 0.
Proof. repeat split; vm_compute; reflexivity. Qed.

(** C3, amended. An ACK with status 0 and the announce id of the session,
    from a tracked device, is accepted whatever its chunk index [i]:
    the record gets [last_chunk_acked = i], state RECEIVING and retry
    count 0, and chunk [i + 1] is handed to the radio if and only if
    [i + 1] is below the chunk count. *)
Theorem chunk_ack_updates_record (now : time) (header : PacketHeader.t)
    (payload : bytes) (m : OtaManager) (s : OtaSession) (d : DeviceOtaInfo)
    (ack : OtaChunkAck.t) :
  session m = Some s -> is_active s = true -> lock m = false ->
  session_ok s -> total_chunks s <= 65536 ->
  PacketHeader.msg_type header = MessageType.OTA_CHUNK_ACK ->
  dict_get (Protocol.uuid_to_str (PacketHeader.uuid header)) (devices s)
    = Some d ->
  Protocol.parse_ota_chunk_ack payload = Some ack ->
  OtaChunkAck.announce_id ack = announce_id s ->
  OtaChunkAck.status ack = 0 ->
  let u := Protocol.uuid_to_str (PacketHeader.uuid header) in
  let i := OtaChunkAck.chunk_index ack in
  let o := handle_message now header payload m in
  exists d',
    session (final o) = Some (set_devices (dict_set u d' (devices s)) s) /\
    last_chunk_acked d' = i /\ state d' = RECEIVING /\
    retry_count d' = 0 /\ last_activity d' = now /\
    (i + 1 < total_chunks s ->
     exists h,
       length h = 34%nat /\
       trace (final o) =
         trace m ++ [OnProgress u (i + 1) (total_chunks s);
                     Send (h ++ chunk_data s (i + 1))]) /\
    (total_chunks s <= i + 1 ->
     trace (final o) = trace m ++ [OnProgress u (i + 1) (total_chunks s)]).
Proof.
  intros Hs Hact Hl Hok Htot Hmt Hd Hp Ha Hst u i o.
  destruct (parse_ota_chunk_ack_range _ _ Hp) as [Haid Hidx].
  subst o. rewrite (handle_message_active _ _ _ _ s Hs Hact). cbv zeta.
  rewrite Hmt.
  change (MessageType.OTA_CHUNK_ACK =? MessageType.OTA_REQUEST) with false.
  change (MessageType.OTA_CHUNK_ACK =? MessageType.OTA_CHUNK_ACK) with true.
  cbv iota.
  rewrite (handle_chunk_ack_ok now _ payload m s d ack Hs Hl Hd Hp Ha Hst).
  cbv zeta. fold u. fold i.
  set (d' := set_retry_count 0 (set_last_activity now (set_state RECEIVING
               (set_last_chunk_acked i d)))).
  set (s' := set_devices (dict_set u d' (devices s)) s).
  exists d'. fold s'.
  destruct (Z.ltb_spec (i + 1) (total_chunks s)) as [Hnext|Hlast].
  - destruct (build_ota_chunk_ok (protocol m) (announce_id s) (i + 1)
                (chunk_data s (i + 1)))
      as (h & Lh & Eb).
    + rewrite <- Ha. exact Haid.
    + lia.
    + apply chunk_data_short; [assumption|lia].
    + rewrite (send_chunk_built u (i + 1) _ s' (h ++ chunk_data s (i + 1))
                 (snd (Protocol.next_sequence (protocol m))));
        [ | reflexivity | exact Hnext | exact Eb ].
      cbn [lock final session trace].
      repeat split; try reflexivity.
      * intros _. exists h. split; [assumption|].
        now rewrite <- app_assoc.
      * intros Hc. lia.
  - cbn [final set_lock session trace].
    repeat split; try reflexivity.
    intros Hc. lia.
Qed.

Lemma chunk_ack_updates_record_witness :
  exists d',
    session (final (handle_message 1002
                      (PacketHeader.mk [x41; x47] 1 MessageType.OTA_CHUNK_ACK 1
                         device_uuid 1 (len ack_of_chunk_0))
                      ack_of_chunk_0 (manager after_request))) =
      Some (set_devices
              (dict_set device_key d'
                 (devices
                    (match session (manager after_request) with
                     | Some s => s
                     | None => started_session
                     end)))
              (match session (manager after_request) with
               | Some s => s
               | None => started_session
               end)) /\
    last_chunk_acked d' = 0 /\ state d' = RECEIVING.
Proof.
  destruct (chunk_ack_updates_record 1002
              (PacketHeader.mk [x41; x47] 1 MessageType.OTA_CHUNK_ACK 1
                 device_uuid 1 (len ack_of_chunk_0))
              ack_of_chunk_0 (manager after_request)
              (match session (manager after_request) with
               | Some s => s
               | None => started_session
               end)
              (match device_record (manager after_request) with
               | Some d => d
               | None => new_device []
               end)
              (OtaChunkAck.mk 0xDEADBEEF 0 0))
    as (d' & Hsess & Hacked & Hstate & _).
  - vm_compute. reflexivity.
  - vm_compute. reflexivity.
  - vm_compute. reflexivity.
  - split; vm_compute; reflexivity.
  - vm_compute. discriminate.
  - reflexivity.
  - vm_compute. reflexivity.
  - vm_compute. reflexivity.
  - reflexivity.
  - reflexivity.
  - exists d'. repeat split; assumption.
Defined.

End AckTheorem.

(** ** NACKs from one device *)

Section NackRun.
Import Py Ota.

Variable header : PacketHeader.t.
Variable payload : bytes.
Variable ack : OtaChunkAck.t.
Variable s0 : OtaSession.

Hypothesis Hmt : PacketHeader.msg_type header = MessageType.OTA_CHUNK_NACK.
Hypothesis Hp : Protocol.parse_ota_chunk_ack payload = Some ack.
Hypothesis Ha : OtaChunkAck.announce_id ack = announce_id s0.
Hypothesis Hact : is_active s0 = true.
Hypothesis Hok : session_ok s0.




End NackRun.

Section NackTheorem.
Import Py Ota.


(** The scenario itself: six NACKs for chunk 0 after the request. The
    leader sent chunk 0 once for the request and five times more, and the
    device is in error. *)
Example six_nacks :
  let l :=
    run (repeat (Receive 1002 nack_header nack_of_chunk_0) 6) after_request in
  option_map (fun d => (state d, error_message d, retry_count d))
    (device_record (manager l)) =
    Some (ERROR, "Max retries exceeded"%string, 6) /\
  length (packets (manager l)) = 6%nat.
Proof. split; vm_compute; reflexivity. Qed.

End NackTheorem.

Section RangeTheorem.
Import Py Ota.

(** C2, as stated, fails. After that request the record has chunk 2 as
    the last acknowledged, and no chunk sent. *)
Lemma resume_request_breaks_chunk_invariant :
  exists s d,
    session (manager after_resume_request) = Some s /\
    dict_get device_key (devices s) = Some d /\
    last_chunk_acked d = 2 /\ last_chunk_sent d = -1 /\ total_chunks s = 3 /\
    ~ chunk_invariant_claimed s d.
Proof.
  eexists _, _. split; [vm_compute; reflexivity|].
  split; [vm_compute; reflexivity|].
  split; [reflexivity|]. split; [reflexivity|]. split; [reflexivity|].
  unfold chunk_invariant_claimed. cbn. lia.
Qed.

(** C2, amended. For every device record of the session,
    [-1 <= last_chunk_acked] and [-1 <= last_chunk_sent < total_chunks]
    hold when [start_update] has created the session, and after every
    operation from then on: every message handled, every turn of the
    announce loop with its timeout sweep, [stop_update], and every call
    of [_send_chunk], however the operation ends. *)
Theorem chunk_marks_stay_in_range :
  (forall fs draw now path version target m a m',
     start_update fs draw now path version target m = Returned a m' ->
     chunk_marks_in_range m') /\
  (forall e l,
     chunk_marks_in_range (manager l) ->
     chunk_marks_in_range (manager (step e l))) /\
  (forall es l,
     chunk_marks_in_range (manager l) ->
     chunk_marks_in_range (manager (run es l))) /\
  (forall u i m,
     chunk_marks_in_range m ->
     chunk_marks_in_range (final (_send_chunk u i m))).
Proof.
  split; [|split; [|split]].
  - intros fs draw now path version target m a m' H.
    unfold start_update in H.
    destruct (session_active m); [discriminate|].
    destruct (fs path) as [| |data]; try discriminate.
    injection H as _ <-.
    unfold chunk_marks_in_range.
    cbn [session set_running set_session total_chunks devices dict_values map].
    split; [|constructor].
    pose proof (ceil_div_200 (len data)) as Hc.
    pose proof (len_nonneg data). unfold is_ceil_div_200 in Hc. lia.
  - intros e l H. apply chunk_marks_inv_T in H. destruct H as [T H].
    apply chunk_marks_inv_T. exists T. now apply step_keeps.
  - intros es l H. apply chunk_marks_inv_T in H. destruct H as [T H].
    apply chunk_marks_inv_T. exists T. now apply run_keeps.
  - intros u i m H. apply chunk_marks_inv_T in H. destruct H as [T H].
    apply chunk_marks_inv_T. exists T.
    now apply hoare_final; [apply keeps_send_chunk|].
Qed.

(** The marks of the device along the happy path of a firmware of three
    chunks: request, then ACKs of chunks 0, 1, 2.  The handler of the
    first ACK sends chunk 1 and then waits for the lock it holds, so the
    later ACKs are never handled and chunk 1 is never recorded as sent. *)
Example marks_along_happy_path :
  let l :=
    run [from_device 1001 MessageType.OTA_REQUEST
           (request_payload 0xDEADBEEF 0xFFFF);
         from_device 1002 MessageType.OTA_CHUNK_ACK (ack_payload 0xDEADBEEF 0 0);
         from_device 1003 MessageType.OTA_CHUNK_ACK (ack_payload 0xDEADBEEF 1 0);
         from_device 1004 MessageType.OTA_CHUNK_ACK (ack_payload 0xDEADBEEF 2 0)]
      (started started_manager) in
  option_map (fun d => (last_chunk_acked d, last_chunk_sent d))
    (device_record (manager l)) = Some (0, 0) /\
  length (packets (manager l)) = 2%nat /\
  receive_halted l = true /\ lock (manager l) = true.
Proof. repeat split; vm_compute; reflexivity. Qed.

End RangeTheorem.

Section CompletionTheorem.
Import Py Ota.

(** C5 on the code. The only device of the session runs out of retries:
    every device is then in a final state, yet the session stays active
    and the announce loop keeps running, because [_handle_chunk_nack]
    does not call [_check_session_complete].  The same device reporting
    a CRC mismatch through OTA_COMPLETE does end the session. *)
Theorem nack_exhaustion_leaves_session_active :
  option_map (fun s => (map state (dict_values (devices s)),
                        all_devices_done s, is_active s))
    (session (manager after_six_nacks)) = Some ([ERROR], true, true) /\
  running (manager after_six_nacks) = true /\
  option_map (fun s => (map state (dict_values (devices s)),
                        all_devices_done s, is_active s))
    (session (manager after_crc_mismatch)) = Some ([ERROR], true, false).
Proof. repeat split; vm_compute; reflexivity. Qed.

(** The timeout sweep does not get as far: on its first timeout it sends
    the chunk again from inside the lock and waits for the lock forever;
    the announce thread and then the receive loop stop, the device
    staying in REQUESTED. *)
Example timeout_sweep_blocks :
  let l :=
    run [Maintain 1020; Maintain 1050;
         from_device 1060 MessageType.OTA_CHUNK_ACK (ack_payload 0xDEADBEEF 0 0)]
      (mkLeader (set_running true (manager after_request)) false false) in
  option_map (fun d => (state d, retry_count d, last_chunk_acked d))
    (device_record (manager l)) = Some (REQUESTED, 1, -1) /\
  announce_halted l = true /\ receive_halted l = true /\
  lock (manager l) = true.
Proof. repeat split; vm_compute; reflexivity. Qed.

End CompletionTheorem.

(** ** Building packets *)

Section PacketBuilding.
Import Py Struct.

Lemma land_ffff (z : Z) : Z.land z 0xFFFF = z mod 65536.
Proof. change 0xFFFF with (Z.ones 16). rewrite Z.land_ones by lia. reflexivity. Qed.

Lemma ljust0_firstn_fixed (n : nat) (b : bytes) :
  ljust0 n (firstn n (ljust0 n (firstn n b))) = ljust0 n (firstn n b).
Proof.
  assert (L : length (ljust0 n (firstn n b)) = n).
  { apply ljust0_length. rewrite length_firstn. lia. }
  rewrite <- L at 2. rewrite firstn_all.
  apply ljust0_exact. exact L.
Qed.

Lemma header_pack_pads (m : bytes) (v mt dt : Z) (u : bytes) (s pl : Z) :
  PacketHeader.pack (PacketHeader.mk m v mt dt u s pl) =
  PacketHeader.pack
    (PacketHeader.mk (ljust0 2 (firstn 2 m)) v mt dt (ljust0 16 (firstn 16 u))
       s pl).
Proof.
  unfold PacketHeader.pack, PacketHeader.FORMAT.
  cbn [PacketHeader.magic PacketHeader.version PacketHeader.msg_type
       PacketHeader.device_type PacketHeader.uuid PacketHeader.sequence
       PacketHeader.payload_len Struct.pack].
  unfold pack_item at 1 5 8 12.
  rewrite !ljust0_firstn_fixed. reflexivity.
Qed.

Lemma header_of_packet_in_range (msg_type : Z) (u : bytes) (s : Z)
    (payload : bytes) :
  0 <= msg_type < 256 -> len payload < 256 ->
  header_in_range
    (PacketHeader.mk [x41; x47] 1 msg_type 0 (ljust0 16 (firstn 16 u))
       (s mod 65536) (len payload)).
Proof.
  intros Ht Hp. pose proof (len_nonneg payload).
  unfold header_in_range;
    cbn [PacketHeader.magic PacketHeader.version PacketHeader.msg_type
         PacketHeader.device_type PacketHeader.uuid PacketHeader.sequence
         PacketHeader.payload_len].
  assert (length (ljust0 16 (firstn 16 u)) = 16%nat).
  { apply ljust0_length. rewrite length_firstn. lia. }
  pose proof (Z.mod_pos_bound s 65536 ltac:(lia)).
  repeat split; try assumption; try reflexivity; lia.
Qed.

(** X1. A packet built by [build_packet] from a message type that fits a
    byte and a payload of at most 255 bytes is the 24-byte header followed
    by the payload, and [parse_packet] reads it back: magic ["AG"],
    version 1, the message type, device type 0, the UUID of the protocol
    object cut or padded to 16 bytes, the next sequence number modulo
    65536, the length of the payload, and the payload itself. *)
Theorem build_packet_parses (p : Protocol.t) (msg_type : Z) (payload : bytes) :
  0 <= msg_type < 256 -> len payload < 256 ->
  exists packet,
    Protocol.build_packet p msg_type payload =
      (Some packet,
       Protocol.mk (Protocol.uuid p) ((Protocol.sequence p + 1) mod 65536)) /\
    len packet = 24 + len payload /\
    Protocol.parse_packet packet =
      Some (PacketHeader.mk [x41; x47] 1 msg_type 0
              (ljust0 16 (firstn 16 (Protocol.uuid p)))
              ((Protocol.sequence p + 1) mod 65536) (len payload),
            payload).
Proof.
  intros Ht Hp.
  pose proof (header_of_packet_in_range msg_type (Protocol.uuid p)
                (Protocol.sequence p + 1) payload Ht Hp) as Hr.
  destruct (header_pack_in_range _ Hr) as [b Hb].
  exists (b ++ payload).
  assert (Lb : length b = 24%nat).
  { apply pack_length in Hb. exact Hb. }
  split; [|split].
  - unfold Protocol.build_packet, Protocol.next_sequence.
    rewrite land_ffff. cbv zeta. unfold PROTOCOL_VERSION.
    rewrite header_pack_pads.
    change (ljust0 2 (firstn 2 [x41; x47])) with [x41; x47].
    rewrite Hb. reflexivity.
  - rewrite len_app. unfold len at 1. rewrite Lb. reflexivity.
  - unfold Protocol.parse_packet.
    rewrite header_size.
    destruct (Z.ltb_spec (len (b ++ payload)) 24) as [Hlt | _].
    { rewrite len_app in Hlt. unfold len in Hlt at 1. rewrite Lb in Hlt.
      pose proof (len_nonneg payload). lia. }
    rewrite (header_unpack_pack _ b payload Hr Hb).
    cbn [PacketHeader.payload_len].
    f_equal. f_equal.
    replace 24 with (len b) by (unfold len; rewrite Lb; reflexivity).
    replace (len b + len payload) with (len b + len (payload ++ [])).
    + rewrite <- (app_nil_r payload) at 1.
      rewrite (app_nil_r payload) at 2.
      replace (b ++ payload) with (b ++ payload ++ []) by now rewrite app_nil_r.
      rewrite slice_middle. reflexivity.
    + now rewrite app_nil_r.
Qed.

Lemma build_packet_parses_witness :
  exists packet,
    Protocol.build_packet Protocol.init 0x12 [xde; xad] =
      (Some packet,
       Protocol.mk (Protocol.uuid Protocol.init)
         ((Protocol.sequence Protocol.init + 1) mod 65536)) /\
    len packet = 24 + len [xde; xad] /\
    Protocol.parse_packet packet =
      Some (PacketHeader.mk [x41; x47] 1 0x12 0
              (ljust0 16 (firstn 16 (Protocol.uuid Protocol.init)))
              ((Protocol.sequence Protocol.init + 1) mod 65536)
              (len [xde; xad]),
            [xde; xad]).
Proof.
  apply (build_packet_parses Protocol.init 0x12 [xde; xad]).
  - lia.
  - vm_compute. reflexivity.
Defined.

Lemma build_packet_next (p : Protocol.t) (msg_type : Z) (payload : bytes) :
  snd (Protocol.build_packet p msg_type payload) =
  Protocol.mk (Protocol.uuid p) ((Protocol.sequence p + 1) mod 65536).
Proof.
  unfold Protocol.build_packet, Protocol.next_sequence.
  rewrite land_ffff. cbv zeta.
  destruct (PacketHeader.pack _); reflexivity.
Qed.

Lemma pack_item_out_of_range (n : nat) (z : Z) :
  z < 0 \/ 256 ^ Z.of_nat n <= z -> pack_item (UInt n) (VInt z) = None.
Proof.
  intros Hz. cbn [pack_item].
  destruct (Z.leb_spec 0 z); [|reflexivity].
  destruct (Z.ltb_spec z (256 ^ Z.of_nat n)); [lia|reflexivity].
Qed.

(** X3. For a message type that fits a byte, [build_packet] fails
    (with [struct.error]) exactly when the payload has more than 255
    bytes; the sequence number is used up either way. *)
Theorem build_packet_payload_limit (p : Protocol.t) (msg_type : Z)
    (payload : bytes) :
  0 <= msg_type < 256 ->
  (fst (Protocol.build_packet p msg_type payload) = None <->
   255 < len payload) /\
  Protocol.sequence (snd (Protocol.build_packet p msg_type payload)) =
    (Protocol.sequence p + 1) mod 65536.
Proof.
  intros Ht. split.
  - destruct (Z.lt_ge_cases (len payload) 256) as [Hs | Hl].
    + destruct (build_packet_ok p msg_type payload Ht Hs) as (h & _ & E).
      rewrite E. cbn [fst]. split; [discriminate|lia].
    + split; [lia|]. intros _.
      unfold Protocol.build_packet, Protocol.next_sequence. cbv zeta.
      unfold PacketHeader.pack, PacketHeader.FORMAT, B, H.
      cbn [PacketHeader.magic PacketHeader.version PacketHeader.msg_type
           PacketHeader.device_type PacketHeader.uuid PacketHeader.sequence
           PacketHeader.payload_len pack].
      rewrite (pack_item_out_of_range 1 (len payload))
        by (right; simpl Z.pow; lia).
      repeat match goal with
             | |- context [match pack_item ?f ?v with _ => _ end] =>
                 destruct (pack_item f v)
             end; reflexivity.
  - rewrite build_packet_next. reflexivity.
Qed.

Lemma build_packet_payload_limit_witness :
  (fst (Protocol.build_packet Protocol.init 0x12 (repeat x00 256)) = None <->
   255 < len (repeat x00 256)) /\
  Protocol.sequence
    (snd (Protocol.build_packet Protocol.init 0x12 (repeat x00 256))) =
    (Protocol.sequence Protocol.init + 1) mod 65536.
Proof.
  apply (build_packet_payload_limit Protocol.init 0x12 (repeat x00 256)).
  lia.
Defined.

Lemma build_many_sequence (reqs : list (Z * bytes)) :
  forall p,
    0 <= Protocol.sequence p < 65536 ->
    Protocol.sequence (build_many p reqs) =
      (Protocol.sequence p + len reqs) mod 65536 /\
    Protocol.uuid (build_many p reqs) = Protocol.uuid p.
Proof.
  induction reqs as [|r reqs IH]; intros p Hp.
  - cbn. rewrite Z.add_0_r, Z.mod_small by lia. auto.
  - unfold build_many in *. cbn [fold_left].
    rewrite build_packet_next.
    destruct (IH (Protocol.mk (Protocol.uuid p)
                    ((Protocol.sequence p + 1) mod 65536))) as [E1 E2].
    { cbn. apply Z.mod_pos_bound. lia. }
    rewrite E1, E2. cbn [Protocol.sequence Protocol.uuid].
    split; [|reflexivity].
    unfold len. cbn [length]. rewrite Nat2Z.inj_succ.
    rewrite Zplus_mod_idemp_l. f_equal. lia.
Qed.

(** X2. Every call of [build_packet] takes one sequence number: after
    the calls of [reqs], whatever they carried, the counter stands at the
    first value plus their number, modulo 65536, and the packet built next
    carries that value plus one, modulo 65536. *)
Theorem packet_sequence_numbers (p : Protocol.t) (reqs : list (Z * bytes))
    (msg_type : Z) (payload : bytes) :
  0 <= Protocol.sequence p < 65536 ->
  0 <= msg_type < 256 -> len payload < 256 ->
  Protocol.sequence (build_many p reqs) =
    (Protocol.sequence p + len reqs) mod 65536 /\
  exists packet h,
    fst (Protocol.build_packet (build_many p reqs) msg_type payload) =
      Some packet /\
    Protocol.parse_packet packet = Some (h, payload) /\
    PacketHeader.sequence h = (Protocol.sequence p + len reqs + 1) mod 65536.
Proof.
  intros Hp Ht Hl.
  destruct (build_many_sequence reqs p Hp) as [Es _].
  split; [exact Es|].
  set (q := build_many p reqs) in *.
  pose proof (header_of_packet_in_range msg_type (Protocol.uuid q)
                (Protocol.sequence q + 1) payload Ht Hl) as Hr.
  destruct (header_pack_in_range _ Hr) as [b Hb].
  assert (Lb : len b = 24).
  { apply pack_length in Hb. unfold len. rewrite Hb. reflexivity. }
  exists (b ++ payload). eexists. split; [|split].
  - unfold Protocol.build_packet, Protocol.next_sequence.
    rewrite land_ffff. cbv zeta. unfold PROTOCOL_VERSION.
    rewrite header_pack_pads.
    change (ljust0 2 (firstn 2 [x41; x47])) with [x41; x47].
    rewrite Hb. reflexivity.
  - unfold Protocol.parse_packet. rewrite header_size.
    destruct (Z.ltb_spec (len (b ++ payload)) 24) as [Hlt | _].
    { rewrite len_app in Hlt. pose proof (len_nonneg payload). lia. }
    rewrite (header_unpack_pack _ b payload Hr Hb).
    cbn [PacketHeader.payload_len]. f_equal. f_equal.
    rewrite <- Lb.
    replace (b ++ payload) with (b ++ payload ++ []) by now rewrite app_nil_r.
    apply slice_middle.
  - cbn [PacketHeader.sequence]. rewrite Es.
    rewrite Zplus_mod_idemp_l. reflexivity.
Qed.

Lemma packet_sequence_numbers_witness :
  Protocol.sequence
    (build_many (Protocol.mk (repeat x00 16) 65534)
       [(0x10, []); (0x12, [x00])]) = 0 /\
  exists packet h,
    fst (Protocol.build_packet
           (build_many (Protocol.mk (repeat x00 16) 65534)
              [(0x10, []); (0x12, [x00])]) 0x12 [x01]) = Some packet /\
    Protocol.parse_packet packet = Some (h, [x01]) /\
    PacketHeader.sequence h = 1.
Proof.
  apply (packet_sequence_numbers (Protocol.mk (repeat x00 16) 65534)
           [(0x10, []); (0x12, [x00])] 0x12 [x01]).
  - cbn. lia.
  - lia.
  - vm_compute. reflexivity.
Defined.

(** X4. With fields that fit their widths, [build_ota_announce] fails
    (with [struct.error], the protocol object untouched) when the
    firmware has more than 13 107 000 bytes, its chunk count no longer
    fitting 16 bits; up to that size it gives the 24-byte header followed
    by the 18 bytes of the announce, the chunk count being the size
    divided by 200, rounded up. *)
Theorem announce_chunk_count_limit (p : Protocol.t)
    (target v0 v1 v2 size crc id : Z) :
  0 <= target < 256 -> 0 <= v0 < 256 -> 0 <= v1 < 256 -> 0 <= v2 < 256 ->
  0 <= size < 2 ^ 32 -> 0 <= crc < 2 ^ 32 -> 0 <= id < 2 ^ 32 ->
  (13107000 < size ->
   Protocol.build_ota_announce p target (v0, v1, v2) size crc id = (None, p)) /\
  (size <= 13107000 ->
   exists h,
     length h = 24%nat /\
     Protocol.build_ota_announce p target (v0, v1, v2) size crc id =
       (Some (h ++ le_encode 1 target ++ le_encode 1 v0 ++ le_encode 1 v1 ++
              le_encode 1 v2 ++ le_encode 4 size ++
              le_encode 2 ((size + 199) / 200) ++ le_encode 4 crc ++
              le_encode 4 id),
        Protocol.mk (Protocol.uuid p) ((Protocol.sequence p + 1) mod 65536))).
Proof.
  intros Ht H0 H1 H2 Hs Hc Hi.
  unfold Protocol.build_ota_announce. cbv zeta.
  unfold OtaAnnounce.pack, B, H, I.
  cbn [OtaAnnounce.target_device_type OtaAnnounce.version_major
       OtaAnnounce.version_minor OtaAnnounce.version_patch
       OtaAnnounce.firmware_size OtaAnnounce.total_chunks
       OtaAnnounce.firmware_crc OtaAnnounce.announce_id pack].
  rewrite (pack_item_in_range 1 target), (pack_item_in_range 1 v0),
    (pack_item_in_range 1 v1), (pack_item_in_range 1 v2),
    (pack_item_in_range 4 size), (pack_item_in_range 4 crc),
    (pack_item_in_range 4 id) by (simpl Z.pow; lia).
  split; intros Hsz.
  - rewrite pack_item_out_of_range; [reflexivity|].
    right. change (256 ^ Z.of_nat 2) with 65536.
    apply Z.div_le_lower_bound; lia.
  - rewrite pack_item_in_range.
    2:{ change (256 ^ Z.of_nat 2) with 65536. split.
        - apply Z.div_pos; lia.
        - apply Z.div_lt_upper_bound; lia. }
    match goal with
    | |- context [Protocol.build_packet p ?t ?pl] =>
        destruct (build_packet_ok p t pl) as (h & Lh & E)
    end.
    + unfold MessageType.OTA_ANNOUNCE. lia.
    + unfold len. rewrite !length_app, !le_encode_length. cbn. lia.
    + exists h. split; [exact Lh|].
      rewrite E. unfold Protocol.next_sequence. rewrite land_ffff.
      cbn [snd]. rewrite !app_nil_r. reflexivity.
Qed.

Lemma announce_chunk_count_limit_witness :
  (13107000 < 450 ->
   Protocol.build_ota_announce Protocol.init 1 (1, 2, 0) 450 0 0xDEADBEEF =
     (None, Protocol.init)) /\
  (450 <= 13107000 ->
   exists h,
     length h = 24%nat /\
     Protocol.build_ota_announce Protocol.init 1 (1, 2, 0) 450 0 0xDEADBEEF =
       (Some (h ++ le_encode 1 1 ++ le_encode 1 1 ++ le_encode 1 2 ++
              le_encode 1 0 ++ le_encode 4 450 ++
              le_encode 2 ((450 + 199) / 200) ++ le_encode 4 0 ++
              le_encode 4 0xDEADBEEF),
        Protocol.mk (Protocol.uuid Protocol.init)
          ((Protocol.sequence Protocol.init + 1) mod 65536))).
Proof.
  apply (announce_chunk_count_limit Protocol.init 1 1 2 0 450 0 0xDEADBEEF);
    lia.
Defined.

Lemma parse_packet_sequence_range (data payload : bytes) (h : PacketHeader.t) :
  Protocol.parse_packet data = Some (h, payload) ->
  0 <= PacketHeader.sequence h < 65536.
Proof.
  unfold Protocol.parse_packet, PacketHeader.unpack.
  destruct (_ <? _); [discriminate|].
  destruct (Struct.unpack _ _) as [vs|] eqn:E; [|discriminate].
  apply unpack_items_of in E. subst vs.
  unfold PacketHeader.FORMAT, B, H.
  cbn [unpack_items unpack_item item_size].
  intros [= <- _]. cbn [PacketHeader.sequence].
  apply (le_decode_firstn 2).
Qed.

(** X5. An ACK can be built for every packet that [parse_packet]
    accepted: the sequence number it read fits the 16-bit field, and the
    ACK is the 24-byte header followed by that number, the status and the
    flags. *)
Theorem ack_of_parsed_packet (p : Protocol.t) (data payload : bytes)
    (h : PacketHeader.t) (status flags : Z) :
  Protocol.parse_packet data = Some (h, payload) ->
  0 <= status < 256 -> 0 <= flags < 256 ->
  exists b,
    length b = 24%nat /\
    Protocol.build_ack p (PacketHeader.sequence h) status flags =
      (Some (b ++ le_encode 2 (PacketHeader.sequence h) ++
             le_encode 1 status ++ le_encode 1 flags),
       Protocol.mk (Protocol.uuid p) ((Protocol.sequence p + 1) mod 65536)).
Proof.
  intros Hp Hs Hf.
  pose proof (parse_packet_sequence_range _ _ _ Hp) as Hq.
  unfold Protocol.build_ack, AckPayload.pack, AckPayload.FORMAT, B, H.
  cbn [AckPayload.acked_sequence AckPayload.status AckPayload.flags pack].
  rewrite !pack_item_in_range by (simpl Z.pow; lia).
  match goal with
  | |- context [Protocol.build_packet p ?t ?pl] =>
      destruct (build_packet_ok p t pl) as (b & Lb & E)
  end.
  - unfold MessageType.ACK. lia.
  - unfold len. rewrite !length_app, !le_encode_length. cbn. lia.
  - exists b. split; [exact Lb|].
    rewrite E. unfold Protocol.next_sequence. rewrite land_ffff.
    cbn [snd]. rewrite !app_nil_r. reflexivity.
Qed.

Lemma ack_of_parsed_packet_witness :
  exists b,
    length b = 24%nat /\
    Protocol.build_ack Protocol.init 7 0 1 =
      (Some (b ++ le_encode 2 7 ++ le_encode 1 0 ++ le_encode 1 1),
       Protocol.mk (Protocol.uuid Protocol.init)
         ((Protocol.sequence Protocol.init + 1) mod 65536)).
Proof.
  apply (ack_of_parsed_packet Protocol.init frame_bad_magic_version []
           (PacketHeader.mk [x58; x58] 9 0x13 1 (repeat x00 16) 7 0) 0 1).
  - vm_compute. reflexivity.
  - lia.
  - lia.
Defined.

End PacketBuilding.

(** ** Parsing payloads *)

Section PayloadParsers.
Import Py Struct.

Lemma slice_0_length (data : bytes) (n : Z) :
  0 <= n <= len data -> length (slice data 0 n) = Z.to_nat n.
Proof.
  intros Hn. rewrite slice_length by lia. f_equal. lia.
Qed.

Lemma unpack_prefix (fmt : list item) (data : bytes) :
  Z.of_nat (calcsize fmt) <= len data ->
  Struct.unpack fmt (slice data 0 (Z.of_nat (calcsize fmt))) =
  Some (unpack_items fmt (slice data 0 (Z.of_nat (calcsize fmt)))).
Proof.
  intros Hn. unfold Struct.unpack.
  rewrite slice_0_length by lia. rewrite Nat2Z.id, Nat.eqb_refl. reflexivity.
Qed.

Ltac parser_facts unpack_def format_def size_def :=
  let Hs := fresh "Hs" in
  unfold unpack_def, size_def;
  split;
  [ split;
    [ intros Hn;
      match goal with
      | |- ?n < ?k =>
          destruct (Z.ltb_spec n k) as [Hs | Hs]; [exact Hs | exfalso]
      end;
      rewrite unpack_prefix in Hn by lia;
      unfold format_def, B, H, I in Hn;
      cbn [unpack_items unpack_item item_size] in Hn; discriminate
    | intros Hn;
      match goal with
      | |- context [?a <? ?b] => destruct (Z.ltb_spec a b); [reflexivity | lia]
      end ]
  | intros Hn;
    match goal with
    | |- context [len (?a ++ ?b) <? ?k] =>
        destruct (Z.ltb_spec (len (a ++ b)) k) as [Hs | Hs];
        [ rewrite len_app in Hs; pose proof (len_nonneg b); lia | ];
        destruct (Z.ltb_spec (len a) k); [lia|];
        rewrite (slice_in_prefix a b) by lia; reflexivity
    end ].

(** X6. Each payload parser returns [None] exactly on a payload
    shorter than its format (9, 7, 9, 10 and 15 bytes), and reads nothing
    past it: bytes that follow change nothing. *)
Theorem payload_parsers_read_a_prefix (payload extra : bytes) :
  ((Protocol.parse_ota_request payload = None <-> len payload < 9) /\
   (9 <= len payload ->
    Protocol.parse_ota_request (payload ++ extra) =
    Protocol.parse_ota_request payload)) /\
  ((Protocol.parse_ota_chunk_ack payload = None <-> len payload < 7) /\
   (7 <= len payload ->
    Protocol.parse_ota_chunk_ack (payload ++ extra) =
    Protocol.parse_ota_chunk_ack payload)) /\
  ((Protocol.parse_ota_complete payload = None <-> len payload < 9) /\
   (9 <= len payload ->
    Protocol.parse_ota_complete (payload ++ extra) =
    Protocol.parse_ota_complete payload)) /\
  ((Protocol.parse_ota_status payload = None <-> len payload < 10) /\
   (10 <= len payload ->
    Protocol.parse_ota_status (payload ++ extra) =
    Protocol.parse_ota_status payload)) /\
  ((Protocol.parse_sensor_report payload = None <-> len payload < 15) /\
   (15 <= len payload ->
    Protocol.parse_sensor_report (payload ++ extra) =
    Protocol.parse_sensor_report payload)).
Proof.
  split; [|split; [|split; [|split]]].
  - unfold Protocol.parse_ota_request.
    change 9 with (Z.of_nat (calcsize OtaRequest.FORMAT)).
    parser_facts OtaRequest.unpack OtaRequest.FORMAT OtaRequest.SIZE.
  - unfold Protocol.parse_ota_chunk_ack.
    change 7 with (Z.of_nat (calcsize OtaChunkAck.FORMAT)).
    parser_facts OtaChunkAck.unpack OtaChunkAck.FORMAT OtaChunkAck.SIZE.
  - unfold Protocol.parse_ota_complete.
    change 9 with (Z.of_nat (calcsize OtaComplete.FORMAT)).
    parser_facts OtaComplete.unpack OtaComplete.FORMAT OtaComplete.SIZE.
  - unfold Protocol.parse_ota_status.
    change 10 with (Z.of_nat (calcsize OtaStatus.FORMAT)).
    parser_facts OtaStatus.unpack OtaStatus.FORMAT OtaStatus.SIZE.
  - unfold Protocol.parse_sensor_report.
    change 15 with (Z.of_nat (calcsize SensorReport.FORMAT)).
    parser_facts SensorReport.unpack SensorReport.FORMAT SensorReport.SIZE.
Qed.

End PayloadParsers.

(** ** UUIDs as strings *)

Section UuidStrings.
Import Py.

Lemma str_remove_app (c : ascii) (a b : string) :
  str_remove c (a ++ b)%string = (str_remove c a ++ str_remove c b)%string.
Proof.
  induction a as [|x a IH]; [reflexivity|].
  cbn [String.append str_remove]. destruct (Ascii.eqb x c).
  - exact IH.
  - cbn [String.append]. now rewrite IH.
Qed.

(** The two digits that [hex] writes for a byte, read back. *)
Lemma hex_byte_read (b : byte) :
  let hi := hex_digit (byte_val b / 16) in
  let lo := hex_digit (byte_val b mod 16) in
  Ascii.eqb hi "-" = false /\ Ascii.eqb lo "-" = false /\
  is_space hi = false /\
  match digit_value hi, digit_value lo with
  | Some top, Some bot => byte_of (16 * top + bot) = b
  | _, _ => False
  end.
Proof. destruct b; vm_compute; repeat split; reflexivity. Qed.

Lemma str_remove_hex (u : bytes) : str_remove "-" (hex u) = hex u.
Proof.
  induction u as [|b u IH]; [reflexivity|].
  destruct (hex_byte_read b) as (H1 & H2 & _).
  cbn [hex str_remove]. cbv zeta in H1, H2. rewrite H1, H2, IH. reflexivity.
Qed.

Lemma fromhex_hex (u : bytes) : fromhex (hex u) = Some u.
Proof.
  induction u as [|b u IH]; [reflexivity|].
  destruct (hex_byte_read b) as (_ & _ & H3 & H4).
  cbv zeta in H3, H4. cbn [hex fromhex]. rewrite H3.
  destruct (digit_value (hex_digit (byte_val b / 16))); [|contradiction].
  destruct (digit_value (hex_digit (byte_val b mod 16))); [|contradiction].
  rewrite IH, H4. reflexivity.
Qed.

Lemma hex_length (u : bytes) :
  String.length (hex u) = (2 * length u)%nat.
Proof.
  induction u as [|b u IH]; [reflexivity|].
  cbn [hex String.length length]. rewrite IH. lia.
Qed.

(** X7. [str_to_uuid] gives back the bytes that [uuid_to_str] printed,
    two characters for each; and it reads a string the same with a dash
    put in anywhere. *)
Theorem uuid_string_roundtrip (u : bytes) (s1 s2 : string) :
  Protocol.str_to_uuid (Protocol.uuid_to_str u) = Some u /\
  String.length (Protocol.uuid_to_str u) = (2 * length u)%nat /\
  Protocol.str_to_uuid (s1 ++ "-" ++ s2)%string =
    Protocol.str_to_uuid (s1 ++ s2)%string.
Proof.
  unfold Protocol.str_to_uuid, Protocol.uuid_to_str.
  split; [|split].
  - rewrite str_remove_hex. apply fromhex_hex.
  - apply hex_length.
  - rewrite !str_remove_app. reflexivity.
Qed.

End UuidStrings.

(** ** Messages, one by one *)

Section MessageFacts.
Import Py Struct Ota.

Ltac step_m :=
  try unfold bind; try unfold ret; try unfold raise; try unfold update;
  try unfold the_session; try unfold tracked; try unfold the_device;
  try unfold assign; try unfold acquire; try unfold with_lock;
  try unfold send; try unfold build;
  cbn [final protocol session lock running trace set_protocol set_session
       set_lock set_running emit fst snd devices set_devices set_is_active
       total_chunks announce_id is_active negb].
Ltac steps_m := repeat (progress step_m).

(** The announce id is the first field of every OTA payload. *)
Lemma announce_id_first (payload : bytes) :
  (forall r, Protocol.parse_ota_request payload = Some r ->
             OtaRequest.announce_id r = le_decode (firstn 4 payload)) /\
  (forall a, Protocol.parse_ota_chunk_ack payload = Some a ->
             OtaChunkAck.announce_id a = le_decode (firstn 4 payload)) /\
  (forall c, Protocol.parse_ota_complete payload = Some c ->
             OtaComplete.announce_id c = le_decode (firstn 4 payload)) /\
  (forall t, Protocol.parse_ota_status payload = Some t ->
             OtaStatus.announce_id t = le_decode (firstn 4 payload)).
Proof.
  assert (F : forall n, 4 <= n -> n <= len payload ->
                firstn 4 (slice payload 0 n) = firstn 4 payload).
  { intros n H4 Hn. rewrite slice_inside by lia.
    cbn [Z.to_nat skipn]. rewrite Z.sub_0_r.
    rewrite firstn_firstn. f_equal. lia. }
  repeat split; intros x.
  - unfold Protocol.parse_ota_request, OtaRequest.unpack.
    destruct (Z.ltb_spec (len payload) OtaRequest.SIZE); [discriminate|].
    destruct (Struct.unpack _ _) as [vs|] eqn:E; [|discriminate].
    apply unpack_items_of in E. subst vs.
    unfold OtaRequest.FORMAT, I, B, H.
    cbn [unpack_items unpack_item item_size].
    intros [= <-]. cbn [OtaRequest.announce_id]. f_equal.
    apply F; [vm_compute; discriminate | assumption].
  - unfold Protocol.parse_ota_chunk_ack, OtaChunkAck.unpack.
    destruct (Z.ltb_spec (len payload) OtaChunkAck.SIZE); [discriminate|].
    destruct (Struct.unpack _ _) as [vs|] eqn:E; [|discriminate].
    apply unpack_items_of in E. subst vs.
    unfold OtaChunkAck.FORMAT, I, B, H.
    cbn [unpack_items unpack_item item_size].
    intros [= <-]. cbn [OtaChunkAck.announce_id]. f_equal.
    apply F; [vm_compute; discriminate | assumption].
  - unfold Protocol.parse_ota_complete, OtaComplete.unpack.
    destruct (Z.ltb_spec (len payload) OtaComplete.SIZE); [discriminate|].
    destruct (Struct.unpack _ _) as [vs|] eqn:E; [|discriminate].
    apply unpack_items_of in E. subst vs.
    unfold OtaComplete.FORMAT, I, B, H.
    cbn [unpack_items unpack_item item_size].
    intros [= <-]. cbn [OtaComplete.announce_id]. f_equal.
    apply F; [vm_compute; discriminate | assumption].
  - unfold Protocol.parse_ota_status, OtaStatus.unpack.
    destruct (Z.ltb_spec (len payload) OtaStatus.SIZE); [discriminate|].
    destruct (Struct.unpack _ _) as [vs|] eqn:E; [|discriminate].
    apply unpack_items_of in E. subst vs.
    unfold OtaStatus.FORMAT, I, B, H.
    cbn [unpack_items unpack_item item_size].
    intros [= <-]. cbn [OtaStatus.announce_id]. f_equal.
    apply F; [vm_compute; discriminate | assumption].
Qed.

(** Every handler gives up, touching nothing, on a payload that is too
    short or that names another announce id. *)
Lemma handlers_check_announce_id (now : time) (u : string) (uuid : bytes)
    (payload : bytes) (m : OtaManager) (s : OtaSession) :
  session m = Some s ->
  le_decode (firstn 4 payload) <> announce_id s ->
  _handle_request now u uuid payload m = Returned false m /\
  _handle_chunk_ack now u payload m = Returned false m /\
  _handle_chunk_nack now u payload m = Returned false m /\
  _handle_complete now u payload m = Returned false m /\
  _handle_status now u payload m = Returned false m.
Proof.
  intros Hs Hne.
  destruct (announce_id_first payload) as (F1 & F2 & F3 & F4).
  repeat split.
  - unfold _handle_request.
    destruct (Protocol.parse_ota_request payload) as [r|] eqn:E;
      [|reflexivity].
    steps_m. rewrite Hs. rewrite (F1 r eq_refl).
    destruct (Z.eqb_spec (le_decode (firstn 4 payload)) (announce_id s));
      [contradiction|reflexivity].
  - unfold _handle_chunk_ack.
    destruct (Protocol.parse_ota_chunk_ack payload) as [r|] eqn:E;
      [|reflexivity].
    steps_m. rewrite Hs. rewrite (F2 r eq_refl).
    destruct (Z.eqb_spec (le_decode (firstn 4 payload)) (announce_id s));
      [contradiction|reflexivity].
  - unfold _handle_chunk_nack.
    destruct (Protocol.parse_ota_chunk_ack payload) as [r|] eqn:E;
      [|reflexivity].
    steps_m. rewrite Hs. rewrite (F2 r eq_refl).
    destruct (Z.eqb_spec (le_decode (firstn 4 payload)) (announce_id s));
      [contradiction|reflexivity].
  - unfold _handle_complete.
    destruct (Protocol.parse_ota_complete payload) as [r|] eqn:E;
      [|reflexivity].
    steps_m. rewrite Hs. rewrite (F3 r eq_refl).
    destruct (Z.eqb_spec (le_decode (firstn 4 payload)) (announce_id s));
      [contradiction|reflexivity].
  - unfold _handle_status.
    destruct (Protocol.parse_ota_status payload) as [r|] eqn:E;
      [|reflexivity].
    steps_m. rewrite Hs. rewrite (F4 r eq_refl).
    destruct (Z.eqb_spec (le_decode (firstn 4 payload)) (announce_id s));
      [contradiction|reflexivity].
Qed.

(** X8. [handle_message] returns [False] and leaves the manager as it
    is when there is no active session, when the message type is none of
    OTA_REQUEST, OTA_CHUNK_ACK, OTA_CHUNK_NACK, OTA_COMPLETE, OTA_STATUS,
    when the payload has fewer than 7 bytes, and when its first four
    bytes are not the announce id of the session. *)
Theorem foreign_messages_are_ignored (now : time) (header : PacketHeader.t)
    (payload : bytes) (m : OtaManager) :
  (session_active m = false ->
   handle_message now header payload m = Returned false m) /\
  (~ In (PacketHeader.msg_type header) [0x11; 0x13; 0x14; 0x15; 0x17] ->
   handle_message now header payload m = Returned false m) /\
  (len payload < 7 ->
   handle_message now header payload m = Returned false m) /\
  (forall s, session m = Some s ->
   le_decode (firstn 4 payload) <> announce_id s ->
   handle_message now header payload m = Returned false m).
Proof.
  assert (A : forall s, session m = Some s ->
            le_decode (firstn 4 payload) <> announce_id s ->
            handle_message now header payload m = Returned false m).
  { intros s Hs Hne. unfold handle_message. rewrite Hs.
    destruct (is_active s); [|reflexivity]. cbn [negb]. cbv zeta.
    destruct (handlers_check_announce_id now
                (Protocol.uuid_to_str (PacketHeader.uuid header))
                (PacketHeader.uuid header) payload m s Hs Hne)
      as (E1 & E2 & E3 & E4 & E5).
    rewrite E1, E2, E3, E4, E5.
    repeat match goal with |- context [if ?c then _ else _] => destruct c end;
      reflexivity. }
  split; [|split; [|split]].
  - unfold session_active, handle_message.
    destruct (session m) as [s|]; [|reflexivity].
    intros ->. reflexivity.
  - intros Hn. unfold handle_message.
    destruct (session m) as [s|]; [|reflexivity].
    destruct (is_active s); [|reflexivity]. cbn [negb]. cbv zeta.
    unfold MessageType.OTA_REQUEST, MessageType.OTA_CHUNK_ACK,
      MessageType.OTA_CHUNK_NACK, MessageType.OTA_COMPLETE,
      MessageType.OTA_STATUS.
    repeat match goal with
           | |- context [?a =? ?b] =>
               let E := fresh "E" in
               destruct (Z.eqb_spec a b) as [E | E];
               [exfalso; apply Hn; rewrite E; cbn; tauto|]
           end.
    reflexivity.
  - intros Hshort. unfold handle_message.
    destruct (session m) as [s|] eqn:Hs; [|reflexivity].
    destruct (is_active s); [|reflexivity]. cbn [negb]. cbv zeta.
    unfold _handle_request, _handle_chunk_ack, _handle_chunk_nack,
      _handle_complete, _handle_status.
    unfold Protocol.parse_ota_request, Protocol.parse_ota_chunk_ack,
      Protocol.parse_ota_complete, Protocol.parse_ota_status.
    change OtaRequest.SIZE with 9. change OtaChunkAck.SIZE with 7.
    change OtaComplete.SIZE with 9. change OtaStatus.SIZE with 10.
    destruct (Z.ltb_spec (len payload) 9); [|lia].
    destruct (Z.ltb_spec (len payload) 7); [|lia].
    destruct (Z.ltb_spec (len payload) 10); [|lia].
    unfold ret.
    repeat match goal with |- context [if ?c then _ else _] => destruct c end;
      reflexivity.
  - exact A.
Qed.

Lemma unlock_lock (m : OtaManager) :
  lock m = false -> set_lock false (set_lock true m) = m.
Proof. destruct m as [p ss l r t]. cbn. now intros ->. Qed.

(** X9. Only an OTA_REQUEST makes a device known: an ACK, a NACK, a
    completion report or a status from a device that has no record is
    answered [False], and the manager is left as it is. *)
Theorem untracked_devices_are_ignored (now : time) (header : PacketHeader.t)
    (payload : bytes) (m : OtaManager) (s : OtaSession) :
  session m = Some s -> is_active s = true -> lock m = false ->
  dict_get (Protocol.uuid_to_str (PacketHeader.uuid header)) (devices s)
    = None ->
  In (PacketHeader.msg_type header) [0x13; 0x14; 0x15; 0x17] ->
  handle_message now header payload m = Returned false m.
Proof.
  intros Hs Ha Hl Hd Ht.
  rewrite (handle_message_active _ _ _ _ _ Hs Ha). cbv zeta.
  set (u := Protocol.uuid_to_str (PacketHeader.uuid header)) in *.
  cbn [In] in Ht.
  unfold MessageType.OTA_REQUEST, MessageType.OTA_CHUNK_ACK,
    MessageType.OTA_CHUNK_NACK, MessageType.OTA_COMPLETE,
    MessageType.OTA_STATUS.
  destruct Ht as [E | [E | [E | [E | []]]]]; rewrite <- E;
    cbn [Z.eqb Pos.eqb].
  - unfold _handle_chunk_ack.
    destruct (Protocol.parse_ota_chunk_ack payload) as [a|]; [|reflexivity].
    steps_m. rewrite Hs.
    destruct (_ =? _); [|reflexivity]. steps_m.
    rewrite Hl. steps_m. rewrite Hs. unfold dict_mem. rewrite Hd. steps_m.
    f_equal. now apply unlock_lock.
  - unfold _handle_chunk_nack.
    destruct (Protocol.parse_ota_chunk_ack payload) as [a|]; [|reflexivity].
    steps_m. rewrite Hs.
    destruct (_ =? _); [|reflexivity]. steps_m.
    rewrite Hl. steps_m. rewrite Hs. unfold dict_mem. rewrite Hd. steps_m.
    f_equal. now apply unlock_lock.
  - unfold _handle_complete.
    destruct (Protocol.parse_ota_complete payload) as [a|]; [|reflexivity].
    steps_m. rewrite Hs.
    destruct (_ =? _); [|reflexivity]. steps_m.
    rewrite Hl. steps_m. rewrite Hs. unfold dict_mem. rewrite Hd. steps_m.
    f_equal. now apply unlock_lock.
  - unfold _handle_status.
    destruct (Protocol.parse_ota_status payload) as [a|]; [|reflexivity].
    steps_m. rewrite Hs.
    destruct (_ =? _); [|reflexivity]. steps_m.
    rewrite Hl. steps_m. rewrite Hs. unfold dict_mem. rewrite Hd. steps_m.
    f_equal. now apply unlock_lock.
Qed.

Lemma untracked_devices_are_ignored_witness :
  handle_message 1001
    (device_header MessageType.OTA_CHUNK_ACK (ack_payload 0xDEADBEEF 0 0))
    (ack_payload 0xDEADBEEF 0 0) started_manager =
  Returned false started_manager.
Proof.
  apply (untracked_devices_are_ignored 1001
           (device_header MessageType.OTA_CHUNK_ACK
              (ack_payload 0xDEADBEEF 0 0))
           (ack_payload 0xDEADBEEF 0 0) started_manager started_session).
  - vm_compute. reflexivity.
  - vm_compute. reflexivity.
  - vm_compute. reflexivity.
  - vm_compute. reflexivity.
  - cbn. tauto.
Defined.

(** X13. An OTA_STATUS message from a known device only sets the time
    of its last activity: what the device reports in it is not used. *)
Theorem status_only_refreshes_activity (now : time) (header : PacketHeader.t)
    (payload : bytes) (m : OtaManager) (s : OtaSession) (d : DeviceOtaInfo)
    (st : OtaStatus.t) :
  session m = Some s -> is_active s = true -> lock m = false ->
  PacketHeader.msg_type header = MessageType.OTA_STATUS ->
  dict_get (Protocol.uuid_to_str (PacketHeader.uuid header)) (devices s)
    = Some d ->
  Protocol.parse_ota_status payload = Some st ->
  OtaStatus.announce_id st = announce_id s ->
  handle_message now header payload m =
    Returned true
      (set_session
         (Some (set_devices
                  (dict_set (Protocol.uuid_to_str (PacketHeader.uuid header))
                     (set_last_activity now d) (devices s)) s)) m).
Proof.
  intros Hs Ha Hl Ht Hd Hp Hid.
  rewrite (handle_message_active _ _ _ _ _ Hs Ha). cbv zeta.
  rewrite Ht. unfold MessageType.OTA_REQUEST, MessageType.OTA_CHUNK_ACK,
    MessageType.OTA_CHUNK_NACK, MessageType.OTA_COMPLETE,
    MessageType.OTA_STATUS. cbn [Z.eqb Pos.eqb].
  unfold _handle_status. rewrite Hp.
  destruct m as [p ss l r t]. cbn in Hs, Hl. subst ss l.
  steps_m. rewrite Hid, Z.eqb_refl. steps_m.
  unfold dict_mem. rewrite Hd. steps_m. rewrite Hd. reflexivity.
Qed.

Lemma status_only_refreshes_activity_witness :
  handle_message 1002
    (device_header MessageType.OTA_STATUS (status_payload 0xDEADBEEF 3 3 2 9))
    (status_payload 0xDEADBEEF 3 3 2 9) (manager after_request) =
  Returned true
    (set_session
       (Some (set_devices
                (dict_set device_key (set_last_activity 1002 requested_device)
                   (devices requested_session)) requested_session))
       (manager after_request)).
Proof.
  apply (status_only_refreshes_activity 1002
           (device_header MessageType.OTA_STATUS
              (status_payload 0xDEADBEEF 3 3 2 9))
           (status_payload 0xDEADBEEF 3 3 2 9) (manager after_request)
           requested_session requested_device
           (OtaStatus.mk 0xDEADBEEF 3 3 2 9)).
  - vm_compute. reflexivity.
  - vm_compute. reflexivity.
  - vm_compute. reflexivity.
  - reflexivity.
  - vm_compute. reflexivity.
  - vm_compute. reflexivity.
  - reflexivity.
Defined.

(** While the lock is held no handler gets to the session: a message is
    turned away before the lock, or its handler waits on the lock. *)
Lemma held_lock_stops_messages (now : time) (header : PacketHeader.t)
    (payload : bytes) (m : OtaManager) :
  lock m = true ->
  handle_message now header payload m = Returned false m \/
  handle_message now header payload m = Blocked m.
Proof.
  intros Hl. unfold handle_message.
  destruct (session m) as [s|] eqn:Hs; [|now left].
  destruct (is_active s); [|now left]. cbn [negb]. cbv zeta.
  destruct (_ =? _).
  { unfold _handle_request.
    destruct (Protocol.parse_ota_request payload); [|now left].
    steps_m. rewrite Hs. destruct (_ =? _); [|now left].
    steps_m. rewrite Hl. now right. }
  destruct (_ =? _).
  { unfold _handle_chunk_ack.
    destruct (Protocol.parse_ota_chunk_ack payload); [|now left].
    steps_m. rewrite Hs. destruct (_ =? _); [|now left].
    steps_m. rewrite Hl. now right. }
  destruct (_ =? _).
  { unfold _handle_chunk_nack.
    destruct (Protocol.parse_ota_chunk_ack payload); [|now left].
    steps_m. rewrite Hs. destruct (_ =? _); [|now left].
    steps_m. rewrite Hl. now right. }
  destruct (_ =? _).
  { unfold _handle_complete.
    destruct (Protocol.parse_ota_complete payload); [|now left].
    steps_m. rewrite Hs. destruct (_ =? _); [|now left].
    steps_m. rewrite Hl. now right. }
  destruct (_ =? _); [|now left].
  unfold _handle_status.
  destruct (Protocol.parse_ota_status payload); [|now left].
  steps_m. rewrite Hs. destruct (_ =? _); [|now left].
  steps_m. rewrite Hl. now right.
Qed.

(** While the lock is held the announce loop does not finish a turn. *)
Lemma held_lock_stops_announce_loop (now : time) (m m' : OtaManager) :
  lock m = true -> _announce_loop_turn now m <> Returned true m'.
Proof.
  intros Hl. unfold _announce_loop_turn.
  destruct (running m && session_active m) eqn:C; [|discriminate].
  unfold session_active in C.
  destruct (session m) as [s|] eqn:Hs;
    [|now rewrite andb_false_r in C].
  unfold bind at 1. unfold _send_announce. rewrite Hs.
  unfold bind, build. cbn beta.
  match goal with
  | |- context [Protocol.build_ota_announce ?a ?b ?c ?d ?e ?f] =>
      destruct (Protocol.build_ota_announce a b c d e f) as [[packet|] p']
  end; [|discriminate].
  steps_m. unfold _process_pending_chunks. steps_m.
  rewrite Hs. steps_m. rewrite Hl. discriminate.
Qed.

(** X11. An ACK with status 0 for a chunk that is not the last one
    never returns: the next chunk is handed to the radio from inside the
    lock, and [_send_chunk] then waits for that same lock.  The lock
    stays held; from then on no message is handled (each is turned away
    or waits), and the announce loop does not finish another turn. *)
Theorem chunk_ack_blocks_the_leader (now : time) (header : PacketHeader.t)
    (payload : bytes) (m : OtaManager) (s : OtaSession) (d : DeviceOtaInfo)
    (ack : OtaChunkAck.t) :
  session m = Some s -> is_active s = true -> lock m = false ->
  session_ok s -> total_chunks s <= 65536 ->
  PacketHeader.msg_type header = MessageType.OTA_CHUNK_ACK ->
  dict_get (Protocol.uuid_to_str (PacketHeader.uuid header)) (devices s)
    = Some d ->
  Protocol.parse_ota_chunk_ack payload = Some ack ->
  OtaChunkAck.announce_id ack = announce_id s ->
  OtaChunkAck.status ack = 0 ->
  OtaChunkAck.chunk_index ack + 1 < total_chunks s ->
  exists m',
    handle_message now header payload m = Blocked m' /\
    lock m' = true /\
    (exists h,
       length h = 34%nat /\
       trace m' =
         trace m ++
         [OnProgress (Protocol.uuid_to_str (PacketHeader.uuid header))
            (OtaChunkAck.chunk_index ack + 1) (total_chunks s);
          Send (h ++ chunk_data s (OtaChunkAck.chunk_index ack + 1))]) /\
    (forall now' header' payload',
       handle_message now' header' payload' m' = Returned false m' \/
       handle_message now' header' payload' m' = Blocked m') /\
    (forall now' m'', _announce_loop_turn now' m' <> Returned true m'').
Proof.
  intros Hs Ha Hl Hok Htc Ht Hd Hp Hid Hst Hnext.
  rewrite (handle_message_active _ _ _ _ _ Hs Ha). cbv zeta.
  rewrite Ht. unfold MessageType.OTA_REQUEST, MessageType.OTA_CHUNK_ACK.
  cbn [Z.eqb Pos.eqb].
  set (u := Protocol.uuid_to_str (PacketHeader.uuid header)) in *.
  set (i := OtaChunkAck.chunk_index ack) in *.
  rewrite (handle_chunk_ack_ok now u payload m s d ack Hs Hl Hd Hp Hid Hst).
  cbv zeta. fold i.
  destruct (Z.ltb_spec (i + 1) (total_chunks s)) as [_ | Hge]; [|lia].
  destruct (parse_ota_chunk_ack_range _ _ Hp) as [Hidr Hir]. fold i in Hir.
  set (d' := set_retry_count 0 (set_last_activity now (set_state RECEIVING
               (set_last_chunk_acked i d)))).
  set (s' := set_devices (dict_set u d' (devices s)) s).
  set (m1 := mkManager (protocol m) (Some s') true (running m)
               (trace m ++ [OnProgress u (i + 1) (total_chunks s)])).
  assert (Hok' : session_ok s') by exact Hok.
  destruct (build_ota_chunk_ok (protocol m1) (announce_id s') (i + 1)
              (chunk_data s' (i + 1))) as (h & Lh & Eb).
  { unfold s'. cbn [announce_id set_devices]. rewrite <- Hid. exact Hidr. }
  { lia. }
  { apply chunk_data_short; [exact Hok'|]. unfold s'.
    cbn [total_chunks set_devices]. lia. }
  rewrite (send_chunk_built u (i + 1) m1 s' _ _ eq_refl Hnext Eb).
  cbn [lock m1].
  eexists. split; [reflexivity|]. cbn [lock trace].
  split; [reflexivity|]. split; [|split].
  - exists h. split; [exact Lh|]. unfold m1. cbn [trace].
    rewrite <- app_assoc. reflexivity.
  - intros. now apply held_lock_stops_messages.
  - intros. now apply held_lock_stops_announce_loop.
Qed.

Lemma chunk_ack_blocks_the_leader_witness :
  exists m',
    handle_message 1002
      (device_header MessageType.OTA_CHUNK_ACK (ack_payload 0xDEADBEEF 0 0))
      (ack_payload 0xDEADBEEF 0 0) (manager after_request) = Blocked m' /\
    lock m' = true /\
    (forall now' header' payload',
       handle_message now' header' payload' m' = Returned false m' \/
       handle_message now' header' payload' m' = Blocked m') /\
    (forall now' m'', _announce_loop_turn now' m' <> Returned true m'').
Proof.
  destruct (chunk_ack_blocks_the_leader 1002
              (device_header MessageType.OTA_CHUNK_ACK
                 (ack_payload 0xDEADBEEF 0 0))
              (ack_payload 0xDEADBEEF 0 0) (manager after_request)
              requested_session requested_device
              (OtaChunkAck.mk 0xDEADBEEF 0 0))
    as (m' & E & Hl & _ & Hm & Ht).
  - vm_compute. reflexivity.
  - vm_compute. reflexivity.
  - vm_compute. reflexivity.
  - split; vm_compute; reflexivity.
  - vm_compute. discriminate.
  - reflexivity.
  - vm_compute. reflexivity.
  - vm_compute. reflexivity.
  - reflexivity.
  - reflexivity.
  - vm_compute. reflexivity.
  - exists m'. split; [exact E|]. split; [exact Hl|]. split; [exact Hm|].
    exact Ht.
Defined.

Ltac flat_state :=
  cbv [emit set_session set_lock set_devices protocol session lock running
       trace announce_id target_device_type firmware_path firmware_data
       firmware_size firmware_crc version total_chunks devices start_time
       is_active].

(** What [_handle_request] leaves behind when it gets to the lock: the
    record of the device, made new if there was none, and then the first
    chunk sent outside the lock. *)
Lemma handle_request_ok (now : time) (u : string) (uuid payload : bytes)
    (m : OtaManager) (s : OtaSession) (req : OtaRequest.t) :
  session m = Some s -> lock m = false ->
  Protocol.parse_ota_request payload = Some req ->
  OtaRequest.announce_id req = announce_id s ->
  let start :=
    if OtaRequest.last_chunk_received req =? 0xFFFF then 0
    else OtaRequest.last_chunk_received req + 1 in
  let d0 :=
    match dict_get u (devices s) with
    | Some d => d
    | None => new_device uuid
    end in
  let d1 :=
    set_last_chunk_acked (start - 1)
      (set_last_activity now
         (set_state REQUESTED
            (set_current_version
               (OtaRequest.current_version_major req,
                OtaRequest.current_version_minor req,
                OtaRequest.current_version_patch req) d0))) in
  _handle_request now u uuid payload m =
  match
    _send_chunk u start
      (mkManager (protocol m)
         (Some (set_devices (dict_set u d1 (devices s)) s))
         false (running m) (trace m))
  with
  | Returned _ m2 => Returned true m2
  | Raised e m2 => Raised e m2
  | Blocked m2 => Blocked m2
  end.
Proof.
  intros Hs Hl Hp Ha. cbv zeta.
  unfold _handle_request. rewrite Hp.
  destruct m as [p ss l r t]. cbn in Hs, Hl. subst ss l.
  destruct s as [aid tdt fp fd fsz fcrc ver tc dv st act].
  cbn [announce_id devices total_chunks] in *.
  steps_m. rewrite Ha, Z.eqb_refl. steps_m. unfold dict_mem.
  destruct (dict_get u dv) as [d|] eqn:Hd.
  - repeat (progress (steps_m; rewrite ?Hd, ?dict_get_set_same)).
    rewrite !dict_set_set. flat_state.
    destruct (_send_chunk _ _ _); reflexivity.
  - repeat (progress (steps_m; rewrite ?Hd, ?dict_get_set_same)).
    rewrite !dict_set_set. flat_state.
    destruct (_send_chunk _ _ _); reflexivity.
Qed.

(** X10. An OTA_REQUEST with the announce id of the session puts the
    device in state REQUESTED with the version it reported, the time, and
    the chunk before its starting chunk as acknowledged (the starting
    chunk is 0 for 0xFFFF, and the chunk after the last one received
    otherwise).  A record that was there keeps its retry count and its
    error message.  The starting chunk is sent and noted as sent when it
    is below the chunk count; nothing is sent otherwise. *)
Theorem request_registers_the_device (now : time) (header : PacketHeader.t)
    (payload : bytes) (m : OtaManager) (s : OtaSession) (req : OtaRequest.t) :
  session m = Some s -> is_active s = true -> lock m = false ->
  session_ok s ->
  PacketHeader.msg_type header = MessageType.OTA_REQUEST ->
  Protocol.parse_ota_request payload = Some req ->
  OtaRequest.announce_id req = announce_id s ->
  let u := Protocol.uuid_to_str (PacketHeader.uuid header) in
  let start :=
    if OtaRequest.last_chunk_received req =? 0xFFFF then 0
    else OtaRequest.last_chunk_received req + 1 in
  let d0 :=
    match dict_get u (devices s) with
    | Some d => d
    | None => new_device (PacketHeader.uuid header)
    end in
  exists d' m',
    handle_message now header payload m = Returned true m' /\
    session m' = Some (set_devices (dict_set u d' (devices s)) s) /\
    lock m' = false /\
    state d' = REQUESTED /\
    current_version d' =
      (OtaRequest.current_version_major req,
       OtaRequest.current_version_minor req,
       OtaRequest.current_version_patch req) /\
    last_chunk_acked d' = start - 1 /\
    last_activity d' = now /\
    retry_count d' = retry_count d0 /\
    error_message d' = error_message d0 /\
    (start < total_chunks s ->
     last_chunk_sent d' = start /\
     exists h,
       length h = 34%nat /\
       trace m' = trace m ++ [Send (h ++ chunk_data s start)]) /\
    (total_chunks s <= start ->
     last_chunk_sent d' = last_chunk_sent d0 /\ trace m' = trace m).
Proof.
  intros Hs Ha Hl Hok Ht Hp Hid u start d0.
  rewrite (handle_message_active _ _ _ _ _ Hs Ha). cbv zeta.
  rewrite Ht. unfold MessageType.OTA_REQUEST. cbn [Z.eqb Pos.eqb].
  fold u.
  rewrite (handle_request_ok now u _ payload m s req Hs Hl Hp Hid).
  cbv zeta. fold start. fold d0.
  destruct (parse_ota_request_range _ _ Hp) as [Hidr Hlr].
  assert (Hstart : 0 <= start < 65536).
  { unfold start. destruct (Z.eqb_spec (OtaRequest.last_chunk_received req)
                              0xFFFF); lia. }
  set (d1 := set_last_chunk_acked (start - 1) (set_last_activity now
               (set_state REQUESTED (set_current_version
                  (OtaRequest.current_version_major req,
                   OtaRequest.current_version_minor req,
                   OtaRequest.current_version_patch req) d0)))).
  set (s1 := set_devices (dict_set u d1 (devices s)) s).
  set (m1 := mkManager (protocol m) (Some s1) false (running m) (trace m)).
  destruct (Z.lt_ge_cases start (total_chunks s)) as [Hlt | Hge].
  - destruct (build_ota_chunk_ok (protocol m1) (announce_id s1) start
                (chunk_data s1 start)) as (h & Lh & Eb).
    { unfold s1. cbn [announce_id set_devices]. rewrite <- Hid. exact Hidr. }
    { exact Hstart. }
    { apply chunk_data_short; [exact Hok|].
      unfold s1. cbn [total_chunks set_devices]. lia. }
    rewrite (send_chunk_built u start m1 s1 _ _ eq_refl Hlt Eb).
    cbn [lock m1].
    exists (set_last_chunk_sent start d1). eexists.
    split; [reflexivity|]. cbn [session lock trace].
    split.
    { unfold mark_sent, s1. cbn [devices set_devices].
      rewrite dict_get_set_same. rewrite dict_set_set. reflexivity. }
    repeat split; try reflexivity; try lia.
    exists h. split; [exact Lh | reflexivity].
  - rewrite (send_chunk_out_of_range u start m1 s1 eq_refl Hge).
    exists d1, m1. split; [reflexivity|].
    repeat split; try reflexivity; try lia.
Qed.

Lemma request_registers_the_device_witness :
  exists d' m',
    handle_message 1001
      (device_header MessageType.OTA_REQUEST
         (request_payload 0xDEADBEEF 0xFFFF))
      (request_payload 0xDEADBEEF 0xFFFF) started_manager
      = Returned true m' /\
    session m' =
      Some (set_devices (dict_set device_key d' (devices started_session))
              started_session) /\
    state d' = REQUESTED /\ current_version d' = (1, 1, 0) /\
    last_chunk_acked d' = -1 /\ last_chunk_sent d' = 0 /\
    exists h,
      length h = 34%nat /\
      trace m' =
        trace started_manager ++ [Send (h ++ chunk_data started_session 0)].
Proof.
  destruct (request_registers_the_device 1001
              (device_header MessageType.OTA_REQUEST
                 (request_payload 0xDEADBEEF 0xFFFF))
              (request_payload 0xDEADBEEF 0xFFFF) started_manager
              started_session (OtaRequest.mk 0xDEADBEEF 1 1 0 0xFFFF))
    as (d' & m' & E & Hs & _ & Hst & Hv & Ha & _ & _ & _ & Hsent & _).
  - vm_compute. reflexivity.
  - vm_compute. reflexivity.
  - vm_compute. reflexivity.
  - split; vm_compute; reflexivity.
  - reflexivity.
  - vm_compute. reflexivity.
  - vm_compute. reflexivity.
  - destruct Hsent as [Hls Htr]; [vm_compute; reflexivity|].
    exists d', m'.
    split; [exact E|]. split; [exact Hs|]. split; [exact Hst|].
    split; [exact Hv|]. split; [exact Ha|]. split; [exact Hls|].
    exact Htr.
Defined.

Lemma state_eqb_eq (a b : DeviceOtaState) : state_eqb a b = true <-> a = b.
Proof. destruct a, b; cbn; split; intros; congruence. Qed.

Lemma terminal_counts (l : list DeviceOtaInfo) :
  forallb (fun d => state_eqb (state d) COMPLETE || state_eqb (state d) ERROR)
    l = true ->
  len (filter (fun d => state_eqb (state d) COMPLETE) l) +
  len (filter (fun d => state_eqb (state d) ERROR) l) = len l.
Proof.
  induction l as [|d l IH]; [reflexivity|].
  cbn [forallb filter]. intros H. apply andb_true_iff in H.
  destruct H as [Hd Hl]. specialize (IH Hl).
  unfold len in *.
  destruct (state d); cbn in Hd; try discriminate; cbn [state_eqb length];
    lia.
Qed.

Lemma check_session_complete_run (m : OtaManager) (s : OtaSession) :
  session m = Some s ->
  _check_session_complete m =
  Returned tt
    (if all_devices_done s then
       mkManager (protocol m) (Some (set_is_active false s)) (lock m) false
         (trace m ++ [OnSessionComplete (devices_in_state COMPLETE s)
                        (devices_in_state ERROR s)])
     else m).
Proof.
  intros Hs. unfold _check_session_complete. rewrite Hs. cbv zeta.
  unfold all_devices_done.
  destruct (forallb _ _ && _); [|reflexivity].
  destruct m as [p ss l r t]. reflexivity.
Qed.

Lemma handle_complete_ok (now : time) (u : string) (payload : bytes)
    (m : OtaManager) (s : OtaSession) (d : DeviceOtaInfo)
    (c : OtaComplete.t) :
  session m = Some s -> lock m = false ->
  dict_get u (devices s) = Some d ->
  Protocol.parse_ota_complete payload = Some c ->
  OtaComplete.announce_id c = announce_id s ->
  let d' :=
    if OtaComplete.status c =? 0 then
      set_state COMPLETE (set_last_activity now d)
    else
      set_error_message "CRC mismatch"
        (set_state ERROR (set_last_activity now d)) in
  let called :=
    if OtaComplete.status c =? 0 then [OnDeviceComplete u] else [] in
  _handle_complete now u payload m =
  match
    _check_session_complete
      (mkManager (protocol m)
         (Some (set_devices (dict_set u d' (devices s)) s))
         true (running m) (trace m ++ called))
  with
  | Returned _ m2 => Returned true (set_lock false m2)
  | Raised e m2 => Raised e (set_lock false m2)
  | Blocked m2 => Blocked m2
  end.
Proof.
  intros Hs Hl Hd Hp Ha. cbv zeta.
  unfold _handle_complete. rewrite Hp.
  destruct m as [p ss l r t]. cbn in Hs, Hl. subst ss l.
  destruct s as [aid tdt fp fd fsz fcrc ver tc dv st act].
  cbn [announce_id devices total_chunks] in *.
  steps_m. rewrite Ha, Z.eqb_refl. steps_m. unfold dict_mem. rewrite Hd.
  destruct (OtaComplete.status c =? 0).
  - repeat (progress (steps_m; rewrite ?Hd, ?dict_get_set_same)).
    rewrite !dict_set_set. flat_state.
    destruct (_check_session_complete _); reflexivity.
  - repeat (progress (steps_m; rewrite ?Hd, ?dict_get_set_same)).
    rewrite !dict_set_set. flat_state. rewrite app_nil_r.
    destruct (_check_session_complete _); reflexivity.
Qed.

(** X12. A completion report from a known device marks it COMPLETE
    (status 0, with the device callback) or ERROR with the message
    "CRC mismatch".  If every device is then COMPLETE or ERROR the
    session callback is called with the two counts, which add up to the
    number of devices, and the session is no longer active nor running;
    otherwise the session goes on. *)
Theorem complete_report_ends_the_session (now : time)
    (header : PacketHeader.t) (payload : bytes) (m : OtaManager)
    (s : OtaSession) (d : DeviceOtaInfo) (c : OtaComplete.t) :
  session m = Some s -> is_active s = true -> lock m = false ->
  PacketHeader.msg_type header = MessageType.OTA_COMPLETE ->
  dict_get (Protocol.uuid_to_str (PacketHeader.uuid header)) (devices s)
    = Some d ->
  Protocol.parse_ota_complete payload = Some c ->
  OtaComplete.announce_id c = announce_id s ->
  let u := Protocol.uuid_to_str (PacketHeader.uuid header) in
  let d' :=
    if OtaComplete.status c =? 0 then
      set_state COMPLETE (set_last_activity now d)
    else
      set_error_message "CRC mismatch"
        (set_state ERROR (set_last_activity now d)) in
  let s' := set_devices (dict_set u d' (devices s)) s in
  let done := all_devices_done s' in
  exists m',
    handle_message now header payload m = Returned true m' /\
    session m' = Some (set_is_active (negb done) s') /\
    running m' = running m && negb done /\
    lock m' = false /\
    trace m' =
      trace m ++
      (if OtaComplete.status c =? 0 then [OnDeviceComplete u] else []) ++
      (if done then
         [OnSessionComplete (devices_in_state COMPLETE s')
            (devices_in_state ERROR s')]
       else []) /\
    (done = true ->
     devices_in_state COMPLETE s' + devices_in_state ERROR s' =
       len (devices s')).
Proof.
  intros Hs Ha Hl Ht Hd Hp Hid u d' s' done.
  rewrite (handle_message_active _ _ _ _ _ Hs Ha). cbv zeta.
  rewrite Ht. unfold MessageType.OTA_REQUEST, MessageType.OTA_CHUNK_ACK,
    MessageType.OTA_CHUNK_NACK, MessageType.OTA_COMPLETE.
  cbn [Z.eqb Pos.eqb]. fold u.
  rewrite (handle_complete_ok now u payload m s d c Hs Hl Hd Hp Hid).
  cbv zeta. fold d'. fold s'.
  erewrite check_session_complete_run by reflexivity.
  fold done.
  assert (Hlast :
    done = true ->
    devices_in_state COMPLETE s' + devices_in_state ERROR s' =
      len (devices s')).
  { unfold done, all_devices_done, devices_in_state. intros H.
    apply andb_true_iff in H. destruct H as [H _].
    rewrite (terminal_counts _ H). unfold dict_values, len.
    now rewrite length_map. }
  assert (Hact : is_active s' = true) by exact Ha.
  eexists. split; [reflexivity|].
  destruct done; cbn [session running lock trace set_lock protocol negb].
  - rewrite andb_false_r, <- app_assoc. repeat split; try reflexivity.
    exact Hlast.
  - rewrite andb_true_r, app_nil_r. repeat split; try reflexivity.
    + destruct s'. cbn in Hact. subst. reflexivity.
    + intros; discriminate.
Qed.

Lemma complete_report_ends_the_session_witness :
  exists m',
    handle_message 1002
      (device_header MessageType.OTA_COMPLETE
         (complete_payload 0xDEADBEEF 0 0))
      (complete_payload 0xDEADBEEF 0 0) (manager after_request)
      = Returned true m' /\
    option_map is_active (session m') = Some false /\
    running m' = false /\
    trace m' =
      trace (manager after_request) ++
      [OnDeviceComplete device_key; OnSessionComplete 1 0].
Proof.
  destruct (complete_report_ends_the_session 1002
              (device_header MessageType.OTA_COMPLETE
                 (complete_payload 0xDEADBEEF 0 0))
              (complete_payload 0xDEADBEEF 0 0) (manager after_request)
              requested_session requested_device
              (OtaComplete.mk 0xDEADBEEF 0 0))
    as (m' & E & Hs & Hr & _ & Ht & _).
  - vm_compute. reflexivity.
  - vm_compute. reflexivity.
  - vm_compute. reflexivity.
  - reflexivity.
  - vm_compute. reflexivity.
  - vm_compute. reflexivity.
  - reflexivity.
  - exists m'. split; [exact E|]. rewrite Hs, Hr, Ht.
    split; [reflexivity|]. split; vm_compute; reflexivity.
Defined.

Lemma build_ota_abort_ok (p : Protocol.t) (announce_id : Z) :
  0 <= announce_id < 2 ^ 32 ->
  exists h,
    length h = 24%nat /\
    Protocol.build_ota_abort p announce_id =
      (Some (h ++ le_encode 4 announce_id), snd (Protocol.next_sequence p)).
Proof.
  intros Ha. unfold Protocol.build_ota_abort, I. cbn [Struct.pack].
  rewrite (pack_item_in_range 4 announce_id) by (simpl Z.pow; lia).
  rewrite app_nil_r.
  apply build_packet_ok.
  - unfold MessageType.OTA_ABORT. lia.
  - unfold len. rewrite le_encode_length. cbn. lia.
Qed.

(** X14. [stop_update] without a session only clears the running flag.
    With one it sends an abort packet, the 24-byte header followed by the
    announce id, and makes the session inactive, whether or not it was
    still active and whoever holds the lock.  Once it has returned, every
    message is turned away and the announce loop ends. *)
Theorem stop_update_aborts_the_session (m : OtaManager) :
  (session m = None -> stop_update m = Returned tt (set_running false m)) /\
  (forall s, session m = Some s -> 0 <= announce_id s < 2 ^ 32 ->
   exists h,
     length h = 24%nat /\
     stop_update m =
       Returned tt
         (mkManager (snd (Protocol.next_sequence (protocol m)))
            (Some (set_is_active false s)) (lock m) false
            (trace m ++ [Send (h ++ le_encode 4 (announce_id s))]))) /\
  (forall m', stop_update m = Returned tt m' ->
   session_active m' = false /\ running m' = false /\
   (forall now header payload,
      handle_message now header payload m' = Returned false m') /\
   (forall now, _announce_loop_turn now m' = Returned false m')).
Proof.
  assert (Quiet : forall m', session_active m' = false ->
            (forall now header payload,
               handle_message now header payload m' = Returned false m') /\
            (forall now, _announce_loop_turn now m' = Returned false m')).
  { intros m' Hq. split.
    - intros. unfold handle_message. unfold session_active in Hq.
      destruct (session m') as [s'|]; [|reflexivity]. now rewrite Hq.
    - intros. unfold _announce_loop_turn. now rewrite Hq, andb_false_r. }
  split; [|split].
  - intros Hs. unfold stop_update. steps_m. now rewrite Hs.
  - intros s Hs Ha. unfold stop_update. steps_m. rewrite Hs.
    destruct (build_ota_abort_ok (protocol m) (announce_id s) Ha)
      as (h & Lh & E).
    exists h. split; [exact Lh|]. rewrite E. steps_m. rewrite Hs.
    reflexivity.
  - intros m' E. unfold stop_update in E. revert E. steps_m.
    destruct (session m) as [s|] eqn:Hs.
    + destruct (Protocol.build_ota_abort _ _) as [[packet|] p'];
        [|discriminate].
      steps_m. rewrite Hs. intros [= <-]. cbn [running].
      assert (Hq : session_active
                (mkManager p' (Some (set_is_active false s)) (lock m) false
                   (trace m ++ [Send packet])) = false) by reflexivity.
      split; [exact Hq|]. split; [reflexivity|]. now apply Quiet.
    + intros [= <-].
      assert (Hq : session_active (set_running false m) = false).
      { unfold session_active. cbn [session set_running]. now rewrite Hs. }
      split; [exact Hq|]. split; [reflexivity|]. now apply Quiet.
Qed.

Lemma build_ota_announce_ok (p : Protocol.t)
    (target v0 v1 v2 size crc id : Z) :
  0 <= target < 256 -> 0 <= v0 < 256 -> 0 <= v1 < 256 -> 0 <= v2 < 256 ->
  0 <= size <= 13107000 -> 0 <= crc < 2 ^ 32 -> 0 <= id < 2 ^ 32 ->
  exists h,
    length h = 42%nat /\
    Protocol.build_ota_announce p target (v0, v1, v2) size crc id =
      (Some h, snd (Protocol.next_sequence p)).
Proof.
  intros Ht H0 H1 H2 Hs Hc Hi.
  unfold Protocol.build_ota_announce. cbv zeta.
  unfold OtaAnnounce.pack, B, H, I.
  cbn [OtaAnnounce.target_device_type OtaAnnounce.version_major
       OtaAnnounce.version_minor OtaAnnounce.version_patch
       OtaAnnounce.firmware_size OtaAnnounce.total_chunks
       OtaAnnounce.firmware_crc OtaAnnounce.announce_id Struct.pack].
  rewrite (pack_item_in_range 1 target), (pack_item_in_range 1 v0),
    (pack_item_in_range 1 v1), (pack_item_in_range 1 v2),
    (pack_item_in_range 4 size), (pack_item_in_range 4 crc),
    (pack_item_in_range 4 id) by (simpl Z.pow; lia).
  rewrite pack_item_in_range.
  2:{ change (256 ^ Z.of_nat 2) with 65536. split.
      - apply Z.div_pos; lia.
      - apply Z.div_lt_upper_bound; lia. }
  match goal with
  | |- context [Protocol.build_packet p ?t ?pl] =>
      destruct (build_packet_ok p t pl) as (h & Lh & E);
      [ unfold MessageType.OTA_ANNOUNCE; lia
      | unfold len; rewrite !length_app, !le_encode_length; cbn; lia
      | exists (h ++ pl); split; [|exact E] ]
  end.
  rewrite !length_app, !le_encode_length, Lh. reflexivity.
Qed.

Lemma for_each_skips (keys : list string) (body : string -> M unit)
    (m : OtaManager) :
  (forall k, In k keys -> body k m = Returned tt m) ->
  for_each keys body m = Returned tt m.
Proof.
  induction keys as [|k keys IH]; intros Hb; [reflexivity|].
  cbn [for_each]. unfold bind. rewrite (Hb k (or_introl eq_refl)).
  apply IH. intros k' Hk'. apply Hb. now right.
Qed.

Lemma dict_get_key (k : string) (dv : dict) :
  In k (dict_keys dv) ->
  exists d, dict_get k dv = Some d /\ In d (dict_values dv).
Proof.
  induction dv as [|[k' v] dv IH]; [intros []|].
  cbn [dict_keys dict_values map fst snd In dict_get].
  intros Hk. destruct (String.eqb_spec k k') as [E | E].
  - exists v. split; [reflexivity | now left].
  - destruct Hk as [Hk | Hk]; [now symmetry in Hk|].
    destruct (IH Hk) as (d & Hd & Hin). exists d. split; [exact Hd | now right].
Qed.

(** X15. While no device waits for a chunk and none has timed out, a
    turn of the announce loop sends one announce of 42 bytes and changes
    nothing but the sequence number. *)
Theorem quiet_turn_only_announces (now : time) (m : OtaManager)
    (s : OtaSession) :
  session m = Some s -> is_active s = true -> running m = true ->
  lock m = false -> announceable s -> quiet now s = true ->
  exists packet,
    length packet = 42%nat /\
    _announce_loop_turn now m =
      Returned true
        (mkManager (snd (Protocol.next_sequence (protocol m))) (Some s) false
           true (trace m ++ [Send packet])).
Proof.
  intros Hs Ha Hr Hl Hann Hq.
  unfold _announce_loop_turn, session_active. rewrite Hs, Hr, Ha.
  cbn [andb].
  destruct Hann as (Ht & Hv & Hsz & Hc & Hi).
  destruct (version s) as [[v0 v1] v2] eqn:Ev. destruct Hv as (H0 & H1 & H2).
  destruct (build_ota_announce_ok (protocol m) _ v0 v1 v2 _ _ _
              Ht H0 H1 H2 Hsz Hc Hi) as (packet & Lp & Eb).
  exists packet. split; [exact Lp|].
  unfold bind at 1. unfold _send_announce. rewrite Hs.
  unfold bind at 1, build. cbn beta. rewrite Ev, Eb.
  unfold send, update. cbn beta.
  set (m1 := emit (Send packet)
               (set_protocol (snd (Protocol.next_sequence (protocol m))) m)).
  assert (Hs1 : session m1 = Some s) by exact Hs.
  assert (Hl1 : lock m1 = false) by exact Hl.
  set (m2 := set_lock true m1).
  assert (Hs2 : session m2 = Some s) by exact Hs.
  assert (Hin : forall k, In k (dict_keys (devices s)) ->
            exists d, dict_get k (devices s) = Some d /\
                      needs_chunk s d = false /\ timed_out now d = false).
  { intros k Hk. destruct (dict_get_key k _ Hk) as (d & Hd & Hind).
    exists d. split; [exact Hd|].
    unfold quiet in Hq. rewrite forallb_forall in Hq.
    specialize (Hq d Hind). apply andb_true_iff in Hq.
    destruct Hq as [A B]. apply negb_true_iff in A, B. now split. }
  assert (P : _process_pending_chunks m1 = Returned tt m1).
  { unfold _process_pending_chunks. rewrite Hs1.
    unfold with_lock, acquire. rewrite Hl1. fold m2.
    unfold for_devices, bind at 1, the_session. rewrite Hs2.
    rewrite for_each_skips.
    - f_equal. unfold m2. now apply unlock_lock.
    - intros k Hk. destruct (Hin k Hk) as (d & Hd & Hn & _).
      unfold bind at 1. rewrite the_device_run, Hs2, Hd.
      unfold bind at 1, the_session. rewrite Hs2.
      unfold needs_chunk in Hn.
      destruct (state_eqb (state d) RECEIVING); [|reflexivity].
      destruct (last_chunk_acked d + 1 <? total_chunks s); [|reflexivity].
      cbn [andb] in Hn. rewrite Hn. reflexivity. }
  assert (T : _check_timeouts now m1 = Returned tt m1).
  { unfold _check_timeouts. rewrite Hs1.
    unfold with_lock, acquire. rewrite Hl1. fold m2.
    unfold for_devices, bind at 1, the_session. rewrite Hs2.
    rewrite for_each_skips.
    - f_equal. unfold m2. now apply unlock_lock.
    - intros k Hk. destruct (Hin k Hk) as (d & Hd & _ & Hn).
      unfold bind at 1. rewrite the_device_run, Hs2, Hd.
      unfold timed_out in Hn.
      destruct (state_eqb (state d) REQUESTED || state_eqb (state d) RECEIVING);
        [|reflexivity].
      cbn [andb] in Hn. rewrite Hn. reflexivity. }
  unfold bind. rewrite P, T. unfold ret. f_equal.
  unfold m1. destruct m as [p ss l r t]. cbn in *. subst. reflexivity.
Qed.

Lemma quiet_turn_only_announces_witness :
  exists packet,
    length packet = 42%nat /\
    _announce_loop_turn 1000 started_manager =
      Returned true
        (mkManager (snd (Protocol.next_sequence (protocol started_manager)))
           (Some started_session) false true
           (trace started_manager ++ [Send packet])).
Proof.
  apply (quiet_turn_only_announces 1000 started_manager started_session).
  - vm_compute. reflexivity.
  - vm_compute. reflexivity.
  - vm_compute. reflexivity.
  - vm_compute. reflexivity.
  - vm_compute. repeat split; intros; discriminate.
  - vm_compute. reflexivity.
Defined.



(** The session started at second 1000: 2.9 seconds later two seconds
    are reported, and half a second before the start, none. *)
Example elapsed_seconds_are_cut :
  option_map Progress.elapsed_sec
    (get_progress (QArith_base.Qmake 10029 10) started_manager) = Some 2 /\
  option_map Progress.elapsed_sec
    (get_progress (QArith_base.Qmake 1999 2) started_manager) = Some 0.
Proof. split; vm_compute; reflexivity. Qed.


End MessageFacts.

(** ** The NACK claim *)

Section NackClaim.
Import Py Ota.






End NackClaim.

(** ** The outcomes of patching *)

Section PatchOutcomes.
Import Py Struct PatchAppHeader.

Lemma slice_join {A : Type} (l : list A) (a b c : Z) :
  0 <= a -> a <= b -> b <= c -> c <= len l ->
  slice l a b ++ slice l b c = slice l a c.
Proof.
  intros Ha Hab Hbc Hc.
  rewrite !slice_inside by lia.
  replace (Z.to_nat (c - a)) with (Z.to_nat (b - a) + Z.to_nat (c - b))%nat
    by lia.
  rewrite <- firstn_plus. f_equal. f_equal.
  rewrite skipn_skipn. f_equal. lia.
Qed.

Lemma header_of_fields (h : bytes) :
  header_of h =
  set_header_crc32 (le_decode (slice h 44 48))
    (set_fw_crc32 (le_decode (slice h 16 20))
       (set_fw_size (le_decode (slice h 12 16)) (header_of h))).
Proof. reflexivity. Qed.

Lemma pack_header_of (h : bytes) :
  length h = 48%nat ->
  pack_header (header_of h) =
  if ascii_build_id h then Ok h else Raise UnicodeEncodeError.
Proof.
  intros Lh. rewrite header_of_fields.
  rewrite (pack_header_parsed h _ _ _ Lh).
  destruct (ascii_build_id h); [|reflexivity].
  assert (L : len h = 48) by (unfold len; rewrite Lh; reflexivity).
  rewrite !in32_le_decode by (rewrite slice_length by lia; reflexivity).
  cbn [andb].
  assert (E : forall lo hi, 0 <= lo -> hi = lo + 4 -> hi <= 48 ->
            le_encode 4 (le_decode (slice h lo hi)) = slice h lo hi).
  { intros lo hi H0 -> H1.
    rewrite <- (le_encode_decode (slice h lo (lo + 4))) at 2.
    rewrite slice_length by lia. f_equal. lia. }
  rewrite (E 12 16), (E 16 20), (E 44 48) by lia.
  f_equal.
  rewrite (slice_join h 20 44 48), (slice_join h 16 20 48),
    (slice_join h 12 16 48), (slice_join h 0 12 48) by lia.
  rewrite <- L. apply slice_all.
Qed.

(** X18. [parse_header] raises [ValueError] on fewer than 48 bytes and
    reads only the first 48 otherwise; [pack_header] of what it read gives
    these 48 bytes back, unless the build identifier has a byte above
    0x7F, in which case it raises [UnicodeEncodeError]. *)
Theorem header_dict_roundtrip (data : bytes) :
  (len data < 48 -> parse_header data = Raise ValueError) /\
  (48 <= len data ->
   exists hdr,
     parse_header data = Ok hdr /\
     parse_header (slice data 0 48) = Ok hdr /\
     pack_header hdr =
       if ascii_build_id (slice data 0 48) then Ok (slice data 0 48)
       else Raise UnicodeEncodeError).
Proof.
  split.
  - intros Hs. unfold parse_header, APP_HEADER_SIZE.
    destruct (Z.ltb_spec (len data) 48); [reflexivity|lia].
  - intros Hl. set (h := slice data 0 48).
    assert (Lh : length h = 48%nat).
    { unfold h. rewrite slice_length by lia. reflexivity. }
    exists (header_of h).
    assert (P : parse_header h = Ok (header_of h))
      by now apply parse_header_48.
    split; [|split].
    + rewrite <- P. unfold parse_header, APP_HEADER_SIZE.
      destruct (Z.ltb_spec (len data) 48); [lia|].
      destruct (Z.ltb_spec (len h) 48) as [Hlt|_].
      { unfold len in Hlt. rewrite Lh in Hlt. lia. }
      fold h. replace (slice h 0 48) with h; [reflexivity|].
      replace 48 with (len h) at 1 by (unfold len; rewrite Lh; reflexivity).
      symmetry. apply slice_all.
    + exact P.
    + now apply pack_header_of.
Qed.

Lemma find_header_offset_cases (data : bytes) :
  find_header_offset data = -1 \/ 0 <= find_header_offset data.
Proof.
  destruct (find_header_offset_first data) as [[E _] | (j & Hj & E & _)].
  - now left.
  - right. lia.
Qed.

Lemma patch_binary_found (data : bytes) :
  0 <= find_header_offset data ->
  let off := find_header_offset data in
  let h := slice data off (off + 48) in
  off + 48 <= len data /\
  patch_binary data =
    if ascii_build_id h then
      if in32 (len data) then
        Ok (Some (slice data 0 off ++
                  patched_header (slice data 0 off) h
                    (slice data (off + 48) (len data)) ++
                  slice data (off + 48) (len data)))
      else Raise StructError
    else Raise UnicodeEncodeError.
Proof.
  intros H0 off h.
  destruct (find_header_offset_found data off eq_refl H0)
    as (_ & Hroom & _ & _).
  unfold APP_HEADER_SIZE in Hroom. split; [exact Hroom|].
  destruct (split3 data off 48 H0 ltac:(lia) Hroom)
    as (pre & x & post & Ed & Lpre & Lx & Ex).
  fold h in Ex. subst x.
  assert (Lh : length h = 48%nat) by (unfold len in Lx; lia).
  assert (Epre : slice data 0 off = pre).
  { rewrite Ed, <- Lpre. apply slice_prefix. }
  assert (Epost : slice data (off + 48) (len data) = post).
  { rewrite slice_past_end by lia.
    assert (En : Z.to_nat (off + 48) = length (pre ++ h)).
    { rewrite length_app. unfold len in Lpre, Lx. lia. }
    rewrite En. rewrite Ed at 1. rewrite app_assoc.
    rewrite skipn_app, skipn_all, Nat.sub_diag. reflexivity. }
  rewrite Epre, Epost.
  rewrite Ed at 1.
  rewrite patch_binary_shape; [|exact Lh|rewrite <- Ed; now symmetry].
  rewrite <- Ed. reflexivity.
Qed.

(** X17. [patch_binary] returns [False] exactly when no offset that is
    a multiple of 4 holds the magic number with 48 bytes remaining, in
    particular on every input shorter than 48 bytes.  Otherwise it raises
    [UnicodeEncodeError] when the build identifier of the header has a
    byte above 0x7F, [struct.error] when the binary has 2^32 bytes or
    more, and writes an output of the same length in every other case. *)
Theorem patch_binary_outcomes (data : bytes) :
  let off := find_header_offset data in
  let h := slice data off (off + 48) in
  (patch_binary data = Ok None <->
   forall k, 0 <= k -> 4 * k <= len data - 48 -> ~ magic_at data (4 * k)) /\
  (len data < 48 -> patch_binary data = Ok None) /\
  (0 <= off -> ascii_build_id h = false ->
   patch_binary data = Raise UnicodeEncodeError) /\
  (0 <= off -> ascii_build_id h = true -> 2 ^ 32 <= len data ->
   patch_binary data = Raise StructError) /\
  (0 <= off -> ascii_build_id h = true -> len data < 2 ^ 32 ->
   exists out, patch_binary data = Ok (Some out) /\ len out = len data).
Proof.
  cbv zeta.
  assert (Hnone : find_header_offset data = -1 -> patch_binary data = Ok None).
  { intros E. unfold patch_binary. rewrite E. reflexivity. }
  assert (Hfirst := find_header_offset_first data).
  assert (Hnomagic :
    (forall k, 0 <= k -> 4 * k <= len data - 48 -> ~ magic_at data (4 * k)) ->
    find_header_offset data = -1).
  { intros Hno. destruct Hfirst as [[E _] | (j & Hj & E & Hr & Hm & _)].
    - exact E.
    - exfalso. apply (Hno j Hj).
      + unfold APP_HEADER_SIZE in Hr. lia.
      + rewrite E in Hm. exact Hm. }
  split; [|split; [|split; [|split]]].
  - split.
    + intros E k Hk Hroom Hm.
      destruct (find_header_offset_cases data) as [Eo | Hpos].
      * destruct Hfirst as [[_ Hno] | (j & Hj & Ej & _)]; [|lia].
        apply (Hno k Hk); [unfold APP_HEADER_SIZE; lia | exact Hm].
      * destruct (patch_binary_found data Hpos) as [_ P]. cbv zeta in P.
        rewrite P in E.
        destruct (ascii_build_id _); [|discriminate].
        destruct (in32 _); discriminate.
    + intros Hno. apply Hnone. now apply Hnomagic.
  - intros Hs. apply Hnone. apply Hnomagic.
    intros k Hk Hroom. lia.
  - intros H0 Ha. destruct (patch_binary_found data H0) as [_ P].
    cbv zeta in P. now rewrite P, Ha.
  - intros H0 Ha Hbig. destruct (patch_binary_found data H0) as [_ P].
    cbv zeta in P. rewrite P, Ha.
    unfold in32. destruct (Z.ltb_spec (len data) (2 ^ 32)); [lia|].
    now rewrite andb_false_r.
  - intros H0 Ha Hsmall. destruct (patch_binary_found data H0) as [Hroom P].
    cbv zeta in P. rewrite P, Ha.
    unfold in32. pose proof (len_nonneg data).
    destruct (Z.leb_spec 0 (len data)); [|lia].
    destruct (Z.ltb_spec (len data) (2 ^ 32)); [|lia]. cbn [andb].
    eexists. split; [reflexivity|].
    cbv zeta in Hroom.
    set (off := find_header_offset data) in *.
    set (h := slice data off (off + 48)).
    assert (Lh : length h = 48%nat).
    { unfold h. rewrite slice_length by lia. lia. }
    rewrite !len_app.
    assert (E1 : len (slice data 0 off) = off).
    { unfold len. rewrite slice_length by lia. lia. }
    assert (E2 : len (slice data (off + 48) (len data)) = len data - (off + 48)).
    { unfold len at 1. rewrite slice_length by lia. lia. }
    rewrite E1, E2. unfold len at 1.
    rewrite (patched_header_length _ _ _ Lh). lia.
Qed.

(** X19. What [patch_binary] does to a binary does not depend on what
    the fields fw_size, fw_crc32 and header_crc32 of its header held
    before. *)
Theorem patch_ignores_old_field_values (pre h post a b c : bytes) :
  length h = 48%nat ->
  find_header_offset (pre ++ h ++ post) = len pre ->
  length a = 4%nat -> length b = 4%nat -> length c = 4%nat ->
  patch_binary
    (pre ++ (slice h 0 12 ++ a ++ b ++ slice h 20 44 ++ c) ++ post) =
  patch_binary (pre ++ h ++ post).
Proof.
  intros Lh Hoff La Lb Lc.
  pose proof (len_nonneg pre) as Hpre.
  destruct (find_header_offset_found _ _ Hoff Hpre)
    as (Hmod & Hroom & Hm & Hmin).
  rewrite <- (le_encode_decode a), <- (le_encode_decode b),
    <- (le_encode_decode c). rewrite La, Lb, Lc.
  destruct (rewritten_header_slices h (le_decode a) (le_decode b)
              (le_decode c) Lh)
    as (L' & S4 & S12 & S44 & Sasc & _).
  set (h' := slice h 0 12 ++ le_encode 4 (le_decode a) ++
             le_encode 4 (le_decode b) ++ slice h 20 44 ++
             le_encode 4 (le_decode c)) in *.
  assert (Elen : len (pre ++ h' ++ post) = len (pre ++ h ++ post)).
  { rewrite !len_app. unfold len at 2 5. now rewrite L', Lh. }
  assert (Hoff' : find_header_offset (pre ++ h' ++ post) = len pre).
  { apply find_header_offset_is; try assumption.
    - rewrite Elen. exact Hroom.
    - unfold magic_at in *. rewrite <- Hm.
      assert (E4 : forall x : bytes, length x = 48%nat ->
                slice (pre ++ x ++ post) (len pre) (len pre + 4) =
                slice x 0 4).
      { intros x Lx.
        pose proof (slice_inner pre x post 0 4) as Q.
        rewrite Z.add_0_r in Q. apply Q; unfold len; lia. }
      rewrite (E4 h' L'), (E4 h Lh). exact S4.
    - intros o Ho Hmo Hmag. apply (Hmin o Ho Hmo).
      unfold magic_at in *. rewrite <- Hmag.
      assert (Ho4 : o + 4 <= len pre).
      { pose proof (Z.div_mod o 4 ltac:(lia)).
        pose proof (Z.div_mod (len pre) 4 ltac:(lia)). lia. }
      rewrite !slice_in_prefix by lia. reflexivity. }
  rewrite (patch_binary_shape pre h' post L' Hoff').
  rewrite (patch_binary_shape pre h post Lh Hoff).
  rewrite Sasc, Elen.
  unfold patched_header. cbv zeta. rewrite S12, S44, Elen. reflexivity.
Qed.

Lemma patch_ignores_old_field_values_witness :
  patch_binary
    (slice sample_binary 0 8 ++
     (slice (slice sample_binary 8 56) 0 12 ++ [x01; x02; x03; x04] ++
      [x05; x06; x07; x08] ++ slice (slice sample_binary 8 56) 20 44 ++
      [x09; x0a; x0b; x0c]) ++
     slice sample_binary 56 60) =
  patch_binary
    (slice sample_binary 0 8 ++ slice sample_binary 8 56 ++
     slice sample_binary 56 60).
Proof.
  apply (patch_ignores_old_field_values (slice sample_binary 0 8)
           (slice sample_binary 8 56) (slice sample_binary 56 60)
           [x01; x02; x03; x04] [x05; x06; x07; x08] [x09; x0a; x0b; x0c]).
  - vm_compute. reflexivity.
  - vm_compute. reflexivity.
  - reflexivity.
  - reflexivity.
  - reflexivity.
Defined.

End PatchOutcomes.

(** ** A message followed by its CRC *)

Section CrcResidue.
Import Py.

Lemma iter_lxor (p : Z) (k : nat) (x y : Z) :
  Nat.iter k (Crcmod.shift1 p) (Z.lxor x y) =
  Z.lxor (Nat.iter k (Crcmod.shift1 p) x) (Nat.iter k (Crcmod.shift1 p) y).
Proof.
  induction k as [|k IH]; [reflexivity|].
  rewrite !Nat.iter_succ, IH. apply shift1_lxor.
Qed.

Lemma iter_shiftl (p : Z) (k : nat) (h : Z) :
  Nat.iter k (Crcmod.shift1 p) (Z.shiftl h (Z.of_nat k)) = h.
Proof.
  revert h. induction k as [|k IH]; intros h.
  - cbn. apply Z.shiftl_0_r.
  - rewrite Nat.iter_succ_r.
    replace (Z.of_nat (S k)) with (Z.of_nat k + 1) by lia.
    rewrite shift1_shiftl by lia. apply IH.
Qed.

Lemma low_byte_split (w : Z) :
  0 <= w -> w = Z.lxor (w mod 256) (Z.shiftl (w / 256) 8).
Proof.
  intros Hw. apply Z.bits_inj'. intros n Hn.
  rewrite Z.lxor_spec, Z.shiftl_spec by lia.
  change 256 with (2 ^ 8).
  destruct (Z.lt_ge_cases n 8) as [Hlt | Hge].
  - rewrite Z.mod_pow2_bits_low by lia.
    rewrite (Z.testbit_neg_r _ (n - 8)) by lia.
    now rewrite xorb_false_r.
  - rewrite Z.mod_pow2_bits_high by lia.
    rewrite <- Z.shiftr_div_pow2 by lia.
    rewrite Z.shiftr_spec by lia.
    replace (n - 8 + 8) with n by lia. reflexivity.
Qed.

(** One byte of [w] fed to the register. *)
Lemma feed_byte (p x w : Z) (k : nat) :
  k = 8%nat -> 0 <= w ->
  Z.lxor (Nat.iter k (Crcmod.shift1 p) (Z.lxor x (w mod 256))) (w / 256) =
  Nat.iter k (Crcmod.shift1 p) (Z.lxor x w).
Proof.
  intros Hk Hw.
  rewrite <- (iter_shiftl p k (w / 256)) at 1.
  rewrite <- iter_lxor. f_equal. subst k.
  change (Z.of_nat 8) with 8.
  rewrite Z.lxor_assoc. f_equal. symmetry. now apply low_byte_split.
Qed.

Lemma le_encode_succ (n : nat) (w : Z) :
  le_encode (S n) w = byte_of w :: le_encode n (w / 256).
Proof. reflexivity. Qed.

Lemma fold_left_cons {A E : Type} (f : A -> E -> A) (e : E) (l : list E)
    (a : A) :
  fold_left f (e :: l) a = fold_left f l (f a e).
Proof. reflexivity. Qed.

Lemma update_byte_iter (p x : Z) (b : byte) (k : nat) :
  k = 8%nat ->
  Crcmod.update_byte p x b =
  Nat.iter k (Crcmod.shift1 p) (Z.lxor x (byte_val b)).
Proof. intros ->. unfold Crcmod.update_byte. reflexivity. Qed.

Lemma feed_word (p : Z) (n : nat) :
  forall w x,
    0 <= w < 256 ^ Z.of_nat n ->
    fold_left (Crcmod.update_byte p) (le_encode n w) x =
    Nat.iter (8 * n) (Crcmod.shift1 p) (Z.lxor x w).
Proof.
  induction n as [|n IH]; intros w x Hw.
  - cbn in Hw. assert (w = 0) by lia. subst w.
    rewrite Z.lxor_0_r. reflexivity.
  - rewrite le_encode_succ, fold_left_cons.
    assert (Hq : 0 <= w / 256 < 256 ^ Z.of_nat n).
    { rewrite Nat2Z.inj_succ, Z.pow_succ_r in Hw by lia. split.
      - apply Z.div_pos; lia.
      - apply Z.div_lt_upper_bound; lia. }
    rewrite (IH (w / 256) _ Hq).
    rewrite (update_byte_iter p x (byte_of w) 8 eq_refl), byte_val_of.
    replace (8 * S n)%nat with (8 * n + 8)%nat by lia.
    rewrite Nat.iter_add. f_equal.
    apply (feed_byte p x w 8 eq_refl). lia.
Qed.

(** The CRC of a message followed by its own CRC, low byte first, does
    not depend on the message. *)
Lemma crc_residue (p init xorout : Z) (n : nat) (data : bytes) :
  0 <= Crcmod.crc_reflected p init xorout data < 256 ^ Z.of_nat n ->
  Crcmod.crc_reflected p init xorout
    (data ++ le_encode n (Crcmod.crc_reflected p init xorout data)) =
  Z.lxor (Nat.iter (8 * n) (Crcmod.shift1 p) xorout) xorout.
Proof.
  intros Hr. unfold Crcmod.crc_reflected in *.
  rewrite fold_left_app.
  set (r := fold_left (Crcmod.update_byte p) data init) in *.
  rewrite (feed_word p n _ r Hr).
  rewrite <- Z.lxor_assoc.
  rewrite Z.lxor_nilpotent, Z.lxor_0_l. reflexivity.
Qed.

Lemma residue_32 :
  Z.lxor (Nat.iter (8 * 4) (Crcmod.shift1 0xEDB88320) 0xFFFFFFFF) 0xFFFFFFFF =
  0x2144DF1C.
Proof. vm_compute. reflexivity. Qed.

Lemma residue_16 :
  Z.lxor (Nat.iter (8 * 2) (Crcmod.shift1 0x8408) 0) 0 = 0.
Proof. vm_compute. reflexivity. Qed.

(** X20. The CRC of a message followed by its own CRC, low byte first,
    is a constant: 0x2144DF1C for the CRC-32 of the patch script and of
    the protocol, 0 for the CRC-16 of the chunks. *)
Theorem crc_of_message_and_crc (data : bytes) :
  PatchAppHeader.crc32 (data ++ le_encode 4 (PatchAppHeader.crc32 data)) =
    0x2144DF1C /\
  crc32_func (data ++ le_encode 4 (crc32_func data)) = 0x2144DF1C /\
  crc16_func (data ++ le_encode 2 (crc16_func data)) = 0.
Proof.
  assert (R32 : 0 <= Crcmod.crc_reflected 0xEDB88320 0xFFFFFFFF 0xFFFFFFFF
                       data < 256 ^ Z.of_nat 4).
  { change (Crcmod.crc_reflected 0xEDB88320 0xFFFFFFFF 0xFFFFFFFF data)
      with (crc32_reference data).
    rewrite <- crc32_is_reference. apply crc32_range. }
  split; [|split].
  - rewrite !crc32_is_reference. unfold crc32_reference.
    rewrite (crc_residue _ _ _ 4 data R32). exact residue_32.
  - unfold crc32_func.
    rewrite (crc_residue _ _ _ 4 data R32). exact residue_32.
  - unfold crc16_func. rewrite (crc_residue _ _ _ 2 data).
    + exact residue_16.
    + apply (crc16_func_range data).
Qed.

End CrcResidue.

(** ** The sweeps of the announce loop *)

Section Sweeps.
Import Py Ota.

Ltac step_m :=
  try unfold bind; try unfold ret; try unfold raise; try unfold update;
  try unfold the_session; try unfold tracked; try unfold the_device;
  try unfold assign; try unfold acquire; try unfold with_lock;
  try unfold send; try unfold build;
  cbn [final protocol session lock running trace set_protocol set_session
       set_lock set_running emit fst snd devices set_devices set_is_active
       total_chunks announce_id is_active negb].
Ltac steps_m := repeat (progress step_m).

Lemma dict_get_past (k : string) (done rest : dict) :
  ~ In k (dict_keys done) -> dict_get k (done ++ rest) = dict_get k rest.
Proof.
  induction done as [|[k' v] done IH]; intros Hn; [reflexivity|].
  cbn [app dict_get]. cbn [dict_keys map fst In] in Hn.
  destruct (String.eqb_spec k k') as [E|_]; [exfalso; auto|].
  apply IH. intros Hin. apply Hn. now right.
Qed.

Lemma dict_set_past (k : string) (v d : DeviceOtaInfo) (done rest : dict) :
  ~ In k (dict_keys done) ->
  dict_set k v (done ++ (k, d) :: rest) = done ++ (k, v) :: rest.
Proof.
  induction done as [|[k' v'] done IH]; intros Hn.
  - cbn [app dict_set]. now rewrite String.eqb_refl.
  - cbn [app dict_set]. cbn [dict_keys map fst In] in Hn.
    destruct (String.eqb_spec k k') as [E|_]; [exfalso; auto|].
    f_equal. apply IH. intros Hin. apply Hn. now right.
Qed.

Lemma assign_past (p : Protocol.t) (s : OtaSession) (r : bool)
    (t : list effect) (done rest : dict) (k : string) (d : DeviceOtaInfo)
    (f : DeviceOtaInfo -> DeviceOtaInfo) :
  ~ In k (dict_keys done) ->
  assign k f (held p s r t (done ++ (k, d) :: rest)) =
  Returned tt (held p s r t (done ++ (k, f d) :: rest)).
Proof.
  intros Hn. rewrite assign_run. unfold held. cbn [session devices set_devices].
  rewrite (dict_get_past k done _ Hn). cbn [dict_get].
  rewrite String.eqb_refl. rewrite (dict_set_past k _ d done rest Hn).
  reflexivity.
Qed.

Lemma device_past (p : Protocol.t) (s : OtaSession) (r : bool)
    (t : list effect) (done rest : dict) (k : string) (d : DeviceOtaInfo) :
  ~ In k (dict_keys done) ->
  the_device k (held p s r t (done ++ (k, d) :: rest)) =
  Returned d (held p s r t (done ++ (k, d) :: rest)).
Proof.
  intros Hn. rewrite the_device_run. unfold held.
  cbn [session devices set_devices].
  rewrite (dict_get_past k done _ Hn). cbn [dict_get].
  now rewrite String.eqb_refl.
Qed.

(** A device that is due no chunk is passed, its record swept. *)
Lemma timeout_body_passes (now : time) (p : Protocol.t) (s : OtaSession)
    (r : bool) (t : list effect) (done rest : dict) (k : string)
    (d : DeviceOtaInfo) :
  ~ In k (dict_keys done) -> resend_due now s d = false ->
  timeout_body now k (held p s r t (done ++ (k, d) :: rest)) =
  Returned tt (held p s r t (done ++ (k, swept now d) :: rest)).
Proof.
  intros Hn Hdue. unfold timeout_body, resend_due, swept, timed_out in *.
  unfold bind at 1. rewrite (device_past _ _ _ _ _ _ _ _ Hn).
  destruct (state_eqb (state d) REQUESTED || state_eqb (state d) RECEIVING);
    [|reflexivity].
  destruct (OTA_CHUNK_TIMEOUT_SEC <? now - last_activity d); [|reflexivity].
  cbn [andb] in *.
  unfold bind at 1. rewrite (assign_past _ _ _ _ _ _ _ _ _ Hn).
  unfold bind at 1. rewrite (device_past _ _ _ _ _ _ _ _ Hn).
  cbn [retry_count set_retry_count last_chunk_acked].
  destruct (OTA_MAX_RETRIES <? retry_count d + 1).
  - unfold bind at 1. rewrite (assign_past _ _ _ _ _ _ _ _ _ Hn).
    rewrite (assign_past _ _ _ _ _ _ _ _ _ Hn). reflexivity.
  - cbn [negb andb] in Hdue. cbv zeta.
    unfold bind at 1, the_session, held at 1.
    cbn [session total_chunks set_devices]. rewrite Hdue. reflexivity.
Qed.

Lemma sweep_keys (now : time) (dv : dict) :
  dict_keys (sweep now dv) = dict_keys dv.
Proof.
  unfold dict_keys, sweep. rewrite map_map. reflexivity.
Qed.

Lemma sweep_loop (now : time) (p : Protocol.t) (s : OtaSession)
    (r : bool) (t : list effect) (more : list string) (tail rest done : dict) :
  NoDup (dict_keys (done ++ rest)) ->
  (forall d, In d (dict_values rest) -> resend_due now s d = false) ->
  for_each (dict_keys rest ++ more) (timeout_body now)
    (held p s r t (done ++ rest ++ tail)) =
  for_each more (timeout_body now)
    (held p s r t (done ++ sweep now rest ++ tail)).
Proof.
  revert done. induction rest as [|[k d] rest IH]; intros done Hnd Hq.
  - reflexivity.
  - cbn [dict_keys map fst for_each app]. unfold bind at 1.
    assert (Hn : ~ In k (dict_keys done)).
    { unfold dict_keys in Hnd. rewrite map_app in Hnd.
      cbn [map fst] in Hnd. apply NoDup_remove_2 in Hnd.
      intros Hin. apply Hnd. apply in_or_app. now left. }
    rewrite (timeout_body_passes now p s r t done (rest ++ tail) k d Hn).
    2:{ apply Hq. now left. }
    replace (done ++ (k, swept now d) :: rest ++ tail)
      with ((done ++ [(k, swept now d)]) ++ rest ++ tail)
      by (now rewrite <- app_assoc).
    fold (dict_keys rest). rewrite IH.
    + rewrite <- app_assoc. reflexivity.
    + unfold dict_keys in *. rewrite <- app_assoc, !map_app in *.
      exact Hnd.
    + intros d' Hd'. apply Hq. now right.
Qed.

Lemma check_timeouts_run (now : time) (m : OtaManager) (s : OtaSession) :
  session m = Some s -> lock m = false ->
  _check_timeouts now m =
  match for_each (dict_keys (devices s)) (timeout_body now)
          (held (protocol m) s (running m) (trace m) (devices s))
  with
  | Returned a m2 => Returned a (set_lock false m2)
  | Raised e m2 => Raised e (set_lock false m2)
  | Blocked m2 => Blocked m2
  end.
Proof.
  intros Hs Hl. unfold _check_timeouts. rewrite Hs.
  unfold with_lock, acquire. rewrite Hl.
  unfold for_devices, bind at 1, the_session.
  cbn [session set_lock]. rewrite Hs.
  replace (set_lock true m)
    with (held (protocol m) s (running m) (trace m) (devices s)).
  - reflexivity.
  - unfold held. destruct m as [p ss l r t]. cbn in *. subst.
    destruct s; reflexivity.
Qed.

(** X21. When no device that timed out is due a chunk, [_check_timeouts]
    returns and only rewrites the records: every device in REQUESTED or
    RECEIVING that was silent for more than 10 seconds gets one more
    retry, and becomes ERROR with the message "Timeout" once that makes
    more than 5.  Nothing is sent and no callback is called; the session
    stays active and the loop running, also when every device has
    failed this way. *)
Theorem timeout_sweep_without_resend (now : time) (m : OtaManager)
    (s : OtaSession) :
  session m = Some s -> lock m = false ->
  NoDup (dict_keys (devices s)) ->
  (forall d, In d (dict_values (devices s)) -> resend_due now s d = false) ->
  _check_timeouts now m =
  Returned tt (set_session (Some (set_devices (sweep now (devices s)) s)) m).
Proof.
  intros Hs Hl Hnd Hq. rewrite (check_timeouts_run now m s Hs Hl).
  pose proof (sweep_loop now (protocol m) s (running m) (trace m) [] []
                (devices s) [] Hnd Hq) as L.
  cbn [app] in L. rewrite !app_nil_r in L. rewrite L. cbn [for_each].
  unfold ret. f_equal. unfold held. destruct m as [p ss l r t]. cbn in *. now subst.
Qed.

Lemma timeout_sweep_without_resend_witness :
  _check_timeouts 1040 (manager after_five_nacks) =
  Returned tt
    (set_session
       (Some (set_devices (sweep 1040 (devices worn_session)) worn_session))
       (manager after_five_nacks)).
Proof.
  apply (timeout_sweep_without_resend 1040 (manager after_five_nacks)
           worn_session).
  - vm_compute. reflexivity.
  - vm_compute. reflexivity.
  - vm_compute. constructor; [intros []|constructor].
  - vm_compute. intros d [<-|[]]. reflexivity.
Defined.

(** A device that is due a chunk: the chunk is handed to the radio and
    [_send_chunk] waits for the lock that the sweep holds. *)
Lemma timeout_body_blocks (now : time) (p : Protocol.t) (s : OtaSession)
    (r : bool) (t : list effect) (done rest : dict) (k : string)
    (d : DeviceOtaInfo) :
  chunks_sendable s -> -1 <= last_chunk_acked d ->
  ~ In k (dict_keys done) -> resend_due now s d = true ->
  exists h,
    length h = 34%nat /\
    timeout_body now k (held p s r t (done ++ (k, d) :: rest)) =
    Blocked
      (held (snd (Protocol.next_sequence p)) s r
         (t ++ [Send (h ++ chunk_data s (last_chunk_acked d + 1))])
         (done ++
          (k, set_last_activity now (set_retry_count (retry_count d + 1) d))
          :: rest)).
Proof.
  intros (Hok & Htc & Hid) Hack Hn Hdue.
  unfold resend_due, timed_out in Hdue.
  apply andb_true_iff in Hdue. destruct Hdue as [Hdue Hc].
  apply andb_true_iff in Hdue. destruct Hdue as [Hto Hre].
  apply andb_true_iff in Hto. destruct Hto as [Hst Hto].
  apply negb_true_iff in Hre. apply Z.ltb_lt in Hc.
  set (i := last_chunk_acked d + 1) in *.
  destruct (build_ota_chunk_ok p (announce_id s) i (chunk_data s i))
    as (h & Lh & Eb); [exact Hid | lia | apply chunk_data_short; [exact Hok|lia] |].
  exists h. split; [exact Lh|].
  unfold timeout_body.
  unfold bind at 1. rewrite (device_past _ _ _ _ _ _ _ _ Hn).
  rewrite Hst, Hto.
  unfold bind at 1. rewrite (assign_past _ _ _ _ _ _ _ _ _ Hn).
  unfold bind at 1. rewrite (device_past _ _ _ _ _ _ _ _ Hn).
  cbn [retry_count set_retry_count last_chunk_acked]. rewrite Hre.
  cbv zeta. fold i.
  unfold bind at 1, the_session, held at 1.
  cbn [session total_chunks set_devices].
  destruct (Z.ltb_spec i (total_chunks s)); [|lia].
  fold (held p s r t
          (done ++ (k, set_retry_count (retry_count d + 1) d) :: rest)).
  unfold bind at 1. rewrite (assign_past _ _ _ _ _ _ _ _ _ Hn).
  match goal with
  | |- _send_chunk k i ?m = _ =>
      rewrite (send_chunk_built k i m _ (h ++ chunk_data s i)
                 (snd (Protocol.next_sequence p)) eq_refl)
  end.
  - reflexivity.
  - exact H.
  - exact Eb.
Qed.

(** X22. The first device of the table that timed out with retries left
    and a chunk still to come stops [_check_timeouts] for good.  The
    devices before it are swept, its retry is counted and its activity
    set to now, the chunk after its last acknowledged one is handed to
    the radio, and [_send_chunk] then waits for the lock that the sweep
    holds: the call never returns, the lock stays held, the chunk is
    not recorded as sent and the devices after it are not looked at. *)
Theorem timeout_resend_blocks_the_sweep (now : time) (m : OtaManager)
    (s : OtaSession) (pre post : dict) (k : string) (d : DeviceOtaInfo) :
  session m = Some s -> lock m = false -> chunks_sendable s ->
  devices s = pre ++ (k, d) :: post ->
  NoDup (dict_keys (devices s)) ->
  (forall d', In d' (dict_values pre) -> resend_due now s d' = false) ->
  resend_due now s d = true -> -1 <= last_chunk_acked d ->
  exists h,
    length h = 34%nat /\
    _check_timeouts now m =
    Blocked
      (mkManager (snd (Protocol.next_sequence (protocol m)))
         (Some (set_devices
                  (sweep now pre ++
                   (k, set_last_activity now
                         (set_retry_count (retry_count d + 1) d)) :: post) s))
         true (running m)
         (trace m ++ [Send (h ++ chunk_data s (last_chunk_acked d + 1))])).
Proof.
  intros Hs Hl Hsend Hdv Hnd Hpre Hdue Hack.
  rewrite (check_timeouts_run now m s Hs Hl).
  rewrite Hdv in *.
  assert (Hnd' : NoDup (dict_keys ([] ++ pre))).
  { unfold dict_keys in *. rewrite map_app in Hnd.
    cbn [app]. now apply NoDup_app_remove_r in Hnd. }
  assert (Hn : ~ In k (dict_keys (sweep now pre))).
  { rewrite sweep_keys. unfold dict_keys in *. rewrite map_app in Hnd.
    cbn [map fst] in Hnd. apply NoDup_remove_2 in Hnd.
    intros Hin. apply Hnd. apply in_or_app. now left. }
  replace (dict_keys (pre ++ (k, d) :: post))
    with (dict_keys pre ++ k :: dict_keys post)
    by (unfold dict_keys; now rewrite map_app).
  pose proof (sweep_loop now (protocol m) s (running m) (trace m)
                (k :: dict_keys post) ((k, d) :: post) pre [] Hnd' Hpre) as L.
  cbn [app] in L. rewrite L. cbn [for_each]. unfold bind at 1.
  destruct (timeout_body_blocks now (protocol m) s (running m) (trace m)
              (sweep now pre) post k d Hsend Hack Hn Hdue) as (h & Lh & E).
  exists h. split; [exact Lh|]. rewrite E. reflexivity.
Qed.

Lemma timeout_resend_blocks_the_sweep_witness :
  exists h,
    length h = 34%nat /\
    _check_timeouts 1032 (manager after_request) =
    Blocked
      (mkManager (snd (Protocol.next_sequence (protocol (manager after_request))))
         (Some (set_devices
                  (sweep 1032 [] ++
                   (device_key,
                    set_last_activity 1032
                      (set_retry_count (retry_count requested_device + 1)
                         requested_device)) :: []) requested_session))
         true (running (manager after_request))
         (trace (manager after_request) ++
          [Send (h ++ chunk_data requested_session
                        (last_chunk_acked requested_device + 1))])).
Proof.
  apply (timeout_resend_blocks_the_sweep 1032 (manager after_request)
           requested_session [] [] device_key requested_device).
  - vm_compute. reflexivity.
  - vm_compute. reflexivity.
  - vm_compute. repeat split; intros; discriminate.
  - vm_compute. reflexivity.
  - vm_compute. constructor; [intros []|constructor].
  - intros d' [].
  - vm_compute. reflexivity.
  - vm_compute. discriminate.
Defined.

Lemma pending_chunks_run (m : OtaManager) (s : OtaSession) :
  session m = Some s -> lock m = false ->
  _process_pending_chunks m =
  match for_each (dict_keys (devices s)) pending_body
          (held (protocol m) s (running m) (trace m) (devices s))
  with
  | Returned a m2 => Returned a (set_lock false m2)
  | Raised e m2 => Raised e (set_lock false m2)
  | Blocked m2 => Blocked m2
  end.
Proof.
  intros Hs Hl. unfold _process_pending_chunks. rewrite Hs.
  unfold with_lock, acquire. rewrite Hl.
  unfold for_devices, bind at 1, the_session.
  cbn [session set_lock]. rewrite Hs.
  replace (set_lock true m)
    with (held (protocol m) s (running m) (trace m) (devices s)).
  - reflexivity.
  - unfold held. destruct m as [p ss l r t]. cbn in *. subst.
    destruct s; reflexivity.
Qed.

Lemma pending_body_passes (p : Protocol.t) (s : OtaSession) (r : bool)
    (t : list effect) (done rest : dict) (k : string) (d : DeviceOtaInfo) :
  ~ In k (dict_keys done) -> needs_chunk s d = false ->
  pending_body k (held p s r t (done ++ (k, d) :: rest)) =
  Returned tt (held p s r t (done ++ (k, d) :: rest)).
Proof.
  intros Hn Hq. unfold pending_body, needs_chunk in *.
  unfold bind at 1. rewrite (device_past _ _ _ _ _ _ _ _ Hn).
  unfold bind at 1, the_session, held at 1.
  cbn [session total_chunks set_devices].
  destruct (state_eqb (state d) RECEIVING); [|reflexivity]. cbv zeta.
  destruct (last_chunk_acked d + 1 <? total_chunks s); [|reflexivity].
  cbn [andb] in Hq. rewrite Hq. reflexivity.
Qed.

Lemma pending_loop (p : Protocol.t) (s : OtaSession) (r : bool)
    (t : list effect) (more : list string) (tail rest done : dict) :
  NoDup (dict_keys (done ++ rest)) ->
  (forall d, In d (dict_values rest) -> needs_chunk s d = false) ->
  for_each (dict_keys rest ++ more) pending_body
    (held p s r t (done ++ rest ++ tail)) =
  for_each more pending_body (held p s r t (done ++ rest ++ tail)).
Proof.
  revert done. induction rest as [|[k d] rest IH]; intros done Hnd Hq.
  - reflexivity.
  - cbn [dict_keys map fst for_each app]. unfold bind at 1.
    assert (Hn : ~ In k (dict_keys done)).
    { unfold dict_keys in Hnd. rewrite map_app in Hnd.
      cbn [map fst] in Hnd. apply NoDup_remove_2 in Hnd.
      intros Hin. apply Hnd. apply in_or_app. now left. }
    rewrite (pending_body_passes p s r t done (rest ++ tail) k d Hn).
    2:{ apply Hq. now left. }
    replace (done ++ (k, d) :: rest ++ tail)
      with ((done ++ [(k, d)]) ++ rest ++ tail)
      by (now rewrite <- app_assoc).
    fold (dict_keys rest). apply IH.
    + unfold dict_keys in *. rewrite <- app_assoc, !map_app in *.
      exact Hnd.
    + intros d' Hd'. apply Hq. now right.
Qed.

Lemma held_is (m : OtaManager) (s : OtaSession) :
  session m = Some s -> lock m = false ->
  set_lock false (held (protocol m) s (running m) (trace m) (devices s)) = m.
Proof.
  intros Hs Hl. unfold held. destruct m as [p ss l r t]. cbn in *. subst.
  destruct s; reflexivity.
Qed.

(** X23. [_process_pending_chunks] never records a chunk as sent.  When
    no device in RECEIVING has its next chunk unsent it returns and
    changes nothing; otherwise it hands that chunk of the first such
    device to the radio and then waits forever for the lock it holds
    itself, every record as it was. *)
Theorem pending_sweep_sends_nothing_or_blocks (m : OtaManager)
    (s : OtaSession) :
  session m = Some s -> lock m = false -> chunks_sendable s ->
  NoDup (dict_keys (devices s)) ->
  ((forall d, In d (dict_values (devices s)) -> needs_chunk s d = false) ->
   _process_pending_chunks m = Returned tt m) /\
  (forall pre post k d,
     devices s = pre ++ (k, d) :: post ->
     (forall d', In d' (dict_values pre) -> needs_chunk s d' = false) ->
     needs_chunk s d = true -> -1 <= last_chunk_acked d ->
     exists h,
       length h = 34%nat /\
       _process_pending_chunks m =
       Blocked
         (mkManager (snd (Protocol.next_sequence (protocol m))) (Some s) true
            (running m)
            (trace m ++ [Send (h ++ chunk_data s (last_chunk_acked d + 1))]))).
Proof.
  intros Hs Hl (Hok & Htc & Hid) Hnd.
  rewrite (pending_chunks_run m s Hs Hl). split.
  - intros Hq.
    pose proof (pending_loop (protocol m) s (running m) (trace m) [] []
                  (devices s) [] Hnd Hq) as L.
    cbn [app] in L. rewrite !app_nil_r in L. rewrite L. cbn [for_each].
    unfold ret. f_equal. now apply held_is.
  - intros pre post k d Hdv Hpre Hneed Hack. rewrite Hdv in *.
    assert (Hnd' : NoDup (dict_keys ([] ++ pre))).
    { unfold dict_keys in *. rewrite map_app in Hnd.
      cbn [app]. now apply NoDup_app_remove_r in Hnd. }
    assert (Hn : ~ In k (dict_keys pre)).
    { unfold dict_keys in *. rewrite map_app in Hnd.
      cbn [map fst] in Hnd. apply NoDup_remove_2 in Hnd.
      intros Hin. apply Hnd. apply in_or_app. now left. }
    replace (dict_keys (pre ++ (k, d) :: post))
      with (dict_keys pre ++ k :: dict_keys post)
      by (unfold dict_keys; now rewrite map_app).
    pose proof (pending_loop (protocol m) s (running m) (trace m)
                  (k :: dict_keys post) ((k, d) :: post) pre [] Hnd' Hpre) as L.
    cbn [app] in L. rewrite L. cbn [for_each]. unfold bind at 1.
    unfold needs_chunk in Hneed.
    apply andb_true_iff in Hneed. destruct Hneed as [Hneed Hsent].
    apply andb_true_iff in Hneed. destruct Hneed as [Hst Hc].
    pose proof Hc as Hc'. apply Z.ltb_lt in Hc'.
    set (i := last_chunk_acked d + 1) in *.
    destruct (build_ota_chunk_ok (protocol m) (announce_id s) i
                (chunk_data s i))
      as (h & Lh & Eb);
      [exact Hid | lia | apply chunk_data_short; [exact Hok|lia] |].
    exists h. split; [exact Lh|].
    unfold pending_body.
    unfold bind at 1. rewrite (device_past _ _ _ _ _ _ _ _ Hn).
    unfold bind at 1, the_session, held at 1.
    cbn [session total_chunks set_devices].
    rewrite Hst. cbv zeta. fold i. rewrite Hc, Hsent.
    fold (held (protocol m) s (running m) (trace m) (pre ++ (k, d) :: post)).
    match goal with
    | |- context [_send_chunk k i ?m0] =>
        rewrite (send_chunk_built k i m0 _ (h ++ chunk_data s i)
                   (snd (Protocol.next_sequence (protocol m))) eq_refl Hc' Eb)
    end.
    unfold held. cbn [lock running trace]. rewrite <- Hdv.
    destruct s; reflexivity.
Qed.

Lemma pending_sweep_sends_nothing_or_blocks_witness :
  exists h,
    length h = 34%nat /\
    _process_pending_chunks
      (set_session (Some acked_session) (manager after_request)) =
    Blocked
      (mkManager
         (snd (Protocol.next_sequence (protocol (manager after_request))))
         (Some acked_session) true (running (manager after_request))
         (trace (manager after_request) ++
          [Send (h ++ chunk_data acked_session 1)])).
Proof.
  destruct (pending_sweep_sends_nothing_or_blocks
              (set_session (Some acked_session) (manager after_request))
              acked_session) as [_ B].
  - reflexivity.
  - vm_compute. reflexivity.
  - vm_compute. repeat split; intros; discriminate.
  - vm_compute. constructor; [intros []|constructor].
  - apply (B [] [] device_key
             (set_state RECEIVING (set_last_chunk_acked 0 requested_device))).
    + reflexivity.
    + intros d' [].
    + vm_compute. reflexivity.
    + vm_compute. discriminate.
Defined.

End Sweeps.

(** ** The controller and its packets *)

Section ControllerFacts.
Import Py Struct Controller.

Lemma land_8_testbit (f : Z) :
  (Z.land f 0x08 =? 0) = negb (Z.testbit f 3).
Proof.
  change 0x08 with (Z.shiftl 1 3).
  destruct (Z.testbit f 3) eqn:E; cbn [negb].
  - apply Z.eqb_neq. intros H0.
    assert (T : Z.testbit (Z.land f (Z.shiftl 1 3)) 3 = true).
    { rewrite Z.land_spec, E. reflexivity. }
    rewrite H0 in T. discriminate.
  - apply Z.eqb_eq. apply Z.bits_inj'. intros n Hn.
    rewrite Z.land_spec, Z.bits_0.
    destruct (Z.eq_dec n 3) as [->|Hne].
    + rewrite E. reflexivity.
    + rewrite Z.shiftl_spec by lia.
      replace (Z.testbit 1 (n - 3)) with false; [apply andb_false_r|].
      symmetry. destruct (Z.ltb_spec n 3).
      * apply Z.testbit_neg_r. lia.
      * change 1 with (Z.ones 1). apply Z.ones_spec_high. lia.
Qed.

Lemma ack_flags_model (report : SensorReport.t) :
  (if Z.land (SensorReport.flags report) 0x08 =? 0 then 0
   else Z.lor 0 SEND_LOGS) = ack_flags_of report.
Proof.
  unfold ack_flags_of. rewrite land_8_testbit.
  destruct (Z.testbit _ 3); reflexivity.
Qed.

Lemma ack_flags_range (report : SensorReport.t) :
  0 <= ack_flags_of report < 256.
Proof. unfold ack_flags_of. destruct (Z.testbit _ 3); lia. Qed.

(** An ACK for a sequence number that fits 16 bits. *)
Lemma build_ack_ok (p : Protocol.t) (sq status flags : Z) :
  0 <= sq < 65536 -> 0 <= status < 256 -> 0 <= flags < 256 ->
  exists b,
    length b = 24%nat /\
    Protocol.build_ack p sq status flags =
      (Some (b ++ le_encode 2 sq ++ le_encode 1 status ++ le_encode 1 flags),
       Protocol.mk (Protocol.uuid p) ((Protocol.sequence p + 1) mod 65536)).
Proof.
  intros Hq Hs Hf.
  unfold Protocol.build_ack, AckPayload.pack, AckPayload.FORMAT, B, H.
  cbn [AckPayload.acked_sequence AckPayload.status AckPayload.flags pack].
  rewrite !pack_item_in_range by (simpl Z.pow; lia).
  match goal with
  | |- context [Protocol.build_packet p ?t ?pl] =>
      destruct (build_packet_ok p t pl) as (b & Lb & E)
  end.
  - unfold MessageType.ACK. lia.
  - unfold len. rewrite !length_app, !le_encode_length. cbn. lia.
  - exists b. split; [exact Lb|].
    rewrite E. unfold Protocol.next_sequence. rewrite land_ffff.
    cbn [snd]. rewrite !app_nil_r. reflexivity.
Qed.

(** The handling of a sensor report, step by step. *)
Lemma handle_sensor_frame (db : statement -> bool) (now stamp : datetime)
    (data : bytes) (rssi : Z) (c : t) (h : PacketHeader.t)
    (report : SensorReport.t) :
  sensor_frame data h report ->
  let key := Protocol.uuid_to_str (PacketHeader.uuid h) in
  let old := lookup key (devices c) in
  let c1 := set_devices (store key (reported now h report rssi old) (devices c))
              c in
  let st1 := device_statement now h report rssi old in
  let st2 := data_statement stamp h report rssi in
  exists b,
    length b = 24%nat /\
    _handle_packet db now stamp data rssi c =
    if db st1 then
      if db st2 then
        Done (_send_packet
                (b ++ le_encode 2 (PacketHeader.sequence h) ++ le_encode 1 0 ++
                 le_encode 1 (ack_flags_of report))
                (set_protocol
                   (Protocol.mk (Protocol.uuid (protocol c))
                      ((Protocol.sequence (protocol c) + 1) mod 65536))
                   (emit (Commit st2) (emit (Commit st1) c1))))
      else Failed SqliteError (emit (Commit st1) c1)
    else Failed SqliteError c1.
Proof.
  intros (payload & Hp & Ht & Hr). cbv zeta.
  pose proof (parse_packet_sequence_range _ _ _ Hp) as Hq.
  destruct (build_ack_ok (protocol c) (PacketHeader.sequence h) 0
              (ack_flags_of report) Hq ltac:(lia) (ack_flags_range report))
    as (b & Lb & Eb).
  exists b. split; [exact Lb|].
  unfold _handle_packet. rewrite Hp, Ht.
  unfold MessageType.OTA_ANNOUNCE, MessageType.SENSOR_REPORT.
  cbn [Z.leb Z.compare Pos.compare Pos.compare_cont Z.eqb Pos.eqb].
  unfold _handle_sensor_report. rewrite Hr. cbv zeta.
  rewrite ack_flags_model.
  destruct (lookup _ (devices c)) as [d|] eqn:El;
    cbn [reported device_statement];
    unfold _save_device, _update_device, _store_sensor_data, execute,
      data_statement;
    cbn [Controller.last_seen Controller.battery_mv Controller.rssi
         Controller.uuid set_rssi set_battery_mv set_last_seen
         Controller.device_type first_seen firmware_version];
    destruct (db _); cbn [andthen]; try reflexivity;
    destruct (db _); cbn [andthen]; try reflexivity;
    cbn [protocol emit set_devices]; rewrite Eb; reflexivity.
Qed.

Lemma lookup_store_same (k : string) (v : DeviceInfo) (d : table) :
  lookup k (store k v d) = Some v.
Proof.
  induction d as [|[k' v'] r IH]; cbn [store lookup].
  - now rewrite String.eqb_refl.
  - destruct (String.eqb k k') eqn:E; cbn [lookup]; rewrite E;
      [reflexivity|exact IH].
Qed.

Lemma lookup_store_other (k k' : string) (v : DeviceInfo) (d : table) :
  k <> k' -> lookup k' (store k v d) = lookup k' d.
Proof.
  intros Hne. induction d as [|[k0 v0] r IH]; cbn [store lookup].
  - destruct (String.eqb_spec k' k); [congruence|reflexivity].
  - destruct (String.eqb_spec k k0) as [->|Hk]; cbn [lookup].
    + destruct (String.eqb_spec k' k0); [congruence|reflexivity].
    + destruct (String.eqb_spec k' k0); [reflexivity|exact IH].
Qed.

Lemma slice_len_bounds {A : Type} (l : list A) (lo hi : Z) :
  0 <= lo <= len l -> 0 <= hi ->
  len (slice l lo hi) <= Z.max 0 (hi - lo) /\
  len (slice l lo hi) <= len l - lo.
Proof.
  intros Hlo. unfold slice, clamp, len in *.
  intros Hhi.
  destruct (Z.ltb_spec lo 0); [lia|].
  destruct (Z.ltb_spec hi 0); [lia|].
  rewrite length_firstn, length_skipn. lia.
Qed.

Lemma parse_packet_payload_len_range (data payload : bytes)
    (h : PacketHeader.t) :
  Protocol.parse_packet data = Some (h, payload) ->
  0 <= PacketHeader.payload_len h < 256.
Proof.
  unfold Protocol.parse_packet, PacketHeader.unpack.
  destruct (_ <? _); [discriminate|].
  destruct (Struct.unpack _ _) as [vs|] eqn:E; [|discriminate].
  apply unpack_items_of in E. subst vs.
  unfold PacketHeader.FORMAT, B, H.
  cbn [unpack_items unpack_item item_size].
  intros [= <- _]. cbn [PacketHeader.payload_len].
  apply (le_decode_firstn 1).
Qed.

(** X24. A sensor report that parses, with the radio present and the
    database accepting both statements: the device is inserted when new
    and updated when known (the time, battery level and RSSI of the
    report; its type, first sighting and firmware version as they
    were), the measurement is inserted, and then one ACK is handed to the
    radio: 24 bytes of header, the sequence number of the report, status
    0, and the flag SEND_LOGS exactly when bit 3 (HAS_PENDING) of the
    report flags is set.  The ACK takes the next sequence number. *)
Theorem sensor_report_is_stored_and_acknowledged (db : statement -> bool)
    (now stamp : datetime) (data : bytes) (rssi : Z) (c : Controller.t)
    (h : PacketHeader.t) (report : SensorReport.t) :
  sensor_frame data h report -> lora c = true ->
  db (device_statement now h report rssi (known c h)) = true ->
  db (data_statement stamp h report rssi) = true ->
  exists b,
    length b = 24%nat /\
    _handle_packet db now stamp data rssi c =
    Done
      (Controller.mk
         (Protocol.mk (Protocol.uuid (protocol c))
            ((Protocol.sequence (protocol c) + 1) mod 65536))
         (ota_manager c) true
         (store (key_of h) (reported now h report rssi (known c h))
            (devices c))
         (log c ++
          [Commit (device_statement now h report rssi (known c h));
           Commit (data_statement stamp h report rssi);
           Transmit (b ++ le_encode 2 (PacketHeader.sequence h) ++ [x00] ++
                     [if Z.testbit (SensorReport.flags report) 3 then x01
                      else x00])])).
Proof.
  intros Hf Hl H1 H2.
  destruct (handle_sensor_frame db now stamp data rssi c h report Hf)
    as (b & Lb & E).
  cbv zeta in E. fold (key_of h) in E. fold (known c h) in E.
  rewrite H1, H2 in E.
  exists b. split; [exact Lb|]. rewrite E.
  unfold _send_packet.
  cbn [lora set_protocol emit set_devices protocol ota_manager devices log].
  rewrite Hl. unfold emit.
  cbn [lora set_protocol emit set_devices protocol ota_manager devices log].
  rewrite <- !app_assoc. cbn [app]. rewrite Hl.
  unfold ack_flags_of. destruct (Z.testbit _ 3); reflexivity.
Qed.

Lemma sensor_report_is_stored_and_acknowledged_witness :
  exists b,
    length b = 24%nat /\
    _handle_packet (fun _ => true) 1000 1001 report_frame (-80)
      fresh_controller =
    Done
      (Controller.mk
         (Protocol.mk (Protocol.uuid (protocol fresh_controller))
            ((Protocol.sequence (protocol fresh_controller) + 1) mod 65536))
         (ota_manager fresh_controller) true
         (store (key_of report_header)
            (reported 1000 report_header report_fields (-80)
               (known fresh_controller report_header))
            (devices fresh_controller))
         (log fresh_controller ++
          [Commit (device_statement 1000 report_header report_fields (-80)
                     (known fresh_controller report_header));
           Commit (data_statement 1001 report_header report_fields (-80));
           Transmit (b ++ le_encode 2 (PacketHeader.sequence report_header) ++
                     [x00] ++
                     [if Z.testbit (SensorReport.flags report_fields) 3
                      then x01 else x00])])).
Proof.
  apply (sensor_report_is_stored_and_acknowledged (fun _ => true) 1000 1001
           report_frame (-80) fresh_controller report_header report_fields).
  - exists report_payload. vm_compute. repeat split.
  - reflexivity.
  - reflexivity.
  - reflexivity.
Defined.

(** X25. No ACK without the record: when the database refuses the
    statement for the device or the one for the measurement,
    [_handle_packet] raises, nothing is handed to the radio and no
    sequence number is taken.  The table of devices in memory has by
    then the new or updated record all the same, so a device whose
    insert was refused counts as known from then on. *)
Theorem refused_statement_leaves_no_ack (db : statement -> bool)
    (now stamp : datetime) (data : bytes) (rssi : Z) (c : Controller.t)
    (h : PacketHeader.t) (report : SensorReport.t) :
  sensor_frame data h report ->
  db (device_statement now h report rssi (known c h)) = false \/
  db (data_statement stamp h report rssi) = false ->
  _handle_packet db now stamp data rssi c =
  Failed SqliteError
    (Controller.mk (protocol c) (ota_manager c) (lora c)
       (store (key_of h) (reported now h report rssi (known c h)) (devices c))
       (log c ++
        if db (device_statement now h report rssi (known c h))
        then [Commit (device_statement now h report rssi (known c h))]
        else [])).
Proof.
  intros Hf Hdb.
  destruct (handle_sensor_frame db now stamp data rssi c h report Hf)
    as (b & Lb & E).
  cbv zeta in E. fold (key_of h) in E. fold (known c h) in E.
  rewrite E.
  destruct (db (device_statement now h report rssi (known c h))) eqn:E1.
  - destruct Hdb as [Hdb | Hdb]; [discriminate|]. rewrite Hdb. reflexivity.
  - rewrite app_nil_r. reflexivity.
Qed.

Lemma refused_statement_leaves_no_ack_witness :
  _handle_packet (fun _ => false) 1000 1001 report_frame (-80)
    fresh_controller =
  Failed SqliteError
    (Controller.mk (protocol fresh_controller) (ota_manager fresh_controller)
       (lora fresh_controller)
       (store (key_of report_header)
          (reported 1000 report_header report_fields (-80)
             (known fresh_controller report_header))
          (devices fresh_controller))
       (log fresh_controller ++
        if (fun _ : statement => false)
             (device_statement 1000 report_header report_fields (-80)
                (known fresh_controller report_header))
        then [Commit (device_statement 1000 report_header report_fields (-80)
                        (known fresh_controller report_header))]
        else [])).
Proof.
  apply (refused_statement_leaves_no_ack (fun _ => false) 1000 1001
           report_frame (-80) fresh_controller report_header report_fields).
  - exists report_payload. vm_compute. repeat split.
  - left. reflexivity.
Defined.

Lemma inserts_of_app (k : string) (a b : list effect) :
  inserts_of k (a ++ b) = inserts_of k a ++ inserts_of k b.
Proof. unfold inserts_of. apply flat_map_app. Qed.

Lemma handle_packet_keeps (db : statement -> bool) (now stamp : datetime)
    (data : bytes) (rssi : Z) (c : Controller.t) (k : string)
    (d : DeviceInfo) :
  lookup k (devices c) = Some d ->
  kept k d c (final (_handle_packet db now stamp data rssi c)).
Proof.
  intros Hk.
  assert (Same : kept k d c c).
  { split; [|reflexivity]. exists d. repeat split; assumption. }
  unfold _handle_packet.
  destruct (Protocol.parse_packet data) as [[h payload]|] eqn:Hp;
    [|exact Same].
  destruct (_ <=? _).
  { destruct (ota_manager c) as [m|]; [|exact Same].
    destruct (Ota.handle_message _ _ _ _); exact Same. }
  destruct (_ =? _) eqn:Ht; [|exact Same].
  apply Z.eqb_eq in Ht.
  destruct (Protocol.parse_sensor_report payload) as [report|] eqn:Hr.
  2:{ unfold _handle_sensor_report. rewrite Hr. exact Same. }
  assert (Hf : sensor_frame data h report).
  { exists payload. repeat split; assumption. }
  destruct (handle_sensor_frame db now stamp data rssi c h report Hf)
    as (b & Lb & E).
  unfold _handle_packet in E. rewrite Hp in E.
  destruct (_ <=? _) eqn:Ho in E.
  { rewrite Ht in Ho. discriminate. }
  rewrite Ht in E. cbn [Z.eqb Pos.eqb MessageType.SENSOR_REPORT] in E.
  unfold MessageType.SENSOR_REPORT in E. cbn [Z.eqb Pos.eqb] in E.
  rewrite E. cbv zeta. fold (key_of h). fold (known c h).
  assert (Htab : exists d',
            lookup k (store (key_of h)
                        (reported now h report rssi (known c h)) (devices c))
              = Some d' /\
            Controller.uuid d' = Controller.uuid d /\
            Controller.device_type d' = Controller.device_type d /\
            first_seen d' = first_seen d /\
            firmware_version d' = firmware_version d).
  { destruct (String.eqb_spec (key_of h) k) as [Ek | Ek].
    - rewrite Ek, lookup_store_same. unfold known. rewrite Ek, Hk.
      eexists. split; [reflexivity|]. cbn. repeat split.
    - rewrite (lookup_store_other _ _ _ _ Ek). exists d.
      repeat split; assumption. }
  assert (Hst : inserts_of k
                  [Commit (device_statement now h report rssi (known c h))]
                = []).
  { unfold known, device_statement.
    destruct (lookup (key_of h) (devices c)) as [d0|] eqn:E0; [reflexivity|].
    cbn [inserts_of flat_map reported Controller.uuid].
    fold (key_of h).
    destruct (String.eqb_spec (key_of h) k) as [Ek | Ek]; [|reflexivity].
    rewrite Ek in E0. congruence. }
  destruct (db (device_statement now h report rssi (known c h))).
  - destruct (db (data_statement stamp h report rssi)).
    + cbn [final]. unfold _send_packet.
      cbn [lora set_protocol emit set_devices protocol ota_manager devices
           log].
      split.
      * destruct (lora c);
          cbn [lora set_protocol emit set_devices protocol ota_manager
               devices log]; exact Htab.
      * destruct (lora c);
          cbn [lora set_protocol emit set_devices protocol ota_manager
               devices log];
          rewrite !inserts_of_app, Hst; cbn [inserts_of flat_map app];
          rewrite ?app_nil_r; reflexivity.
    + split; cbn [final emit set_devices devices log]; [exact Htab|].
      rewrite inserts_of_app, Hst. apply app_nil_r.
  - split; cbn [final set_devices devices log]; [exact Htab|reflexivity].
Qed.

Lemma kept_trans (k : string) (d d1 : DeviceInfo) (c c1 c2 : Controller.t) :
  kept k d c c1 -> lookup k (devices c1) = Some d1 -> kept k d1 c1 c2 ->
  kept k d c c2.
Proof.
  intros [(d' & L' & U & T & F & V) I] L1 [(d2 & L2 & U2 & T2 & F2 & V2) I2].
  rewrite L1 in L'. injection L' as <-.
  split; [|congruence].
  exists d2. repeat split; congruence.
Qed.

(** X26. A device that is in the table stays in it through every run of
    the receive loop, however the loop ends: whatever packets arrive
    and whatever the database answers, its record keeps its UUID, device
    type, first sighting and firmware version, and no statement
    inserting that device is committed. *)
Theorem registered_device_is_kept (rs : list reception) (c : Controller.t)
    (k : string) (d : DeviceInfo) :
  lookup k (devices c) = Some d ->
  (exists d',
     lookup k (devices (final (_receive_loop rs c))) = Some d' /\
     Controller.uuid d' = Controller.uuid d /\
     Controller.device_type d' = Controller.device_type d /\
     first_seen d' = first_seen d /\
     firmware_version d' = firmware_version d) /\
  inserts_of k (log (final (_receive_loop rs c))) = inserts_of k (log c).
Proof.
  revert c d. induction rs as [|r rs IH]; intros c d Hk.
  - split; [|reflexivity]. exists d. repeat split; assumption.
  - cbn [_receive_loop].
    pose proof (handle_packet_keeps (rx_db r) (rx_now r) (rx_stamp r)
                  (rx_data r) (rx_rssi r) c k d Hk) as K.
    destruct (_handle_packet _ _ _ _ _ c) as [c1|e c1|c1];
      cbn [andthen final] in *; try exact K.
    destruct K as [(d1 & L1 & K1) I1].
    apply (kept_trans k d d1 c c1); [|exact L1|].
    + split; [|exact I1]. exists d1. split; [exact L1|exact K1].
    + apply (IH c1 d1 L1).
Qed.

Lemma registered_device_is_kept_witness :
  (exists d',
     lookup device_key
       (devices (final (_receive_loop later_receptions reported_controller)))
       = Some d' /\
     Controller.uuid d' = Controller.uuid first_record /\
     Controller.device_type d' = Controller.device_type first_record /\
     first_seen d' = first_seen first_record /\
     firmware_version d' = firmware_version first_record) /\
  inserts_of device_key
    (log (final (_receive_loop later_receptions reported_controller))) =
  inserts_of device_key (log reported_controller).
Proof.
  apply (registered_device_is_kept later_receptions reported_controller
           device_key first_record).
  vm_compute. reflexivity.
Defined.

(** X27. Frames dropped in silence, the controller left as it was: a
    frame shorter than 24 bytes; a frame of a type below 0x10 other than
    SENSOR_REPORT; a sensor report whose length byte is below 15 or
    whose frame has fewer than 39 bytes, whatever else it carries; and
    a frame of a type from 0x10 on when there is no OTA manager. *)
Theorem frames_dropped_in_silence (db : statement -> bool)
    (now stamp : datetime) (data : bytes) (rssi : Z) (c : Controller.t) :
  (len data < 24 -> _handle_packet db now stamp data rssi c = Done c) /\
  (forall h payload,
     Protocol.parse_packet data = Some (h, payload) ->
     PacketHeader.msg_type h < 0x10 ->
     PacketHeader.msg_type h <> 0x01 \/ PacketHeader.payload_len h < 15 \/
     len data < 39 ->
     _handle_packet db now stamp data rssi c = Done c) /\
  (forall h payload,
     Protocol.parse_packet data = Some (h, payload) ->
     0x10 <= PacketHeader.msg_type h -> ota_manager c = None ->
     _handle_packet db now stamp data rssi c = Done c).
Proof.
  split; [|split].
  - intros Hs. unfold _handle_packet, Protocol.parse_packet.
    rewrite header_size.
    destruct (Z.ltb_spec (len data) 24); [reflexivity|lia].
  - intros h payload Hp Ht Hc. unfold _handle_packet. rewrite Hp.
    unfold MessageType.OTA_ANNOUNCE, MessageType.SENSOR_REPORT.
    destruct (Z.leb_spec 0x10 (PacketHeader.msg_type h)); [lia|].
    destruct (Z.eqb_spec (PacketHeader.msg_type h) 1) as [E1|]; [|reflexivity].
    destruct Hc as [Hc | Hc]; [congruence|].
    unfold _handle_sensor_report, Protocol.parse_sensor_report.
    assert (Hshort : len payload < 15).
    { pose proof (parse_packet_payload_len_range _ _ _ Hp) as Hpl.
      assert (Hl : 24 <= len data /\
                   payload = slice data 24 (24 + PacketHeader.payload_len h)).
      { revert Hp. unfold Protocol.parse_packet. rewrite header_size.
        destruct (Z.ltb_spec (len data) 24) as [|Hl]; [discriminate|].
        destruct (PacketHeader.unpack data) as [h'|]; [|discriminate].
        intros Hp. split; [exact Hl|congruence]. }
      destruct Hl as [Hl ->].
      destruct (slice_len_bounds data 24 (24 + PacketHeader.payload_len h))
        as [B1 B2]; [lia|lia|]. lia. }
    change SensorReport.SIZE with 15.
    destruct (Z.ltb_spec (len payload) 15); [reflexivity|lia].
  - intros h payload Hp Ht Hn. unfold _handle_packet. rewrite Hp, Hn.
    unfold MessageType.OTA_ANNOUNCE.
    destruct (Z.leb_spec 0x10 (PacketHeader.msg_type h)); [reflexivity|lia].
Qed.

End ControllerFacts.

(** ** The registers of the radio *)

Section LoRaFacts.
Import LoRa.

Variable Spi : Type.
Variable xfer2 : list Z -> Spi -> list Z * Spi.

Lemma in_between (lo hi x : Z) : lo <= x <= hi -> In x (between lo hi).
Proof.
  intros Hx. unfold between. apply in_map_iff.
  exists (Z.to_nat (x - lo)). split; [lia|].
  apply in_seq. lia.
Qed.

(** A property of the bytes, checked on each of them. *)
Lemma by_cases (lo hi : Z) (P : Z -> bool) :
  forallb P (between lo hi) = true -> forall x, lo <= x <= hi -> P x = true.
Proof.
  intros H x Hx. rewrite forallb_forall in H. apply H. now apply in_between.
Qed.

(** X28. Whatever power is asked for, [_set_tx_power] makes two
    transfers: 0x87 or 0x84 to PA_DAC (0xCD on the wire), then PA_BOOST
    plus a level of four bits to PA_CONFIG (0x89).  Up to 17 dBm the
    level is the power limited to 2..17, minus 2, with the DAC at 0x84;
    above, it is the power limited to 18..20, minus 5, with the DAC at
    0x87. *)
Theorem tx_power_registers (power : Z) (spi : Spi) :
  exists dac level,
    _set_tx_power Spi xfer2 power spi =
      snd (xfer2 [0x89; 0x80 + level] (snd (xfer2 [0xCD; dac] spi))) /\
    0 <= level <= 15 /\
    (power <= 17 -> dac = 0x84 /\ level = limited 2 17 power - 2) /\
    (17 < power -> dac = 0x87 /\ level = limited 18 20 power - 5).
Proof.
  unfold _set_tx_power, _write_register, REG_PA_DAC, REG_PA_CONFIG, PA_BOOST.
  cbv zeta.
  assert (B : forall x, 0 <= x <= 15 -> Z.lor 0x80 x = 0x80 + x).
  { intros x Hx.
    pose proof (by_cases 0 15 (fun x => Z.lor 0x80 x =? 0x80 + x) eq_refl x Hx)
      as E. now apply Z.eqb_eq in E. }
  change (Z.lor 0x4D 0x80) with 0xCD. change (Z.lor 0x09 0x80) with 0x89.
  destruct (Z.ltb_spec 17 (Z.max 2 (Z.min 20 power))) as [Hhi | Hlo].
  - exists 0x87, (Z.min (Z.max 2 (Z.min 20 power)) 20 - 5).
    rewrite B by lia. unfold limited. repeat split; lia.
  - exists 0x84, (Z.max 2 (Z.min 20 power) - 2).
    rewrite B by lia. unfold limited. repeat split; lia.
Qed.

Lemma by_cases2 (lo hi lo' hi' : Z) (P : Z -> Z -> bool) :
  forallb (fun x => forallb (P x) (between lo' hi')) (between lo hi) = true ->
  forall x y, lo <= x <= hi -> lo' <= y <= hi' -> P x y = true.
Proof.
  intros H x y Hx Hy.
  pose proof (by_cases lo hi _ H x Hx) as H'. cbv beta in H'.
  exact (by_cases lo' hi' _ H' y Hy).
Qed.

Lemma high_nibble_set (c v : Z) :
  0 <= c <= 255 -> 0 <= v <= 15 ->
  Z.lor (Z.land c 0x0F) (Z.shiftl v 4) = c mod 16 + 16 * v.
Proof.
  intros Hc Hv.
  assert (E : forallb (fun c => forallb (fun v =>
                Z.lor (Z.land c 0x0F) (Z.shiftl v 4) =? c mod 16 + 16 * v)
                (between 0 15)) (between 0 255) = true)
    by (vm_compute; reflexivity).
  pose proof (by_cases2 _ _ _ _ _ E c v Hc Hv) as E'.
  now apply Z.eqb_eq in E'.
Qed.

Lemma coding_bits_set (c v : Z) :
  0 <= c <= 255 -> 0 <= v <= 7 ->
  Z.lor (Z.land c 0xF1) (Z.shiftl v 1) = 16 * (c / 16) + 2 * v + c mod 2.
Proof.
  intros Hc Hv.
  assert (E : forallb (fun c => forallb (fun v =>
                Z.lor (Z.land c 0xF1) (Z.shiftl v 1) =?
                16 * (c / 16) + 2 * v + c mod 2)
                (between 0 7)) (between 0 255) = true)
    by (vm_compute; reflexivity).
  pose proof (by_cases2 _ _ _ _ _ E c v Hc Hv) as E'.
  now apply Z.eqb_eq in E'.
Qed.

Lemma read_register_run (address : Z) (spi spi' : Spi) (response : list Z) :
  xfer2 [Z.land address 0x7F; 0x00] spi = (response, spi') ->
  _read_register Spi xfer2 address spi = (nth_error response 1, spi').
Proof. intros E. unfold _read_register. now rewrite E. Qed.

(** X29. [_set_spreading_factor] writes the detection registers (0xC5
    and 0x0C for a factor of 6 or less, 0xC3 and 0x0A otherwise), reads
    MODEM_CONFIG_2, and writes it back with the low four bits as read
    and the factor, limited to 6..12, in the high four: a byte.  When
    the device answers with fewer than two bytes the read raises and
    nothing is written back. *)
Theorem spreading_factor_registers (sf : Z) (spi spi1 spi2 spi3 : Spi)
    (r1 r2 response : list Z) :
  xfer2 [0xB1; if sf <=? 6 then 0xC5 else 0xC3] spi = (r1, spi1) ->
  xfer2 [0xB7; if sf <=? 6 then 0x0C else 0x0A] spi1 = (r2, spi2) ->
  xfer2 [0x1E; 0x00] spi2 = (response, spi3) ->
  (forall c, nth_error response 1 = Some c -> 0 <= c <= 255 ->
   _set_spreading_factor Spi xfer2 sf spi =
     (Some tt,
      snd (xfer2 [0x9E; c mod 16 + 16 * limited 6 12 sf] spi3)) /\
   0 <= c mod 16 + 16 * limited 6 12 sf <= 255) /\
  (nth_error response 1 = None ->
   _set_spreading_factor Spi xfer2 sf spi = (None, spi3)).
Proof.
  intros E1 E2 E3.
  assert (Hsf : 6 <= limited 6 12 sf <= 12) by (unfold limited; lia).
  assert (Hrun : _set_spreading_factor Spi xfer2 sf spi =
            match nth_error response 1 with
            | Some config2 =>
                (Some tt,
                 _write_register Spi xfer2 REG_MODEM_CONFIG_2
                   (Z.lor (Z.land config2 0x0F) (Z.shiftl (limited 6 12 sf) 4))
                   spi3)
            | None => (None, spi3)
            end).
  { unfold _set_spreading_factor. cbv zeta. fold (limited 6 12 sf).
    assert (Et : (limited 6 12 sf =? 6) = (sf <=? 6)).
    { unfold limited. destruct (Z.leb_spec sf 6); [apply Z.eqb_eq|apply Z.eqb_neq]; lia. }
    rewrite Et. unfold _write_register.
    unfold REG_DETECTION_OPTIMIZE, REG_DETECTION_THRESHOLD.
    change (Z.lor 0x31 0x80) with 0xB1. change (Z.lor 0x37 0x80) with 0xB7.
    destruct (sf <=? 6); rewrite E1; cbn [snd]; rewrite E2; cbn [snd];
      rewrite (read_register_run REG_MODEM_CONFIG_2 spi2 spi3 response E3);
      destruct (nth_error response 1); reflexivity. }
  split.
  - intros c Hc Hr. rewrite Hrun, Hc.
    rewrite high_nibble_set by lia. split; [reflexivity|].
    pose proof (Z.mod_pos_bound c 16 ltac:(lia)). lia.
  - intros Hn. now rewrite Hrun, Hn.
Qed.

Lemma bandwidth_code_range (bw : Z) : 0 <= get bw_map bw 7 <= 9.
Proof.
  unfold bw_map. cbn [get].
  repeat match goal with
         | |- context [if ?b then _ else _] => destruct b
         end; lia.
Qed.


(** X30. On MODEM_CONFIG_1, read as the byte [c]: [_set_bandwidth]
    writes back the low four bits of [c] under the code of the
    bandwidth, which is at most 9, and is 7 (125 kHz) for a bandwidth
    that is not in the table; [_set_coding_rate] writes back [c] with
    bits 1 to 3 replaced by the rate, limited to 5..8, minus 4, so that
    the bandwidth bits and bit 0 stay.  Both write a byte. *)
Theorem modem_config_1_fields (spi spi1 : Spi) (response : list Z) (c : Z) :
  xfer2 [0x1D; 0x00] spi = (response, spi1) ->
  nth_error response 1 = Some c -> 0 <= c <= 255 ->
  (forall bw,
     _set_bandwidth Spi xfer2 bw spi =
       (Some tt, snd (xfer2 [0x9D; c mod 16 + 16 * get bw_map bw 7] spi1)) /\
     0 <= c mod 16 + 16 * get bw_map bw 7 <= 255 /\
     ((forall code, ~ In (bw, code) bw_map) -> get bw_map bw 7 = 7)) /\
  (forall cr,
     _set_coding_rate Spi xfer2 cr spi =
       (Some tt,
        snd (xfer2 [0x9D; 16 * (c / 16) + 2 * (limited 5 8 cr - 4) + c mod 2]
               spi1)) /\
     0 <= 16 * (c / 16) + 2 * (limited 5 8 cr - 4) + c mod 2 <= 255).
Proof.
  intros E Hc Hr. split.
  - intros bw. pose proof (bandwidth_code_range bw) as Hb.
    split; [|split].
    + unfold _set_bandwidth. cbv zeta.
      rewrite (read_register_run REG_MODEM_CONFIG_1 spi spi1 response E), Hc.
      rewrite high_nibble_set by lia. reflexivity.
    + pose proof (Z.mod_pos_bound c 16 ltac:(lia)). lia.
    + intros Hno. unfold bw_map in *. cbn [get].
      repeat match goal with
             | |- context [if ?x =? ?y then _ else _] =>
                 destruct (Z.eqb_spec x y) as [->|_];
                 [exfalso; eapply Hno; cbn [In]; eauto 12|]
             end.
      reflexivity.
  - intros cr.
    assert (Hcr : 1 <= limited 5 8 cr - 4 <= 4) by (unfold limited; lia).
    split.
    + unfold _set_coding_rate. cbv zeta. fold (limited 5 8 cr).
      rewrite (read_register_run REG_MODEM_CONFIG_1 spi spi1 response E), Hc.
      rewrite coding_bits_set by lia. reflexivity.
    + pose proof (Z.mod_pos_bound c 2 ltac:(lia)).
      pose proof (Z.div_lt_upper_bound c 16 16 ltac:(lia) ltac:(lia)).
      pose proof (Z.div_pos c 16 ltac:(lia) ltac:(lia)). lia.
Qed.

End LoRaFacts.

Section LoRaOnABus.
Import LoRa.

Lemma spreading_factor_registers_witness :
  (forall c, nth_error [0x00; 0x72] 1 = Some c -> 0 <= c <= 255 ->
   _set_spreading_factor (list (list Z)) recording_bus 10 [] =
     (Some tt,
      snd (recording_bus [0x9E; c mod 16 + 16 * limited 6 12 10]
             [[0xB1; 0xC3]; [0xB7; 0x0A]; [0x1E; 0x00]])) /\
   0 <= c mod 16 + 16 * limited 6 12 10 <= 255) /\
  (nth_error [0x00; 0x72] 1 = None ->
   _set_spreading_factor (list (list Z)) recording_bus 10 [] =
     (None, [[0xB1; 0xC3]; [0xB7; 0x0A]; [0x1E; 0x00]])).
Proof.
  apply (spreading_factor_registers (list (list Z)) recording_bus 10 [] [[0xB1; 0xC3]]
           [[0xB1; 0xC3]; [0xB7; 0x0A]]
           [[0xB1; 0xC3]; [0xB7; 0x0A]; [0x1E; 0x00]]
           [0x00; 0x72] [0x00; 0x72] [0x00; 0x72]).
  - reflexivity.
  - reflexivity.
  - reflexivity.
Defined.

Lemma modem_config_1_fields_witness :
  (forall bw,
     _set_bandwidth (list (list Z)) recording_bus bw [] =
       (Some tt,
        snd (recording_bus [0x9D; 0x72 mod 16 + 16 * get bw_map bw 7]
               [[0x1D; 0x00]])) /\
     0 <= 0x72 mod 16 + 16 * get bw_map bw 7 <= 255 /\
     ((forall code, ~ In (bw, code) bw_map) -> get bw_map bw 7 = 7)) /\
  (forall cr,
     _set_coding_rate (list (list Z)) recording_bus cr [] =
       (Some tt,
        snd (recording_bus
               [0x9D; 16 * (0x72 / 16) + 2 * (limited 5 8 cr - 4) + 0x72 mod 2]
               [[0x1D; 0x00]])) /\
     0 <= 16 * (0x72 / 16) + 2 * (limited 5 8 cr - 4) + 0x72 mod 2 <= 255).
Proof.
  apply (modem_config_1_fields (list (list Z)) recording_bus [] [[0x1D; 0x00]] [0x00; 0x72] 0x72).
  - reflexivity.
  - reflexivity.
  - lia.
Defined.

End LoRaOnABus.
